(** * my-sns: feed aggregation, like/comment mutations and the optimistic
      post card, embedded from the TypeScript sources.

    Layout of the development:
    - [User], [Post], [Like], [Comment]: rows of lib/types.ts;
    - text: UTF-8 strings with the [length] and [trim] of JavaScript and
      the [LENGTH] of Postgres;
    - [Db] and the query primitives: the relations created by the
      migrations under supabase/migrations, with their constraints;
    - [Handler]: a state-and-early-return monad for the route handlers
      of app/api (likes POST/DELETE, comments POST/DELETE, posts GET);
      [Read]: the reads of posts GET that may come back without data;
    - [Feed], [Pager]: the pager of components/post/PostFeed.tsx;
    - [Card]: the local state and callbacks of components/post/PostCard.tsx;
    - [Form], [FormSession]: components/comment/CommentForm.tsx. *)

From Stdlib Require Import ZArith.
From stdpp Require Import base tactics option list sorting gmap strings pretty.

Local Open Scope string_scope.

(** ** Rows (lib/types.ts)

    Identifiers are UUID strings; timestamps are kept as integers
    (microseconds), which is all the code ever does with them: it hands
    them to ORDER BY and copies them. *)

Module User.
Record t := mk { id : string; clerk_id : string; name : string; created_at : Z }.
End User.

Module Post.
Record t := mk {
    id : string;
    user_id : string;
    image_url : string;
    caption : option string;
    created_at : Z;
    updated_at : Z
}.
End Post.

Module Like.
Record t := mk { id : string; post_id : string; user_id : string; created_at : Z }.
End Like.

Module Comment.
Record t := mk {
    id : string;
    post_id : string;
    user_id : string;
    content : string;
    created_at : Z;
    updated_at : Z
}.
End Comment.

(** [CommentWithUser extends Comment { user: User }]. The comments POST
    route may answer with [user: null] when the join fails, hence the
    option. *)
Module CommentWithUser.
Record t := mk {
    id : string;
    post_id : string;
    user_id : string;
    content : string;
    created_at : Z;
    updated_at : Z;
    user : option User.t
}.
End CommentWithUser.

(** [PostWithDetails extends Post]. *)
Module PostWithDetails.
Record t := mk {
    id : string;
    user_id : string;
    image_url : string;
    caption : option string;
    created_at : Z;
    updated_at : Z;
    user : User.t;
    likes_count : Z;
    comments_count : Z;
    is_liked : bool;
    comments_preview : list CommentWithUser.t
}.
End PostWithDetails.

(** ** Text

    A text is held as its UTF-8 bytes, as the string literals of this
    file are. A JavaScript string is a sequence of UTF-16 code units and
    a Postgres [text] a sequence of characters: both are read off the
    bytes. (A JavaScript string with an unpaired surrogate has no UTF-8
    encoding and is not among the texts.) *)

Definition byte (n : N) : Ascii.ascii := Ascii.ascii_of_N n.

(** The UTF-8 encoding of a code point. *)
Definition utf8 (cp : N) : string :=
  if (cp <? 0x80)%N then String (byte cp) ""
  else if (cp <? 0x800)%N then
    String (byte (0xC0 + cp / 0x40)) (String (byte (0x80 + cp mod 0x40)) "")
  else if (cp <? 0x10000)%N then
    String (byte (0xE0 + cp / 0x1000))
      (String (byte (0x80 + cp / 0x40 mod 0x40)) (String (byte (0x80 + cp mod 0x40)) ""))
  else
    String (byte (0xF0 + cp / 0x40000))
      (String (byte (0x80 + cp / 0x1000 mod 0x40))
         (String (byte (0x80 + cp / 0x40 mod 0x40)) (String (byte (0x80 + cp mod 0x40)) ""))).

(** The characters of a text, counted from its bytes. A byte below 0x80
    is a character; a lead byte, 0xC0 or above, opens a character and
    announces its 1, 2 or 3 continuation bytes 0x80..0xBF, which belong
    to it. A character of four bytes, beyond U+FFFF, counts [astral]. A
    continuation byte that no lead byte announced counts as a character
    of its own, the U+FFFD a decoder reads there. *)
Fixpoint characters (astral expected : nat) (s : string) : nat :=
  match s with
  | EmptyString => 0
  | String c s' =>
    let b := Ascii.N_of_ascii c in
    if (0x80 <=? b)%N && (b <? 0xC0)%N && (0 <? expected)%nat then
      characters astral (expected - 1) s'
    else if (b <? 0xC0)%N then S (characters astral 0 s')
    else if (b <? 0xE0)%N then S (characters astral 1 s')
    else if (b <? 0xF0)%N then S (characters astral 2 s')
    else (astral + characters astral 3 s')%nat
  end.

(** [s.length] of JavaScript: the number of UTF-16 code units, two for a
    character beyond U+FFFF. *)
Definition js_length (s : string) : nat := characters 2 0 s.

(** [LENGTH(s)] of Postgres on [text]: the number of characters. *)
Definition LENGTH (s : string) : nat := characters 1 0 s.

(** A Postgres [text] holds no NUL character. *)
Fixpoint has_NUL (s : string) : bool :=
  match s with
  | EmptyString => false
  | String c s' => bool_decide (c = Ascii.zero) || has_NUL s'
  end.

(** WhiteSpace and LineTerminator of ECMAScript, the characters that
    [String.prototype.trim] strips: TAB, LF, VT, FF, CR, SP, NBSP,
    the other space separators of Unicode, LS, PS and ZWNBSP. *)
Definition white_space_code_points : list N :=
  [0x9; 0xA; 0xB; 0xC; 0xD; 0x20; 0xA0; 0x1680;
   0x2000; 0x2001; 0x2002; 0x2003; 0x2004; 0x2005; 0x2006; 0x2007; 0x2008; 0x2009; 0x200A;
   0x2028; 0x2029; 0x202F; 0x205F; 0x3000; 0xFEFF]%N.

Definition white_space : list string := List.map utf8 white_space_code_points.

(** [strip_prefix p s]: the rest of [s] after [p], if [s] starts with [p]. *)
Fixpoint strip_prefix (p s : string) : option string :=
  match p, s with
  | EmptyString, _ => Some s
  | String a p', String b s' => if bool_decide (a = b) then strip_prefix p' s' else None
  | String _ _, EmptyString => None
  end.

(** The rest of [s] after its first character, if that is one of [spaces]. *)
Definition after_space (spaces : list string) (s : string) : option string :=
  head (omap (λ p, strip_prefix p s) spaces).

(** Leading [spaces] dropped one by one; [fuel] bounds their number. *)
Fixpoint skip_spaces (spaces : list string) (fuel : nat) (s : string) : string :=
  match fuel with
  | O => s
  | S fuel =>
    match after_space spaces s with
    | Some rest => skip_spaces spaces fuel rest
    | None => s
    end
  end.

Definition trim_start (s : string) : string :=
  skip_spaces white_space (String.length s) s.

(** The same from the end: on the reversed bytes, with the encodings
    reversed. *)
Definition trim_end (s : string) : string :=
  String.rev (skip_spaces (List.map String.rev white_space) (String.length s) (String.rev s)).

(** [String.prototype.trim] *)
Definition trim (s : string) : string := trim_end (trim_start s).

(** [s.repeat(n)] *)
Fixpoint repeat_string (n : nat) (s : string) : string :=
  match n with
  | O => ""
  | S n => s +:+ repeat_string n s
  end.

(** ** The relations and their constraints (supabase/migrations) *)

Record Db := mkDb {
  users : list User.t;
  posts : list Post.t;
  likes : list Like.t;
  comments : list Comment.t
}.

(** What a supabase-js call resolves to: [{ data, error }]. *)
Inductive QueryResult (A : Type) :=
| QData (data : A)
| QError (code : string) (message : string).
Arguments QData {A} data.
Arguments QError {A} code message.

(** [.single()]: exactly one row, otherwise error PGRST116. *)
Definition single {A} (rows : list A) : QueryResult A :=
  match rows with
  | [r] => QData r
  | _ => QError "PGRST116" "JSON object requested, multiple (or no) rows returned"
  end.

Definition same_post_user (post_id user_id : string) (l : Like.t) : bool :=
  bool_decide (Like.post_id l = post_id) && bool_decide (Like.user_id l = user_id).

(** The rows of one (post, user) pair. *)
Definition likes_of (post_id user_id : string) (ls : list Like.t) : list Like.t :=
  List.filter (same_post_user post_id user_id) ls.

(** [CONSTRAINT likes_unique_post_user UNIQUE (post_id, user_id)]: no
    pair has two rows. *)
Definition likes_unique_post_user (ls : list Like.t) : Prop :=
  ∀ post_id user_id, (length (likes_of post_id user_id ls) ≤ 1)%nat.

(** [INSERT INTO likes (post_id, user_id)]: the foreign keys are checked
    (SQLSTATE 23503), then the unique constraint (SQLSTATE 23505); the
    row gets its defaults [gen_random_uuid()] and [now()], supplied here
    by the caller as [uuid] and [now]. *)
Definition insert_like (uuid : string) (now : Z) (post_id user_id : string) (d : Db)
  : QueryResult Like.t * Db :=
  if negb (existsb (λ p, bool_decide (Post.id p = post_id)) (posts d)) then
    (QError "23503" "insert or update on table likes violates foreign key constraint likes_post_id_fkey", d)
  else if negb (existsb (λ u, bool_decide (User.id u = user_id)) (users d)) then
    (QError "23503" "insert or update on table likes violates foreign key constraint likes_user_id_fkey", d)
  else if existsb (same_post_user post_id user_id) (likes d) then
    (QError "23505" "duplicate key value violates unique constraint likes_unique_post_user", d)
  else
    let row := Like.mk uuid post_id user_id now in
    (QData row, mkDb (users d) (posts d) (likes d ++ [row]) (comments d)).

(** [DELETE FROM likes WHERE id = ...] *)
Definition delete_like_by_id (id : string) (d : Db) : Db :=
  mkDb (users d) (posts d)
       (List.filter (λ l, negb (bool_decide (Like.id l = id))) (likes d))
       (comments d).

(** [INSERT INTO comments (post_id, user_id, content)] with its foreign
    keys and [CHECK (LENGTH(content) <= 1000)] (SQLSTATE 23514), which
    counts characters. The column is a [text], which takes no NUL
    character (SQLSTATE 22P05 on a row sent as JSON). *)
Definition insert_comment (uuid : string) (now : Z) (post_id user_id content : string) (d : Db)
  : QueryResult Comment.t * Db :=
  if negb (existsb (λ p, bool_decide (Post.id p = post_id)) (posts d)) then
    (QError "23503" "insert or update on table comments violates foreign key constraint comments_post_id_fkey", d)
  else if negb (existsb (λ u, bool_decide (User.id u = user_id)) (users d)) then
    (QError "23503" "insert or update on table comments violates foreign key constraint comments_user_id_fkey", d)
  else if has_NUL content then
    (QError "22P05" "unsupported Unicode escape sequence", d)
  else if (1000 <? LENGTH content)%nat then
    (QError "23514" "new row for relation comments violates check constraint comments_content_length", d)
  else
    let row := Comment.mk uuid post_id user_id content now now in
    (QData row, mkDb (users d) (posts d) (likes d) (comments d ++ [row])).

(** [.range(from, to)]: rows [from .. to] of the ordered result. *)
Definition range {A} (from to : Z) (rows : list A) : QueryResult (list A) :=
  if (from <? 0)%Z || (to <? from)%Z then
    QError "PGRST103" "Requested range not satisfiable"
  else QData (take (Z.to_nat (to - from + 1)) (drop (Z.to_nat from) rows)).

(** ** ORDER BY created_at DESC

    The routes order by the single key [created_at]. SQL leaves the
    relative order of rows with equal keys to the executor, and it may
    differ from one statement to the next, so the executor's choice is
    an argument of every ordered query: a function that returns its
    input rearranged in non-increasing key order. *)

Definition desc {A} (key : A → Z) (a b : A) : Prop := (key b ≤ key a)%Z.

Definition order_by_desc {A} (key : A → Z) (ord : list A → list A) : Prop :=
  ∀ rows, ord rows ≡ₚ rows ∧ Sorted (desc key) (ord rows).

(** ** HTTP values *)

Inductive JsValue :=
| JsUndefined
| JsNull
| JsBool (b : bool)
| JsNumber (n : Z)
| JsString (s : string)
| JsObject.

(** [!v || typeof v !== "string"] is false exactly for a non-empty string. *)
Definition required_string (v : JsValue) : option string :=
  match v with
  | JsString s => if bool_decide (s = "") then None else Some s
  | _ => None
  end.

(** Truthiness of a [string | null], as in [if (!clerkUserId)] and
    [currentUserId ? ... : false]: [null] and the empty string are falsy. *)
Definition truthy (v : option string) : option string :=
  match v with
  | Some s => if bool_decide (s = "") then None else Some s
  | None => None
  end.

Inductive Body :=
| BError (error : string) (details : option string)
| BAlreadyLiked (error message : string)
| BLike (like : Like.t)
| BSuccess (message : string)
| BComment (comment : CommentWithUser.t)
| BPosts (posts : list PostWithDetails.t) (total : Z).

Record Response := mkResponse { status : Z; body : Body }.

(** [NextResponse.json(body, { status })]; the status defaults to 200. *)
Definition NextResponse_json (b : Body) (init : option Z) : Response :=
  mkResponse (default 200%Z init) b.

(** [response.ok] *)
Definition ok (status : Z) : bool := (200 <=? status)%Z && (status <=? 299)%Z.

(** ** Route handlers: state, storage trace and early return *)

Inductive StoreOp :=
| OpSelect (table : string)
| OpInsert (table : string)
| OpDelete (table : string).

Record World := mkWorld { db : Db; trace : list StoreOp }.

Inductive Step (A : Type) :=
| Return (r : Response)
| Continue (a : A).
Arguments Return {A} r.
Arguments Continue {A} a.

Definition Handler (A : Type) : Type := World → Step A * World.

Definition ret {A} (a : A) : Handler A := λ w, (Continue a, w).

Definition respond {A} (r : Response) : Handler A := λ w, (Return r, w).

Definition bind {A B} (m : Handler A) (k : A → Handler B) : Handler B :=
  λ w, match m w with
       | (Return r, w') => (Return r, w')
       | (Continue a, w') => k a w'
       end.

Declare Scope handler_scope.
Delimit Scope handler_scope with handler.
Notation "x <- m ;; k" := (bind m (λ x, k))
  (at level 100, m at next level, right associativity) : handler_scope.

Definition select {A} (table : string) (q : Db → A) : Handler A :=
  λ w, (Continue (q (db w)), mkWorld (db w) (trace w ++ [OpSelect table])).

Definition insert {A} (table : string) (f : Db → A * Db) : Handler A :=
  λ w, let '(a, d) := f (db w) in
       (Continue a, mkWorld d (trace w ++ [OpInsert table])).

Definition delete_from (table : string) (f : Db → Db) : Handler unit :=
  λ w, (Continue tt, mkWorld (f (db w)) (trace w ++ [OpDelete table])).

Definition run (h : Handler Response) (w : World) : Response * World :=
  match h w with
  | (Return r, w') => (r, w')
  | (Continue r, w') => (r, w')
  end.

(** The [catch] block of the likes and posts routes. *)
Definition internal_server_error : Response :=
  NextResponse_json (BError "Internal server error" None) (Some 500%Z).

(** The [catch] block of the comments route, which adds the message of
    the error as [details]. *)
Definition internal_server_error_details (message : string) : Response :=
  NextResponse_json (BError "Internal server error" (Some message)) (Some 500%Z).

(** [await request.json()] and the destructuring of the body: [Some b]
    is a body that holds the JSON object [b], [None] the empty body, on
    which [request.json()] throws the SyntaxError "Unexpected end of
    JSON input". *)
Definition request_json (catch : Response) (body : option (gmap string JsValue))
  : Handler (gmap string JsValue) :=
  match body with
  | Some b => ret b
  | None => respond catch
  end.

Definition field (b : gmap string JsValue) (k : string) : JsValue :=
  default JsUndefined (b !! k).

Definition user_by_clerk_id (clerkUserId : string) (d : Db) : QueryResult User.t :=
  single (List.filter (λ u, bool_decide (User.clerk_id u = clerkUserId)) (users d)).

Definition post_by_id (post_id : string) (d : Db) : QueryResult Post.t :=
  single (List.filter (λ p, bool_decide (Post.id p = post_id)) (posts d)).

Local Open Scope handler_scope.

(** *** POST /api/likes *)
Definition POST_likes (clerkUserId : option string)
    (body : option (gmap string JsValue)) (uuid : string) (now : Z)
  : Handler Response :=
  match truthy clerkUserId with
  | None => respond (NextResponse_json (BError "Unauthorized" None) (Some 401%Z))
  | Some clerkUserId =>
    body <- request_json internal_server_error body ;;
    match required_string (field body "post_id") with
    | None => respond (NextResponse_json (BError "post_id is required" None) (Some 400%Z))
    | Some post_id =>
      userData <- select "users" (user_by_clerk_id clerkUserId) ;;
      match userData with
      | QError _ message =>
        respond (NextResponse_json (BError "User not found" (Some message)) (Some 404%Z))
      | QData userData =>
        let userId := User.id userData in
        postData <- select "posts" (post_by_id post_id) ;;
        match postData with
        | QError _ message =>
          respond (NextResponse_json (BError "Post not found" (Some message)) (Some 404%Z))
        | QData _ =>
          likeData <- insert "likes" (insert_like uuid now post_id userId) ;;
          match likeData with
          | QError code message =>
            if bool_decide (code = "23505") then
              respond (NextResponse_json
                         (BAlreadyLiked "Already liked" "이미 좋아요한 게시물입니다.")
                         (Some 409%Z))
            else
              respond (NextResponse_json (BError "Failed to add like" (Some message))
                                         (Some 500%Z))
          | QData likeData => ret (NextResponse_json (BLike likeData) None)
          end
        end
      end
    end
  end.

(** *** DELETE /api/likes/[postId] *)
Definition like_of (postId userId : string) (d : Db) : QueryResult Like.t :=
  single (likes_of postId userId (likes d)).

Definition DELETE_likes (clerkUserId : option string) (postId : string)
  : Handler Response :=
  match truthy clerkUserId with
  | None => respond (NextResponse_json (BError "Unauthorized" None) (Some 401%Z))
  | Some clerkUserId =>
    if bool_decide (postId = "") then
      respond (NextResponse_json (BError "postId is required" None) (Some 400%Z))
    else
      userData <- select "users" (user_by_clerk_id clerkUserId) ;;
      match userData with
      | QError _ message =>
        respond (NextResponse_json (BError "User not found" (Some message)) (Some 404%Z))
      | QData userData =>
        let userId := User.id userData in
        likeData <- select "likes" (like_of postId userId) ;;
        match likeData with
        | QError _ _ =>
          respond (NextResponse_json (BError "Like not found" (Some "좋아요를 찾을 수 없습니다."))
                                     (Some 404%Z))
        | QData likeData =>
          if negb (bool_decide (Like.user_id likeData = userId)) then
            respond (NextResponse_json (BError "Forbidden" (Some "본인의 좋아요만 삭제할 수 있습니다."))
                                       (Some 403%Z))
          else
            _ <- delete_from "likes" (delete_like_by_id (Like.id likeData)) ;;
            ret (NextResponse_json (BSuccess "좋아요가 제거되었습니다.") None)
        end
      end
  end.

(** *** POST /api/comments *)

Definition with_user (c : Comment.t) (u : option User.t) : CommentWithUser.t :=
  CommentWithUser.mk (Comment.id c) (Comment.post_id c) (Comment.user_id c)
    (Comment.content c) (Comment.created_at c) (Comment.updated_at c) u.

Definition user_by_id (id : string) (d : Db) : option User.t :=
  List.find (λ u, bool_decide (User.id u = id)) (users d).

(** [select("*, user:users!comments_user_id_fkey(...)").eq("id", id).single()] *)
Definition comment_with_user_by_id (id : string) (d : Db)
  : QueryResult (Comment.t * option User.t) :=
  single (List.map (λ c, (c, user_by_id (Comment.user_id c) d))
            (List.filter (λ c, bool_decide (Comment.id c = id)) (comments d))).

Definition POST_comments (clerkUserId : option string)
    (body : option (gmap string JsValue)) (uuid : string) (now : Z)
  : Handler Response :=
  match truthy clerkUserId with
  | None => respond (NextResponse_json (BError "인증이 필요합니다." None) (Some 401%Z))
  | Some clerkUserId =>
    body <- request_json (internal_server_error_details "Unexpected end of JSON input") body ;;
    match required_string (field body "post_id") with
    | None => respond (NextResponse_json (BError "post_id가 필요합니다." None) (Some 400%Z))
    | Some post_id =>
      match required_string (field body "content") with
      | None => respond (NextResponse_json (BError "댓글 내용이 필요합니다." None) (Some 400%Z))
      | Some content =>
        if bool_decide (js_length (trim content) = 0%nat) then
          respond (NextResponse_json (BError "댓글 내용이 필요합니다." None) (Some 400%Z))
        else if (1000 <? js_length content)%nat then
          respond (NextResponse_json (BError "댓글은 최대 1000자까지 가능합니다." None) (Some 400%Z))
        else
          userData <- select "users" (user_by_clerk_id clerkUserId) ;;
          match userData with
          | QError _ message =>
            respond (NextResponse_json (BError "사용자 정보를 찾을 수 없습니다." (Some message)) (Some 404%Z))
          | QData userData =>
            let userId := User.id userData in
            postData <- select "posts" (post_by_id post_id) ;;
            match postData with
            | QError _ message =>
              respond (NextResponse_json (BError "게시물을 찾을 수 없습니다." (Some message)) (Some 404%Z))
            | QData _ =>
              commentData <- insert "comments"
                               (insert_comment uuid now post_id userId (trim content)) ;;
              match commentData with
              | QError _ message =>
                respond (NextResponse_json (BError "댓글 작성에 실패했습니다." (Some message))
                                           (Some 500%Z))
              | QData commentData =>
                commentWithUser <- select "comments"
                                     (comment_with_user_by_id (Comment.id commentData)) ;;
                match commentWithUser with
                | QError _ _ =>
                  respond (NextResponse_json (BComment (with_user commentData None))
                                             (Some 201%Z))
                | QData (c, Some u) =>
                  ret (NextResponse_json (BComment (with_user c (Some u))) (Some 201%Z))
                | QData (c, None) =>
                  respond (internal_server_error_details
                             "Cannot read properties of null (reading 'id')")
                end
              end
            end
          end
      end
    end
  end.

(** *** GET /api/posts *)

(** The reads of the posts route that it does not check: the viewer's
    user row, the likes and the comments to count, the viewer's likes
    and the preview of each post. When one of them fails, supabase-js
    resolves to [{ data: null, error }], the route logs the error or
    ignores it, and goes on without the data. *)
Inductive Read :=
| UserData
| LikesData
| CommentsData
| UserLikesData
| CommentsPreview (postId : string).

#[export] Instance Read_eq_dec : EqDecision Read.
Proof. solve_decision. Defined.

(** The store that answers every read, and the store that answers every
    read but one. *)
Definition every_read : Read → bool := λ _, true.

Definition every_read_but (r : Read) : Read → bool :=
  λ r', negb (bool_decide (r' = r)).

Section GET.

(** The store of one request: which of the unchecked reads it answers,
    and the executor's ordering of the two ordered statements. *)
Variable answered : Read → bool.
Variable order_posts : list Post.t → list Post.t.
Variable order_comments : list Comment.t → list Comment.t.

(** The [data] of an unchecked read: the rows, or [null] when the store
    does not answer. *)
Definition data_of {A} (r : Read) (rows : A) : option A :=
  if answered r then Some rows else None.

(** An unchecked read: the statement is issued whatever becomes of it. *)
Definition read {A} (r : Read) (table : string) (query : Db → A) : Handler (option A) :=
  rows <- select table query ;;
  ret (data_of r rows).

(** [from("posts").select("*, user:users!posts_user_id_fkey(...)")
      .order("created_at", { ascending: false })
      .range(offset, offset + limit - 1)] *)
Definition posts_page (limit offset : Z) (d : Db)
  : QueryResult (list (Post.t * option User.t)) :=
  range offset (offset + limit - 1)
    (List.map (λ p, (p, user_by_id (Post.user_id p) d)) (order_posts (posts d))).

(** [from("likes").select("post_id").in("post_id", postIds)] *)
Definition likes_in (postIds : list string) (d : Db) : list string :=
  List.map Like.post_id
    (List.filter (λ l, bool_decide (Like.post_id l ∈ postIds)) (likes d)).

(** [from("comments").select("post_id").in("post_id", postIds)] *)
Definition comments_in (postIds : list string) (d : Db) : list string :=
  List.map Comment.post_id
    (List.filter (λ c, bool_decide (Comment.post_id c ∈ postIds)) (comments d)).

(** [from("likes").select("post_id").eq("user_id", currentUserId).in("post_id", postIds)] *)
Definition user_likes_in (currentUserId : string) (postIds : list string) (d : Db)
  : list string :=
  List.map Like.post_id
    (List.filter (λ l, bool_decide (Like.user_id l = currentUserId)
                       && bool_decide (Like.post_id l ∈ postIds)) (likes d)).

(** [from("comments").select("*, user:users!comments_user_id_fkey(...)")
      .eq("post_id", postId).order("created_at", { ascending: false }).limit(2)] *)
Definition comments_preview_of (postId : string) (d : Db)
  : list (Comment.t * option User.t) :=
  take 2 (List.map (λ c, (c, user_by_id (Comment.user_id c) d))
            (order_comments
               (List.filter (λ c, bool_decide (Comment.post_id c = postId)) (comments d)))).

(** [for (const postId of postIds) { ...;
      if (commentsPreview) commentsPreviewMap.set(postId, commentsPreview) }] *)
Fixpoint preview_loop (postIds : list string)
    (commentsPreviewMap : gmap string (list (Comment.t * option User.t)))
  : Handler (gmap string (list (Comment.t * option User.t))) :=
  match postIds with
  | [] => ret commentsPreviewMap
  | postId :: rest =>
    commentsPreview <- read (CommentsPreview postId) "comments"
                            (comments_preview_of postId) ;;
    preview_loop rest
      match commentsPreview with
      | Some commentsPreview => <[postId := commentsPreview]> commentsPreviewMap
      | None => commentsPreviewMap
      end
  end.

(** [data.forEach((row) => { const count = map.get(row.post_id) || 0;
                             map.set(row.post_id, count + 1) })] *)
Definition count_by (post_ids : list string) : gmap string Z :=
  foldl (λ m post_id, <[post_id := (default 0 (m !! post_id) + 1)%Z]> m) ∅ post_ids.

(** [if (data) { data.forEach(...) }]: without data the map stays empty. *)
Definition count_rows (data : option (list string)) : gmap string Z :=
  match data with
  | Some rows => count_by rows
  | None => ∅
  end.

(** The mapping callbacks; [None] is the [TypeError] of reading a field
    of a joined [user] that is [null]. *)
Definition comment_view (cu : Comment.t * option User.t) : option CommentWithUser.t :=
  match cu.2 with
  | Some u => Some (with_user cu.1 (Some u))
  | None => None
  end.

Definition post_view (currentUserId : option string) (userLikes : list string)
    (likesCountMap commentsCountMap : gmap string Z)
    (commentsPreviewMap : gmap string (list (Comment.t * option User.t)))
    (pu : Post.t * option User.t) : option PostWithDetails.t :=
  let post := pu.1 in
  let likesCount := default 0%Z (likesCountMap !! Post.id post) in
  let commentsCount := default 0%Z (commentsCountMap !! Post.id post) in
  let isLiked :=
    match truthy currentUserId with
    | Some _ => bool_decide (Post.id post ∈ userLikes)
    | None => false
    end in
  let commentsPreview := default [] (commentsPreviewMap !! Post.id post) in
  match pu.2, mapM comment_view commentsPreview with
  | Some u, Some preview =>
    Some (PostWithDetails.mk (Post.id post) (Post.user_id post) (Post.image_url post)
            (Post.caption post) (Post.created_at post) (Post.updated_at post)
            u likesCount commentsCount isLiked preview)
  | _, _ => None
  end.

Definition GET_posts (clerkUserId : option string) (limit offset : option Z)
  : Handler Response :=
  let limit := default 10%Z limit in
  let offset := default 0%Z offset in
  currentUserId <-
    match truthy clerkUserId with
    | Some clerkUserId =>
      userData <- read UserData "users" (user_by_clerk_id clerkUserId) ;;
      ret (match userData with
           | Some (QData userData) => Some (User.id userData)
           | _ => None
           end)
    | None => ret None
    end ;;
  posts <- select "posts" (posts_page limit offset) ;;
  match posts with
  | QError _ message =>
    respond (NextResponse_json (BError "Failed to fetch posts" (Some message)) (Some 500%Z))
  | QData [] => respond (NextResponse_json (BPosts [] 0) None)
  | QData posts =>
    let postIds := List.map (λ pu, Post.id pu.1) posts in
    likesData <- read LikesData "likes" (likes_in postIds) ;;
    commentsData <- read CommentsData "comments" (comments_in postIds) ;;
    userLikes <-
      match truthy currentUserId with
      | Some currentUserId =>
        userLikesData <- read UserLikesData "likes" (user_likes_in currentUserId postIds) ;;
        ret (default [] userLikesData)
      | None => ret []
      end ;;
    commentsPreviewMap <- preview_loop postIds ∅ ;;
    let likesCountMap := count_rows likesData in
    let commentsCountMap := count_rows commentsData in
    match mapM (post_view currentUserId userLikes likesCountMap commentsCountMap
                          commentsPreviewMap) posts with
    | None => respond internal_server_error
    | Some postsWithDetails =>
      ret (NextResponse_json
             (BPosts postsWithDetails (Z.of_nat (length postsWithDetails))) None)
    end
  end.

(** The route without its storage trace: the response as a function of
    the relations. [GET_posts_run] below shows that [GET_posts] computes it. *)
Definition preview_map (d : Db)
    (m : gmap string (list (Comment.t * option User.t))) (postIds : list string)
  : gmap string (list (Comment.t * option User.t)) :=
  foldl (λ m postId,
           if answered (CommentsPreview postId)
           then <[postId := comments_preview_of postId d]> m
           else m) m postIds.

Definition current_user_id (clerkUserId : option string) (d : Db) : option string :=
  match truthy clerkUserId with
  | Some clerkUserId =>
    match data_of UserData (user_by_clerk_id clerkUserId d) with
    | Some (QData userData) => Some (User.id userData)
    | _ => None
    end
  | None => None
  end.

Definition posts_response (clerkUserId : option string) (limit offset : option Z)
    (d : Db) : Response :=
  let currentUserId := current_user_id clerkUserId d in
  match posts_page (default 10%Z limit) (default 0%Z offset) d with
  | QError _ message =>
    NextResponse_json (BError "Failed to fetch posts" (Some message)) (Some 500%Z)
  | QData [] => NextResponse_json (BPosts [] 0) None
  | QData posts =>
    let postIds := List.map (λ pu, Post.id pu.1) posts in
    let userLikes :=
      match truthy currentUserId with
      | Some currentUserId =>
        default [] (data_of UserLikesData (user_likes_in currentUserId postIds d))
      | None => []
      end in
    match mapM (post_view currentUserId userLikes
                          (count_rows (data_of LikesData (likes_in postIds d)))
                          (count_rows (data_of CommentsData (comments_in postIds d)))
                          (preview_map d ∅ postIds)) posts with
    | None => internal_server_error
    | Some postsWithDetails =>
      NextResponse_json (BPosts postsWithDetails (Z.of_nat (length postsWithDetails))) None
    end
  end.

End GET.

Local Close Scope handler_scope.

(** ** The feed pager (components/post/PostFeed.tsx) *)

Module Feed.

Definition POSTS_PER_PAGE : Z := 10.

Record State := mkState {
  posts : list PostWithDetails.t;
  loading : bool;
  error : option string;
  hasLoaded : bool;
  offset : Z;
  hasMore : bool;
  isLoadingMore : bool
}.

Definition initial : State := mkState [] true None false 0 true false.

(** What [await fetch(...)] gives: a rejection or a response. *)
Inductive Fetched :=
| Rejected (message : string)
| Resolved (r : Response).

(** The part of [fetchPosts] before the [await]. *)
Definition fetchPosts_start (append : bool) (s : State) : State :=
  if append then
    mkState (posts s) (loading s) (error s) (hasLoaded s) (offset s) (hasMore s) true
  else
    mkState (posts s) true None false (offset s) (hasMore s) (isLoadingMore s).

(** [Array.isArray(data.posts) ? data.posts : []] and [data.total || 0] *)
Definition data_posts (b : Body) : list PostWithDetails.t :=
  match b with BPosts ps _ => ps | _ => [] end.

Definition data_total (b : Body) : Z :=
  match b with BPosts _ total => total | _ => 0%Z end.

Definition error_message (b : Body) (fallback : string) : string :=
  match b with
  | BError e _ | BAlreadyLiked e _ => if bool_decide (e = "") then fallback else e
  | _ => fallback
  end.

Definition hasMoreData (currentOffset : Z) (postsArray : list PostWithDetails.t)
    (total : Z) : bool :=
  let newOffset := (currentOffset + Z.of_nat (length postsArray))%Z in
  if (0 <? total)%Z then
    (newOffset <? total)%Z && (Z.of_nat (length postsArray) =? POSTS_PER_PAGE)%Z
  else (Z.of_nat (length postsArray) =? POSTS_PER_PAGE)%Z.

(** The part of [fetchPosts] after the [await], with its [catch] and
    [finally]. *)
Definition fetchPosts_settle (currentOffset : Z) (append : bool) (f : Fetched)
    (s : State) : State :=
  match f with
  | Resolved r =>
    if ok (status r) then
      let postsArray := data_posts (body r) in
      let total := data_total (body r) in
      let newOffset := (currentOffset + Z.of_nat (length postsArray))%Z in
      mkState (if append then posts s ++ postsArray else postsArray)
              false (error s) (if append then hasLoaded s else true)
              newOffset (hasMoreData currentOffset postsArray total) false
    else
      mkState (posts s) false
              (Some (error_message (body r) "게시물을 불러오는데 실패했습니다."))
              (if append then hasLoaded s else true)
              (offset s) (hasMore s) false
  | Rejected message =>
    mkState (posts s) false (Some message)
            (if append then hasLoaded s else true)
            (offset s) (hasMore s) false
  end.

(** The intersection observer: the offset of the page to fetch, if any. *)
Definition on_intersect (isIntersecting : bool) (s : State) : option Z :=
  if isIntersecting && hasMore s && negb (isLoadingMore s) && negb (loading s)
     && hasLoaded s
  then Some (offset s) else None.

End Feed.

(** ** The post card (components/post/PostCard.tsx) *)

Module Card.

Record State := mkState {
  showFullCaption : bool;
  isLiked : bool;
  likesCount : Z;
  isAnimating : bool;
  isLoading : bool;
  showDoubleTapHeart : bool;
  lastTapTime : Z;
  commentsCount : Z;
  commentsPreview : list CommentWithUser.t
}.

(** The [useState] initialisers. *)
Definition initial (post : PostWithDetails.t) : State :=
  mkState false (PostWithDetails.is_liked post) (PostWithDetails.likes_count post)
          false false false 0
          (PostWithDetails.comments_count post) (PostWithDetails.comments_preview post).

Definition setIsLiked (v : bool) (s : State) : State :=
  mkState (showFullCaption s) v (likesCount s) (isAnimating s) (isLoading s)
          (showDoubleTapHeart s) (lastTapTime s) (commentsCount s) (commentsPreview s).

Definition setLikesCount (f : Z → Z) (s : State) : State :=
  mkState (showFullCaption s) (isLiked s) (f (likesCount s)) (isAnimating s) (isLoading s)
          (showDoubleTapHeart s) (lastTapTime s) (commentsCount s) (commentsPreview s).

Definition setIsAnimating (v : bool) (s : State) : State :=
  mkState (showFullCaption s) (isLiked s) (likesCount s) v (isLoading s)
          (showDoubleTapHeart s) (lastTapTime s) (commentsCount s) (commentsPreview s).

Definition setIsLoading (v : bool) (s : State) : State :=
  mkState (showFullCaption s) (isLiked s) (likesCount s) (isAnimating s) v
          (showDoubleTapHeart s) (lastTapTime s) (commentsCount s) (commentsPreview s).

Definition setShowDoubleTapHeart (v : bool) (s : State) : State :=
  mkState (showFullCaption s) (isLiked s) (likesCount s) (isAnimating s) (isLoading s)
          v (lastTapTime s) (commentsCount s) (commentsPreview s).

Definition setLastTapTime (v : Z) (s : State) : State :=
  mkState (showFullCaption s) (isLiked s) (likesCount s) (isAnimating s) (isLoading s)
          (showDoubleTapHeart s) v (commentsCount s) (commentsPreview s).

Definition setCommentsCount (f : Z → Z) (s : State) : State :=
  mkState (showFullCaption s) (isLiked s) (likesCount s) (isAnimating s) (isLoading s)
          (showDoubleTapHeart s) (lastTapTime s) (f (commentsCount s)) (commentsPreview s).

Definition setCommentsPreview
    (f : list CommentWithUser.t → list CommentWithUser.t) (s : State) : State :=
  mkState (showFullCaption s) (isLiked s) (likesCount s) (isAnimating s) (isLoading s)
          (showDoubleTapHeart s) (lastTapTime s) (commentsCount s) (f (commentsPreview s)).

(** The two requests the card sends. *)
Inductive Request :=
| PostLike (post_id : string)
| DeleteLike (post_id : string).

(** What [await fetch(...)] gives: a rejection, or a status together
    with the outcome of [await response.json()] ([None] when it rejects). *)
Inductive Fetched :=
| Rejected
| Resolved (status : Z) (json : option Body).

(** The values a handler closes over when it starts. *)
Record Snapshot := mkSnapshot { previousIsLiked : bool; previousLikesCount : Z }.

(** [handleLikeClick] up to its [await fetch]. The callback is rebuilt
    whenever [isLiked], [likesCount] or [isLoading] change, so the values
    it closes over are those of the state it is invoked on. *)
Definition handleLikeClick_start (post_id : string) (s : State)
  : State * option (Request * Snapshot) :=
  if isLoading s then (s, None)
  else
    let liked := isLiked s in
    let snapshot := mkSnapshot liked (likesCount s) in
    let s := setIsLiked (negb liked) s in
    let s := setLikesCount (λ prev, if liked then prev - 1 else prev + 1)%Z s in
    let s := setIsAnimating true s in
    let s := setIsLoading true s in
    (s, Some (if liked then DeleteLike post_id else PostLike post_id, snapshot)).

(** The [catch] block of [handleLikeClick]. *)
Definition rollback (snapshot : Snapshot) (s : State) : State :=
  setLikesCount (λ _, previousLikesCount snapshot)
    (setIsLiked (previousIsLiked snapshot) s).

(** [handleLikeClick] from the [await fetch] on; [s] is the state when
    the request settles. *)
Definition handleLikeClick_settle (snapshot : Snapshot) (f : Fetched) (s : State)
  : State :=
  let finally := setIsLoading false in
  match f with
  | Rejected => finally (rollback snapshot s)
  | Resolved status json =>
    if ok status then finally s
    else
      match json with
      | None => finally (rollback snapshot s)
      | Some _ =>
        if negb (previousIsLiked snapshot) && (status =? 409)%Z then finally s
        else finally (rollback snapshot s)
      end
  end.

(** The outcomes the like toggle treats as a failure: the request is
    rejected, or the response is neither a success nor the 409 of a
    like that already exists. *)
Definition failed (f : Fetched) : Prop :=
  match f with
  | Rejected => True
  | Resolved status _ => ok status = false ∧ status ≠ 409%Z
  end.

(** The 150 ms and 1000 ms timers. *)
Definition animation_timeout (s : State) : State := setIsAnimating false s.
Definition heart_timeout (s : State) : State := setShowDoubleTapHeart false s.

(** [handleImageClick] up to its [fetch]; [currentTime] is [Date.now()]. *)
Definition handleImageClick (post_id : string) (currentTime : Z) (s : State)
  : State * option (Request * Snapshot) :=
  if isLiked s || isLoading s then (s, None)
  else
    let timeDiff := (currentTime - lastTapTime s)%Z in
    if (timeDiff <? 300)%Z && (0 <? timeDiff)%Z then
      let snapshot := mkSnapshot (isLiked s) (likesCount s) in
      let s := setShowDoubleTapHeart true s in
      let s := setIsLiked true s in
      let s := setLikesCount (λ prev, prev + 1)%Z s in
      let s := setIsLoading true s in
      let s := setLastTapTime 0 s in
      (s, Some (PostLike post_id, snapshot))
    else (setLastTapTime currentTime s, None).

(** The [.then], [.catch] and [.finally] of the double-tap request. *)
Definition handleImageClick_settle (snapshot : Snapshot) (f : Fetched) (s : State)
  : State :=
  let finally := setIsLoading false in
  match f with
  | Rejected => finally (rollback snapshot s)
  | Resolved status json =>
    if ok status then finally s
    else
      match json with
      | None => finally (rollback snapshot s)
      | Some _ =>
        if (status =? 409)%Z then finally s
        else finally (rollback snapshot (rollback snapshot s))
      end
  end.

Definition handleCommentAdded (newComment : CommentWithUser.t) (s : State) : State :=
  let s := setCommentsCount (λ prev, prev + 1)%Z s in
  setCommentsPreview (λ prev, take 2 (newComment :: prev)) s.

Definition handleCommentDeleted (commentId : string) (s : State) : State :=
  let s := setCommentsCount (λ prev, Z.max 0 (prev - 1)) s in
  setCommentsPreview
    (λ prev, List.filter (λ c, negb (bool_decide (CommentWithUser.id c = commentId))) prev)
    s.

(** *** A card in use: events, the request in flight, requests sent *)

Inductive Origin := FromButton | FromDoubleTap.

Inductive Event :=
| LikeClick
| Tap (currentTime : Z)
| Settled (f : Fetched)
| AnimationTimeout
| HeartTimeout
| CommentAdded (newComment : CommentWithUser.t)
| CommentDeleted (commentId : string).

Record Session := mkSession {
  state : State;
  pending : option (Origin * Snapshot);
  sent : list Request
}.

Definition open (post : PostWithDetails.t) : Session :=
  mkSession (initial post) None [].

Definition started (o : Origin) (x : Session)
    (r : State * option (Request * Snapshot)) : Session :=
  match r with
  | (s, Some (req, snapshot)) => mkSession s (Some (o, snapshot)) (sent x ++ [req])
  | (s, None) => mkSession s (pending x) (sent x)
  end.

Definition step (post_id : string) (x : Session) (e : Event) : Session :=
  match e with
  | LikeClick => started FromButton x (handleLikeClick_start post_id (state x))
  | Tap currentTime => started FromDoubleTap x (handleImageClick post_id currentTime (state x))
  | Settled f =>
    match pending x with
    | Some (FromButton, snapshot) =>
      mkSession (handleLikeClick_settle snapshot f (state x)) None (sent x)
    | Some (FromDoubleTap, snapshot) =>
      mkSession (handleImageClick_settle snapshot f (state x)) None (sent x)
    | None => x
    end
  | AnimationTimeout => mkSession (animation_timeout (state x)) (pending x) (sent x)
  | HeartTimeout => mkSession (heart_timeout (state x)) (pending x) (sent x)
  | CommentAdded c => mkSession (handleCommentAdded c (state x)) (pending x) (sent x)
  | CommentDeleted id => mkSession (handleCommentDeleted id (state x)) (pending x) (sent x)
  end.

Definition run_events (post_id : string) (x : Session) (es : list Event) : Session :=
  foldl (step post_id) x es.

End Card.

(** The row under a view-model. *)
Definition post_of (p : PostWithDetails.t) : Post.t :=
  Post.mk (PostWithDetails.id p) (PostWithDetails.user_id p) (PostWithDetails.image_url p)
          (PostWithDetails.caption p) (PostWithDetails.created_at p)
          (PostWithDetails.updated_at p).

Definition comment_of (c : CommentWithUser.t) : Comment.t :=
  Comment.mk (CommentWithUser.id c) (CommentWithUser.post_id c) (CommentWithUser.user_id c)
             (CommentWithUser.content c) (CommentWithUser.created_at c)
             (CommentWithUser.updated_at c).


(** The foreign keys [posts_user_id_fkey] and [comments_user_id_fkey]. *)
Definition references_hold (d : Db) : Prop :=
  Forall (λ p, is_Some (user_by_id (Post.user_id p) d)) (posts d) ∧
  Forall (λ c, is_Some (user_by_id (Comment.user_id c) d)) (comments d).

(** The posts of the page at [offset], as the pager reads them from the
    response of the route. *)
Definition getPage (answered : Read → bool) (order_posts : list Post.t → list Post.t)
    (order_comments : list Comment.t → list Comment.t)
    (clerkUserId : option string) (offset limit : Z) (w : World)
  : list PostWithDetails.t :=
  Feed.data_posts
    (body (run (GET_posts answered order_posts order_comments clerkUserId
                  (Some limit) (Some offset)) w).1).

(** The pages at offsets [0], [limit], ..., [(n - 1) * limit], each
    fetched under its own executor and with its own answered reads, one
    after the other. *)
Definition pages (answered : nat → Read → bool)
    (executor : nat → list Post.t → list Post.t)
    (order_comments : list Comment.t → list Comment.t)
    (clerkUserId : option string) (limit : Z) (w : World) (n : nat)
  : list PostWithDetails.t :=
  concat (List.map (λ k, getPage (answered k) (executor k) order_comments clerkUserId
                           (Z.of_nat k * limit) limit w)
                   (seq 0 n)).

(** ** Executors and data for concrete runs *)

#[export] Instance desc_dec {A} (key : A → Z) : RelDecision (desc key).
Proof. intros a b. unfold desc. apply Z_le_dec. Defined.

#[export] Instance desc_total {A} (key : A → Z) : Total (desc key).
Proof. intros a b. unfold desc. lia. Qed.

#[export] Instance desc_trans {A} (key : A → Z) : Transitive (desc key).
Proof. intros a b c. unfold desc. lia. Qed.

(** Two executors of ORDER BY ... DESC: a merge sort of the rows as
    stored, and the same sort after reading the rows backwards. They
    agree except on the relative order of rows with equal keys. *)
Definition sort_desc {A} (key : A → Z) (rows : list A) : list A :=
  merge_sort (desc key) rows.

Definition sort_desc_backwards {A} (key : A → Z) (rows : list A) : list A :=
  merge_sort (desc key) (reverse rows).

Definition ann : User.t := User.mk "u1" "clerk_1" "ann" 1.
Definition bob : User.t := User.mk "u2" "clerk_2" "bob" 2.

Definition post_at (id_time : string * Z) : Post.t :=
  Post.mk id_time.1 "u1" "https://img" None id_time.2 id_time.2.

(** Twelve posts by ann, created at times 1 to 12. *)
Definition twelve_posts : Db :=
  mkDb [ann; bob]
       (List.map post_at
          [("p01", 1); ("p02", 2); ("p03", 3); ("p04", 4); ("p05", 5); ("p06", 6);
           ("p07", 7); ("p08", 8); ("p09", 9); ("p10", 10); ("p11", 11); ("p12", 12)]%Z)
       [] [].

(** Bob has liked p03; ann has liked nothing. *)
Definition bob_likes_p03 : Db :=
  mkDb (users twelve_posts) (posts twelve_posts)
       [Like.mk "l9" "p03" "u2" 50] [].

(** Two posts created at the same instant. *)
Definition tied_posts : Db :=
  mkDb [ann; bob] [post_at ("pa", 5%Z); post_at ("pb", 5%Z)] [] [].

(** Post p01 with three comments by bob, written at times 10, 20, 30. *)
Definition three_comments : Db :=
  mkDb (users twelve_posts) (posts twelve_posts) []
       [Comment.mk "c1" "p01" "u2" "first" 10 10;
        Comment.mk "c2" "p01" "u2" "second" 20 20;
        Comment.mk "c3" "p01" "u2" "third" 30 30].

(** ** DELETE /api/comments/[commentId] *)

Definition comment_by_id (commentId : string) (d : Db) : QueryResult Comment.t :=
  single (List.filter (λ c, bool_decide (Comment.id c = commentId)) (comments d)).

(** [DELETE FROM comments WHERE id = ...] *)
Definition delete_comment_by_id (id : string) (d : Db) : Db :=
  mkDb (users d) (posts d) (likes d)
       (List.filter (λ c, negb (bool_decide (Comment.id c = id))) (comments d)).

Local Open Scope handler_scope.

Definition DELETE_comments (clerkUserId : option string) (commentId : string)
  : Handler Response :=
  match truthy clerkUserId with
  | None => respond (NextResponse_json (BError "인증이 필요합니다." None) (Some 401%Z))
  | Some clerkUserId =>
    if bool_decide (commentId = "") then
      respond (NextResponse_json (BError "댓글 ID가 필요합니다." None) (Some 400%Z))
    else
      userData <- select "users" (user_by_clerk_id clerkUserId) ;;
      match userData with
      | QError _ message =>
        respond (NextResponse_json (BError "사용자 정보를 찾을 수 없습니다." (Some message))
                                   (Some 404%Z))
      | QData userData =>
        let userId := User.id userData in
        commentData <- select "comments" (comment_by_id commentId) ;;
        match commentData with
        | QError _ message =>
          respond (NextResponse_json (BError "댓글을 찾을 수 없습니다." (Some message))
                                     (Some 404%Z))
        | QData commentData =>
          if negb (bool_decide (Comment.user_id commentData = userId)) then
            respond (NextResponse_json (BError "본인의 댓글만 삭제할 수 있습니다." None)
                                       (Some 403%Z))
          else
            _ <- delete_from "comments" (delete_comment_by_id commentId) ;;
            ret (NextResponse_json (BSuccess "댓글이 삭제되었습니다.") (Some 200%Z))
        end
      end
  end.

Local Close Scope handler_scope.

(** ** formatRelativeTime (lib/utils/format-time.ts)

    [now] and [targetDate] are the [getTime()] values, in milliseconds.
    [Math.floor] of a quotient of integers is the floor division. *)
Definition formatRelativeTime (now targetDate : Z) : string :=
  let diffInSeconds := ((now - targetDate) `div` 1000)%Z in
  if (diffInSeconds <? 60)%Z then "방금 전"
  else
    let diffInMinutes := (diffInSeconds `div` 60)%Z in
    if (diffInMinutes <? 60)%Z then pretty diffInMinutes +:+ "분 전"
    else
      let diffInHours := (diffInMinutes `div` 60)%Z in
      if (diffInHours <? 24)%Z then pretty diffInHours +:+ "시간 전"
      else
        let diffInDays := (diffInHours `div` 24)%Z in
        if (diffInDays <? 7)%Z then pretty diffInDays +:+ "일 전"
        else
          let diffInWeeks := (diffInDays `div` 7)%Z in
          if (diffInWeeks <? 4)%Z then pretty diffInWeeks +:+ "주 전"
          else
            let diffInMonths := (diffInDays `div` 30)%Z in
            if (diffInMonths <? 12)%Z then pretty diffInMonths +:+ "개월 전"
            else
              let diffInYears := (diffInDays `div` 365)%Z in
              pretty diffInYears +:+ "년 전".

(** ** The comment form (components/comment/CommentForm.tsx) *)

Module Form.

Definition MAX_COMMENT_LENGTH : nat := 1000.

Record State := mkState {
  content : string;
  isLoading : bool;
  error : option string
}.

Definition initial : State := mkState "" false None.

Definition handleInputChange (value : string) (s : State) : State :=
  if bool_decide (js_length value ≤ MAX_COMMENT_LENGTH)%nat then
    mkState value (isLoading s) None
  else s.

(** [handleSubmit] up to its [await fetch]: the new state, the message
    passed to [onError] if any, and the content of the request if one is
    sent. *)
Definition handleSubmit_start (s : State) : State * option string * option string :=
  let trimmedContent := trim (content s) in
  if bool_decide (trimmedContent = "") then (s, None, None)
  else if bool_decide (MAX_COMMENT_LENGTH < js_length trimmedContent)%nat then
    let errorMsg := "댓글은 최대 " +:+ pretty MAX_COMMENT_LENGTH +:+ "자까지 가능합니다." in
    (mkState (content s) (isLoading s) (Some errorMsg), Some errorMsg, None)
  else if isLoading s then (s, None, None)
  else (mkState (content s) true None, None, Some trimmedContent).

(** What the request settles to: a rejection with its message, or a
    response. *)
Inductive Fetched :=
| Rejected (message : string)
| Resolved (r : Response).

Definition error_of (b : Body) : string :=
  match b with
  | BError e _ | BAlreadyLiked e _ => if bool_decide (e = "") then "댓글 작성에 실패했습니다." else e
  | _ => "댓글 작성에 실패했습니다."
  end.

(** [handleSubmit] from the [await fetch] on: the new state, the comment
    passed to [onCommentAdded] and the message passed to [onError]. A
    body without a [comment] makes the logging of [newComment.id] throw. *)
Definition handleSubmit_settle (f : Fetched) (s : State)
  : State * option CommentWithUser.t * option string :=
  match f with
  | Rejected message => (mkState (content s) false (Some message), None, Some message)
  | Resolved r =>
    if ok (status r) then
      match body r with
      | BComment newComment =>
        match CommentWithUser.user newComment with
        | Some _ => (mkState "" false (error s), Some newComment, None)
        | None =>
          let message := "Cannot read properties of null (reading 'name')" in
          (mkState (content s) false (Some message), None, Some message)
        end
      | _ =>
        let message := "Cannot read properties of undefined (reading 'id')" in
        (mkState (content s) false (Some message), None, Some message)
      end
    else
      let errorMsg := error_of (body r) in
      (mkState (content s) false (Some errorMsg), None, Some errorMsg)
  end.

(** [canSubmit] *)
Definition canSubmit (s : State) : bool :=
  bool_decide (0 < js_length (trim (content s)))%nat && negb (isLoading s).

End Form.

(** ** The post card and the pager in use *)

(** The like state of a card agrees with itself: a liked post counts at
    least one like, and no count is negative. *)
Definition likes_consistent (liked : bool) (count : Z) : Prop :=
  ((if liked then 1 else 0) ≤ count)%Z.

(** A session of a card whose request in flight, if any, was started
    from a consistent like state; [isLoading] tells that a request is in
    flight. *)
Definition card_consistent (x : Card.Session) : Prop :=
  likes_consistent (Card.isLiked (Card.state x)) (Card.likesCount (Card.state x)) ∧
  match Card.pending x with
  | Some (_, snapshot) =>
    likes_consistent (Card.previousIsLiked snapshot) (Card.previousLikesCount snapshot) ∧
    Card.isLoading (Card.state x) = true
  | None => Card.isLoading (Card.state x) = false
  end.

Definition settlements (es : list Card.Event) : nat :=
  length (List.filter (λ e, match e with Card.Settled _ => true | _ => false end) es).

Module Pager.

(** The pager with its fetch in flight, if any ([currentOffset] and
    [append] of the call), and the offsets it has requested. *)
Record Session := mkSession {
  state : Feed.State;
  inflight : option (Z * bool);
  requested : list Z
}.

Inductive Event :=
| Intersect (isIntersecting : bool)
| Settled (f : Feed.Fetched).

(** The first effect: [fetchPosts(0, false)]. *)
Definition mounted : Session :=
  mkSession (Feed.fetchPosts_start false Feed.initial) (Some (0%Z, false)) [0%Z].

Definition step (x : Session) (e : Event) : Session :=
  match e with
  | Intersect isIntersecting =>
    match Feed.on_intersect isIntersecting (state x) with
    | Some offset =>
      mkSession (Feed.fetchPosts_start true (state x)) (Some (offset, true))
                (requested x ++ [offset])
    | None => x
    end
  | Settled f =>
    match inflight x with
    | Some (currentOffset, append) =>
      mkSession (Feed.fetchPosts_settle currentOffset append f (state x)) None
                (requested x)
    | None => x
    end
  end.

Definition run_events (x : Session) (es : list Event) : Session := foldl step x es.

(** What holds of every session: the cursor counts the posts held, a
    fetch is in flight exactly while one of the loading flags is set,
    and a page being appended was requested at the cursor. *)
Definition consistent (x : Session) : Prop :=
  Feed.offset (state x) = Z.of_nat (length (Feed.posts (state x))) ∧
  match inflight x with
  | Some (currentOffset, append) =>
    (if append then currentOffset = Feed.offset (state x) else currentOffset = 0%Z) ∧
    Feed.loading (state x) || Feed.isLoadingMore (state x) = true
  | None => Feed.loading (state x) || Feed.isLoadingMore (state x) = false
  end.

End Pager.

(** The comment form in use: its state, whether a request is in flight,
    the contents sent and the comments handed to [onCommentAdded]. *)
Module FormSession.

Inductive Event :=
| Input (value : string)
| Submit
| Settled (f : Form.Fetched).

Record Session := mkSession {
  state : Form.State;
  pending : bool;
  sent : list string;
  added : list CommentWithUser.t
}.

Definition opened : Session := mkSession Form.initial false [] [].

Definition step (x : Session) (e : Event) : Session :=
  match e with
  | Input value =>
    mkSession (Form.handleInputChange value (state x)) (pending x) (sent x) (added x)
  | Submit =>
    match Form.handleSubmit_start (state x) with
    | (s, _, Some trimmedContent) =>
      mkSession s true (sent x ++ [trimmedContent]) (added x)
    | (s, _, None) => mkSession s (pending x) (sent x) (added x)
    end
  | Settled f =>
    if pending x then
      match Form.handleSubmit_settle f (state x) with
      | (s, Some newComment, _) => mkSession s false (sent x) (added x ++ [newComment])
      | (s, None, _) => mkSession s false (sent x) (added x)
      end
    else x
  end.

Definition run_events (x : Session) (es : list Event) : Session := foldl step x es.

(** A content the comments route stores as it is. *)
Definition sendable (c : string) : Prop :=
  c ≠ "" ∧ trim c = c ∧ (js_length c ≤ Form.MAX_COMMENT_LENGTH)%nat.

Definition consistent (x : Session) : Prop :=
  (js_length (Form.content (state x)) ≤ Form.MAX_COMMENT_LENGTH)%nat ∧
  Forall sendable (sent x) ∧
  pending x = Form.isLoading (state x) ∧
  (length (added x) + (if pending x then 1 else 0) ≤ length (sent x))%nat.

End FormSession.

(** * Properties *)

(** ** The post card *)

Section CardFacts.
Import Card.

(** Only the two comment callbacks write [commentsCount]. *)
Lemma step_commentsCount post_id x e :
  commentsCount (state (step post_id x e)) =
  match e with
  | CommentAdded _ => (commentsCount (state x) + 1)%Z
  | CommentDeleted _ => Z.max 0 (commentsCount (state x) - 1)
  | _ => commentsCount (state x)
  end.
Proof.
  destruct x as [s p snt]; destruct e as [|t|f| | |c|i]; simpl; try reflexivity.
  - unfold handleLikeClick_start. destruct (isLoading s); reflexivity.
  - unfold handleImageClick.
    destruct (isLiked s || isLoading s); [reflexivity|].
    destruct ((t - lastTapTime s <? 300)%Z && (0 <? t - lastTapTime s)%Z); reflexivity.
  - destruct p as [[[] snap]|]; simpl; [| |reflexivity].
    + unfold handleLikeClick_settle.
      destruct f as [|st js]; [reflexivity|].
      destruct (ok st); [reflexivity|]. destruct js; [|reflexivity].
      destruct (negb (previousIsLiked snap) && (st =? 409)%Z); reflexivity.
    + unfold handleImageClick_settle.
      destruct f as [|st js]; [reflexivity|].
      destruct (ok st); [reflexivity|]. destruct js; [|reflexivity].
      destruct (st =? 409)%Z; reflexivity.
Qed.

(** C10: for every sequence of callbacks of the card, starting from a
    non-negative [commentsCount], the count stays non-negative: the
    comment-added callback adds one and the comment-deleted callback
    subtracts one with a floor at zero, also when more deletions arrive
    than there are comments. *)
Theorem commentsCount_never_negative post_id x es :
  (0 ≤ commentsCount (state x))%Z →
  (0 ≤ commentsCount (state (run_events post_id x es)))%Z.
Proof.
  revert x. induction es as [|e es IH]; intros x Hx; [exact Hx|].
  simpl. apply IH. rewrite step_commentsCount. destruct e; lia.
Qed.

Lemma commentsCount_never_negative_witness :
  (0 ≤ commentsCount (state (open (PostWithDetails.mk "p1" "u1" "img" None 5 5
        (User.mk "u1" "clerk_1" "ann" 1) 0 1 false []))))%Z ∧
  (0 ≤ commentsCount (state (run_events "p1"
        (open (PostWithDetails.mk "p1" "u1" "img" None 5 5
                 (User.mk "u1" "clerk_1" "ann" 1) 0 1 false []))
        [CommentDeleted "c1"; CommentDeleted "c2"; CommentDeleted "c3"])))%Z.
Proof.
  split; [vm_compute; discriminate|].
  apply (commentsCount_never_negative "p1"). vm_compute; discriminate.
Defined.

Lemma rollback_isLiked snapshot s :
  isLiked (rollback snapshot s) = previousIsLiked snapshot.
Proof. reflexivity. Qed.

Lemma rollback_likesCount snapshot s :
  likesCount (rollback snapshot s) = previousLikesCount snapshot.
Proof. reflexivity. Qed.

Lemma handleLikeClick_settle_failed snapshot f s :
  failed f →
  handleLikeClick_settle snapshot f s = setIsLoading false (rollback snapshot s).
Proof.
  destruct f as [|st js]; simpl; [reflexivity|]. intros [Hok H409].
  rewrite Hok. destruct js; [|reflexivity].
  replace (st =? 409)%Z with false by (symmetry; apply Z.eqb_neq; exact H409).
  rewrite andb_false_r. reflexivity.
Qed.

Lemma handleImageClick_settle_failed snapshot f s :
  failed f →
  handleImageClick_settle snapshot f s = setIsLoading false (rollback snapshot s).
Proof.
  destruct f as [|st js]; simpl; [reflexivity|]. intros [Hok H409].
  rewrite Hok. destruct js; [|reflexivity].
  replace (st =? 409)%Z with false by (symmetry; apply Z.eqb_neq; exact H409).
  reflexivity.
Qed.

(** C5: when the request of a like toggle (from the button or from a
    double tap) fails with anything but success or the 409 conflict, the
    card ends with exactly the [isLiked] and [likesCount] it had when the
    toggle started, whatever happened to the state in between: the
    values are the stored snapshot, not a recomputation. *)
Theorem failed_toggle_restores_snapshot post_id s f s' :
  failed f →
  (∀ s1 req snapshot,
     handleLikeClick_start post_id s = (s1, Some (req, snapshot)) →
     isLiked (handleLikeClick_settle snapshot f s') = isLiked s ∧
     likesCount (handleLikeClick_settle snapshot f s') = likesCount s) ∧
  (∀ currentTime s1 req snapshot,
     handleImageClick post_id currentTime s = (s1, Some (req, snapshot)) →
     isLiked (handleImageClick_settle snapshot f s') = isLiked s ∧
     likesCount (handleImageClick_settle snapshot f s') = likesCount s).
Proof.
  intros Hf; split.
  - intros s1 req snapshot Hstart.
    rewrite handleLikeClick_settle_failed by exact Hf.
    unfold handleLikeClick_start in Hstart.
    destruct (isLoading s); [discriminate|].
    injection Hstart as _ _ <-. split; reflexivity.
  - intros t s1 req snapshot Hstart.
    rewrite handleImageClick_settle_failed by exact Hf.
    unfold handleImageClick in Hstart.
    destruct (isLiked s || isLoading s); [discriminate|].
    destruct ((t - lastTapTime s <? 300)%Z && (0 <? t - lastTapTime s)%Z);
      [|discriminate].
    injection Hstart as _ _ <-. split; reflexivity.
Qed.

Lemma failed_toggle_restores_snapshot_witness :
  failed (Resolved 500 (Some (BError "Failed to add like" None))) ∧
  isLiked (handleLikeClick_settle (mkSnapshot false 3)
             (Resolved 500 (Some (BError "Failed to add like" None)))
             (mkState false true 4 true true false 0 0 [])) = false ∧
  likesCount (handleLikeClick_settle (mkSnapshot false 3)
                (Resolved 500 (Some (BError "Failed to add like" None)))
                (mkState false true 4 true true false 0 0 [])) = 3%Z.
Proof.
  assert (Hf : failed (Resolved 500 (Some (BError "Failed to add like" None)))).
  { split; [reflexivity|discriminate]. }
  split; [exact Hf|].
  exact (proj1 (failed_toggle_restores_snapshot "p1"
                  (mkState false false 3 false false false 0 0 [])
                  (Resolved 500 (Some (BError "Failed to add like" None)))
                  (mkState false true 4 true true false 0 0 []) Hf)
               (mkState false true 4 true true false 0 0 [])
               (PostLike "p1") (mkSnapshot false 3) eq_refl).
Defined.

(** A tap that does not complete a double tap only records its time. *)
Lemma handleImageClick_single post_id t s :
  isLiked s = false → isLoading s = false →
  ¬ (0 < t - lastTapTime s < 300)%Z →
  handleImageClick post_id t s = (setLastTapTime t s, None).
Proof.
  intros Hl Hp Ht. unfold handleImageClick. rewrite Hl, Hp. simpl.
  destruct (Z.ltb_spec (t - lastTapTime s) 300), (Z.ltb_spec 0 (t - lastTapTime s));
    simpl; try reflexivity. lia.
Qed.

(** A tap within the window of the recorded one starts one like. *)
Lemma handleImageClick_double post_id t s :
  isLiked s = false → isLoading s = false →
  (0 < t - lastTapTime s < 300)%Z →
  ∃ s', handleImageClick post_id t s =
          (s', Some (PostLike post_id, mkSnapshot false (likesCount s))) ∧
        lastTapTime s' = 0%Z ∧ isLiked s' = true ∧ isLoading s' = true ∧
        likesCount s' = (likesCount s + 1)%Z.
Proof.
  intros Hl Hp Ht. unfold handleImageClick. rewrite Hl, Hp. simpl.
  destruct (Z.ltb_spec (t - lastTapTime s) 300), (Z.ltb_spec 0 (t - lastTapTime s));
    simpl; try lia.
  eexists; split; [reflexivity|]. repeat split; reflexivity.
Qed.

(** C6: on a card that is not liked and has no like request in flight,
    two taps whose distance is strictly between 0 and 300 ms send exactly
    one like request and reset the recorded tap time, and two taps more
    than 300 ms apart send none. The first tap is assumed not to
    complete a double tap with an earlier one. *)
Theorem double_tap_sends_one_like post_id x t1 t2 :
  isLiked (state x) = false → isLoading (state x) = false →
  ¬ (0 < t1 - lastTapTime (state x) < 300)%Z →
  ((0 < t2 - t1 < 300)%Z →
     sent (run_events post_id x [Tap t1; Tap t2]) = (sent x ++ [PostLike post_id])%list ∧
     lastTapTime (state (run_events post_id x [Tap t1; Tap t2])) = 0%Z) ∧
  ((300 < t2 - t1)%Z →
     sent (run_events post_id x [Tap t1; Tap t2]) = sent x).
Proof.
  intros Hl Hp H1. destruct x as [s p snt]; simpl in *.
  rewrite (handleImageClick_single post_id t1 s Hl Hp H1). simpl.
  split; intros H2.
  - destruct (handleImageClick_double post_id t2 (setLastTapTime t1 s))
      as (s' & -> & Hlast & _); simpl; auto.
  - rewrite handleImageClick_single; simpl; auto. lia.
Qed.

Lemma double_tap_sends_one_like_witness :
  let x := open (PostWithDetails.mk "p1" "u1" "img" None 5 5
                   (User.mk "u1" "clerk_1" "ann" 1) 0 0 false []) in
  (isLiked (state x) = false ∧ isLoading (state x) = false ∧
   ¬ (0 < 1700000000000 - lastTapTime (state x) < 300)%Z) ∧
  sent (run_events "p1" x [Tap 1700000000000; Tap 1700000000120]) = [PostLike "p1"] ∧
  sent (run_events "p1" x [Tap 1700000000000; Tap 1700000000301]) = [].
Proof.
  intros x.
  assert (H1 : ¬ (0 < 1700000000000 - lastTapTime (state x) < 300)%Z)
    by (simpl; lia).
  split; [exact (conj eq_refl (conj eq_refl H1))|].
  split.
  - apply (proj1 (double_tap_sends_one_like "p1" x 1700000000000 1700000000120
                    eq_refl eq_refl H1)). lia.
  - apply (proj2 (double_tap_sends_one_like "p1" x 1700000000000 1700000000301
                    eq_refl eq_refl H1)). lia.
Defined.

(** Taps on a liked card, or while a like request is in flight, do
    nothing at all. *)
Lemma taps_ignored post_id x ts :
  isLiked (state x) || isLoading (state x) = true →
  run_events post_id x (List.map Tap ts) = x.
Proof.
  intros H. induction ts as [|t ts IH]; [reflexivity|].
  simpl. unfold handleImageClick. rewrite H. destruct x; exact IH.
Qed.

(** However many taps arrive before the response, at most one like
    request is sent. *)
Lemma taps_send_at_most_one post_id ts : ∀ x,
  sent (run_events post_id x (List.map Tap ts)) = sent x ∨
  sent (run_events post_id x (List.map Tap ts)) = (sent x ++ [PostLike post_id])%list.
Proof.
  induction ts as [|t ts IH]; intros x; [left; reflexivity|].
  change (run_events post_id x (List.map Tap (t :: ts)))
    with (run_events post_id (step post_id x (Tap t)) (List.map Tap ts)).
  destruct x as [s p snt]. unfold step, handleImageClick. cbn [state].
  destruct (isLiked s || isLoading s) eqn:Hbusy.
  - exact (IH (mkSession s p snt)).
  - destruct ((t - lastTapTime s <? 300)%Z && (0 <? t - lastTapTime s)%Z);
      cbn [started pending sent].
    + right. rewrite taps_ignored; reflexivity.
    + exact (IH (mkSession (setLastTapTime t s) p snt)).
Qed.

(** The scenario of a post without comments that receives "hello",
    "world" and "!": the count goes to 3 and the preview ends as
    "!", "world". *)
Example three_comments_added :
  let c content t := CommentWithUser.mk content "p01" "u1" content t t (Some ann) in
  let x := run_events "p01"
             (open (PostWithDetails.mk "p01" "u1" "img" None 5 5 ann 0 0 false []))
             [CommentAdded (c "hello" 10%Z); CommentAdded (c "world" 20%Z);
              CommentAdded (c "!" 30%Z)] in
  commentsCount (state x) = 3%Z ∧
  List.map CommentWithUser.content (commentsPreview (state x)) = ["!"; "world"].
Proof. split; reflexivity. Qed.

End CardFacts.

(** ** The posts route *)

Section GetFacts.

Variable answered : Read → bool.
Variable order_posts : list Post.t → list Post.t.
Variable order_comments : list Comment.t → list Comment.t.

Lemma read_run {A} r table (query : Db → A) w :
  read answered r table query w =
  (Continue (data_of answered r (query (db w))),
   mkWorld (db w) (trace w ++ [OpSelect table])).
Proof. reflexivity. Qed.

Lemma preview_loop_run postIds m w :
  preview_loop answered order_comments postIds m w =
  (Continue (preview_map answered order_comments (db w) m postIds),
   mkWorld (db w) (trace w ++ List.map (λ _, OpSelect "comments") postIds)).
Proof.
  revert m w. induction postIds as [|postId rest IH]; intros m w; simpl.
  - unfold ret. destruct w; simpl. by rewrite app_nil_r.
  - unfold bind. rewrite read_run, IH. cbn [db trace]. unfold data_of.
    rewrite <- app_assoc. by destruct (answered (CommentsPreview postId)).
Qed.

(** The route answers with the value of [posts_response] and leaves the
    relations as they were. *)
Lemma GET_posts_run clerkUserId limit offset w :
  (run (GET_posts answered order_posts order_comments clerkUserId limit offset) w).1 =
    posts_response answered order_posts order_comments clerkUserId limit offset (db w) ∧
  db (run (GET_posts answered order_posts order_comments clerkUserId limit offset) w).2
    = db w.
Proof.
  unfold GET_posts, posts_response, current_user_id, run, bind, ret, respond.
  destruct (truthy clerkUserId) as [c|]; rewrite ?read_run; unfold select; cbn [db trace];
    destruct (posts_page _ _ _ (db w)) as [[|pu ps]|code msg];
    try (split; reflexivity).
  - set (posts := pu :: ps).
    destruct (truthy (match data_of answered UserData (user_by_clerk_id c (db w)) with
                      | Some (QData u) => Some (User.id u) | _ => None end));
      rewrite ?read_run; cbn [db trace]; rewrite preview_loop_run; cbn [db trace];
      match goal with |- context [mapM ?f ?l] => destruct (mapM f l) end;
      split; reflexivity.
  - set (posts := pu :: ps). cbn [db trace truthy].
    rewrite ?read_run; cbn [db trace]. rewrite preview_loop_run; cbn [db trace].
    match goal with |- context [mapM ?f ?l] => destruct (mapM f l) end;
      split; reflexivity.
Qed.

(** A page in the body comes from the rows of [posts_page], one view
    per row. *)
Lemma posts_response_rows clerkUserId limit offset d ps total :
  body (posts_response answered order_posts order_comments clerkUserId limit offset d)
    = BPosts ps total →
  ∃ rows userLikes likesCountMap commentsCountMap,
    posts_page order_posts (default 10%Z limit) (default 0%Z offset) d = QData rows ∧
    total = Z.of_nat (length ps) ∧
    Forall2 (λ pu p,
               post_view (current_user_id answered clerkUserId d) userLikes likesCountMap
                 commentsCountMap
                 (preview_map answered order_comments d ∅
                    (List.map (λ pu, Post.id pu.1) rows))
                 pu = Some p) rows ps.
Proof.
  unfold posts_response.
  destruct (posts_page _ _ _ d) as [[|pu rows]|code msg]; [| |discriminate].
  - intros [= <- <-]. exists [], [], ∅, ∅. repeat split. constructor.
  - match goal with |- context [mapM ?f ?l] => destruct (mapM f l) eqn:Hm end;
      [|discriminate].
    intros [= <- <-]. do 4 eexists. split; [reflexivity|]. split; [reflexivity|].
    apply mapM_Some_1, Hm.
Qed.

Lemma post_view_Some currentUserId userLikes likesCountMap commentsCountMap
    commentsPreviewMap pu p :
  post_view currentUserId userLikes likesCountMap commentsCountMap commentsPreviewMap pu
    = Some p →
  post_of p = pu.1 ∧
  PostWithDetails.is_liked p =
    match truthy currentUserId with
    | Some _ => bool_decide (Post.id pu.1 ∈ userLikes)
    | None => false
    end ∧
  mapM comment_view (default [] (commentsPreviewMap !! Post.id pu.1))
    = Some (PostWithDetails.comments_preview p).
Proof.
  unfold post_view. destruct pu as [post [u|]]; cbn [fst snd]; [|discriminate].
  destruct (mapM comment_view _) as [preview|]; [|discriminate].
  intros [= <-]. destruct post. repeat split; reflexivity.
Qed.

(** The preview map holds the preview of every post whose preview read
    was answered, and no entry for the others. *)
Lemma preview_map_lookup d m postIds postId :
  preview_map answered order_comments d m postIds !! postId =
  if decide (postId ∈ postIds) then
    if answered (CommentsPreview postId)
    then Some (comments_preview_of order_comments postId d)
    else m !! postId
  else m !! postId.
Proof.
  revert m. induction postIds as [|x postIds IH]; intros m; simpl.
  - destruct (decide (postId ∈ [])) as [H|_]; [by apply elem_of_nil in H|reflexivity].
  - rewrite IH. destruct (decide (postId = x)) as [->|Hne].
    + rewrite (decide_True (P := x ∈ x :: postIds)) by (by left).
      destruct (answered (CommentsPreview x)) eqn:Hx.
      * destruct (decide (x ∈ postIds)); [reflexivity|apply lookup_insert_eq].
      * by destruct (decide (x ∈ postIds)).
    + destruct (decide (postId ∈ postIds)) as [Hin|Hnin].
      * rewrite decide_True by (by right).
        destruct (answered (CommentsPreview postId)); [reflexivity|].
        destruct (answered (CommentsPreview x)); [by apply lookup_insert_ne|reflexivity].
      * rewrite decide_False by (intros [?|?]%elem_of_cons; done).
        destruct (answered (CommentsPreview x)); [by apply lookup_insert_ne|reflexivity].
Qed.




End GetFacts.

(** ** The feed pager against the posts route *)

Section PagerFacts.

Variable answered : Read → bool.
Variable order_posts : list Post.t → list Post.t.
Variable order_comments : list Comment.t → list Comment.t.

(** The route reports as [total] the number of posts of the page. *)
Lemma posts_response_total clerkUserId limit offset d :
  let r := posts_response answered order_posts order_comments clerkUserId limit offset d in
  ok (status r) = true →
  Feed.data_total (body r) = Z.of_nat (length (Feed.data_posts (body r))).
Proof.
  unfold posts_response.
  destruct (posts_page _ _ _ d) as [[|pu ps]|code msg];
    [intros _; reflexivity| |intros H; discriminate H].
  match goal with |- context [mapM ?f ?l] => destruct (mapM f l) end;
    [intros _; reflexivity|intros H; discriminate H].
Qed.

(** With the page length as [total], the pager's end-of-data flag is
    cleared by every successful fetch, full page or not. *)
Lemma hasMore_false_after_fetch clerkUserId limit currentOffset append w s :
  (0 ≤ currentOffset)%Z →
  let r := (run (GET_posts answered order_posts order_comments clerkUserId limit
                   (Some currentOffset)) w).1 in
  ok (status r) = true →
  Feed.hasMore (Feed.fetchPosts_settle currentOffset append (Feed.Resolved r) s) = false.
Proof.
  intros Hoff r Hok. subst r.
  rewrite (proj1 (GET_posts_run _ _ _ _ _ _ _)) in *.
  pose proof (posts_response_total clerkUserId limit (Some currentOffset) (db w) Hok) as Ht.
  unfold Feed.fetchPosts_settle. rewrite Hok. cbn [Feed.hasMore].
  unfold Feed.hasMoreData. rewrite Ht.
  destruct (Z.ltb_spec 0 (Z.of_nat (length (Feed.data_posts
             (body (posts_response answered order_posts order_comments clerkUserId limit
                      (Some currentOffset) (db w))))))) as [Hpos|Hz].
  - apply andb_false_iff; left. apply Z.ltb_ge. lia.
  - apply Z.eqb_neq. unfold Feed.POSTS_PER_PAGE. lia.
Qed.

End PagerFacts.

(** C1, evaluated on the code: twelve posts are stored and the pager
    asks for the first ten. The route returns ten posts, as many as the
    limit, and reports [total = 10]; the pager computes
    [newOffset < total], that is [10 < 10], and sets [hasMore] to false
    although the page is full and two posts remain. *)
Theorem full_page_clears_hasMore :
  let r := (run (GET_posts every_read (sort_desc Post.created_at) (sort_desc Comment.created_at)
                   None (Some Feed.POSTS_PER_PAGE) (Some 0%Z))
                (mkWorld twelve_posts [])).1 in
  ok (status r) = true ∧
  Z.of_nat (length (Feed.data_posts (body r))) = Feed.POSTS_PER_PAGE ∧
  Feed.data_total (body r) = 10%Z ∧
  Feed.hasMore (Feed.fetchPosts_settle 0 false (Feed.Resolved r)
                  (Feed.fetchPosts_start false Feed.initial)) = false.
Proof. vm_compute. repeat split; reflexivity. Qed.

(** ** The likes routes *)

Section LikeFacts.

Lemma single_data {A} (rows : list A) r : single rows = QData r → rows = [r].
Proof. destruct rows as [|a [|b rows]]; simpl; congruence. Qed.

Lemma user_by_clerk_id_exists c d u :
  user_by_clerk_id c d = QData u →
  existsb (λ u', bool_decide (User.id u' = User.id u)) (users d) = true.
Proof.
  intros H. apply single_data in H. apply existsb_exists. exists u. split.
  - assert (Hin : In u [u]) by (left; reflexivity).
    rewrite <- H in Hin. apply filter_In in Hin. tauto.
  - by apply bool_decide_eq_true.
Qed.

Lemma post_by_id_exists post_id d p :
  post_by_id post_id d = QData p →
  existsb (λ p', bool_decide (Post.id p' = post_id)) (posts d) = true.
Proof.
  intros H. apply single_data in H. apply existsb_exists. exists p.
  assert (Hin : In p [p]) by (left; reflexivity).
  rewrite <- H in Hin. apply filter_In in Hin. tauto.
Qed.

Lemma existsb_likes_of post_id user_id ls :
  existsb (same_post_user post_id user_id) ls = false ↔ likes_of post_id user_id ls = [].
Proof.
  unfold likes_of. induction ls as [|l ls IH]; simpl; [tauto|].
  destruct (same_post_user post_id user_id l); simpl; [split; discriminate|exact IH].
Qed.

Lemma likes_of_app post_id user_id ls ls' :
  likes_of post_id user_id (ls ++ ls') =
  (likes_of post_id user_id ls ++ likes_of post_id user_id ls')%list.
Proof. apply List.filter_app. Qed.

(** What the route does with a request that passes its checks: signed
    in, a [post_id] string in the body, a user row for the caller and a
    row for the post. The outcome is decided by the unique constraint. *)
Lemma POST_likes_checked clerkUserId c b post_id u p uuid now w :
  truthy clerkUserId = Some c →
  required_string (field b "post_id") = Some post_id →
  user_by_clerk_id c (db w) = QData u →
  post_by_id post_id (db w) = QData p →
  let out := run (POST_likes clerkUserId (Some b) uuid now) w in
  let like := Like.mk uuid post_id (User.id u) now in
  if existsb (same_post_user post_id (User.id u)) (likes (db w)) then
    out.1 = NextResponse_json (BAlreadyLiked "Already liked" "이미 좋아요한 게시물입니다.")
                              (Some 409%Z) ∧
    db out.2 = db w
  else
    out.1 = NextResponse_json (BLike like) None ∧
    db out.2 = mkDb (users (db w)) (posts (db w)) (likes (db w) ++ [like])
                    (comments (db w)).
Proof.
  intros Hc Hb Hu Hp.
  unfold POST_likes, run, bind, request_json, select, insert, ret, respond.
  rewrite Hc, Hb. cbn [db trace]. rewrite Hu. cbn [db trace]. rewrite Hp.
  cbn [db trace]. unfold insert_like.
  rewrite (post_by_id_exists _ _ _ Hp), (user_by_clerk_id_exists _ _ _ Hu).
  cbn [negb].
  destruct (existsb (same_post_user post_id (User.id u)) (likes (db w)));
    split; reflexivity.
Qed.

(** The insertion keeps the unique constraint. *)
Lemma insert_like_unique uuid now post_id user_id d :
  likes_unique_post_user (likes d) →
  likes_unique_post_user (likes (insert_like uuid now post_id user_id d).2).
Proof.
  intros Huniq. unfold insert_like.
  repeat (match goal with |- context [if ?c then _ else _] => destruct c eqn:? end;
          try exact Huniq).
  intros p' u'. cbn [snd likes]. rewrite likes_of_app, length_app.
  unfold likes_of at 2; simpl.
  destruct (same_post_user p' u' (Like.mk uuid post_id user_id now)) eqn:Hsame; simpl.
  - unfold same_post_user in Hsame. simpl in Hsame.
    apply andb_true_iff in Hsame as [Hp' Hu'].
    apply bool_decide_eq_true in Hp', Hu'. subst p' u'.
    match goal with H : existsb _ _ = false |- _ =>
      apply existsb_likes_of in H; rewrite H end.
    simpl; lia.
  - specialize (Huniq p' u'). lia.
Qed.

(** C2: for a request that passes the route's checks, on relations that
    satisfy the unique constraint, a second like of the same post by the
    same user answers 409 "Already liked" (not the generic 500), inserts
    nothing, and the pair has exactly one row afterwards. *)
Theorem addLike_twice_one_row
    clerkUserId c b post_id u p uuid1 now1 uuid2 now2 w :
  truthy clerkUserId = Some c →
  required_string (field b "post_id") = Some post_id →
  user_by_clerk_id c (db w) = QData u →
  post_by_id post_id (db w) = QData p →
  likes_unique_post_user (likes (db w)) →
  let first := run (POST_likes clerkUserId (Some b) uuid1 now1) w in
  let second := run (POST_likes clerkUserId (Some b) uuid2 now2) first.2 in
  status second.1 = 409%Z ∧
  db second.2 = db first.2 ∧
  length (likes_of post_id (User.id u) (likes (db second.2))) = 1%nat.
Proof.
  intros Hc Hb Hu Hp Huniq first second.
  pose proof (POST_likes_checked _ _ _ _ _ _ uuid1 now1 w Hc Hb Hu Hp) as H1.
  cbv zeta in H1. fold first in H1.
  assert (Hdb : users (db first.2) = users (db w) ∧ posts (db first.2) = posts (db w)).
  { destruct (existsb _ _); destruct H1 as [_ ->]; split; reflexivity. }
  destruct Hdb as [Husers Hposts].
  assert (Hu1 : user_by_clerk_id c (db first.2) = QData u)
    by (unfold user_by_clerk_id in *; rewrite Husers; exact Hu).
  assert (Hp1 : post_by_id post_id (db first.2) = QData p)
    by (unfold post_by_id in *; rewrite Hposts; exact Hp).
  assert (Hrows : length (likes_of post_id (User.id u) (likes (db first.2))) = 1%nat).
  { destruct (existsb _ _) eqn:Hex; destruct H1 as [_ ->].
    - specialize (Huniq post_id (User.id u)).
      destruct (likes_of post_id (User.id u) (likes (db w))) eqn:Hl; [|simpl in *; lia].
      apply existsb_likes_of in Hl. congruence.
    - apply existsb_likes_of in Hex. cbn [likes].
      rewrite likes_of_app, Hex. unfold likes_of, same_post_user; simpl.
      rewrite !bool_decide_eq_true_2 by reflexivity. reflexivity. }
  pose proof (POST_likes_checked _ _ _ _ _ _ uuid2 now2 first.2 Hc Hb Hu1 Hp1) as H2.
  cbv zeta in H2. fold second in H2.
  destruct (existsb (same_post_user post_id (User.id u)) (likes (db first.2))) eqn:Hex2.
  - destruct H2 as [-> Hdb2]. rewrite Hdb2. auto.
  - apply existsb_likes_of in Hex2. rewrite Hex2 in Hrows. discriminate.
Qed.

Lemma addLike_twice_one_row_witness :
  let w := mkWorld twelve_posts [] in
  let b : gmap string JsValue := {[ "post_id" := JsString "p03" ]} in
  let first := run (POST_likes (Some "clerk_1") (Some b) "l1" 100) w in
  let second := run (POST_likes (Some "clerk_1") (Some b) "l2" 101) first.2 in
  status first.1 = 200%Z ∧
  status second.1 = 409%Z ∧
  db second.2 = db first.2 ∧
  length (likes_of "p03" "u1" (likes (db second.2))) = 1%nat.
Proof.
  intros w b first second.
  split; [reflexivity|].
  apply (addLike_twice_one_row (Some "clerk_1") "clerk_1" b "p03" ann
           (post_at ("p03", 3%Z)) "l1" 100 "l2" 101 w);
    try reflexivity.
  intros p' u'. simpl. lia.
Defined.

(** C7, on the code: a like that is created is answered with the
    default status of [NextResponse.json], which is 200, not 201. *)
Lemma created_like_status_is_200 :
  let out := run (POST_likes (Some "clerk_1")
                    (Some {[ "post_id" := JsString "p03" ]}) "l1" 100)
                 (mkWorld twelve_posts []) in
  likes (db out.2) = [Like.mk "l1" "p03" "u1" 100] ∧
  body out.1 = BLike (Like.mk "l1" "p03" "u1" 100) ∧
  status out.1 = 200%Z ∧
  status out.1 ≠ 201%Z.
Proof. vm_compute. repeat split; discriminate. Qed.

(** C7 as the code has it: for a request that passes the route's
    checks, a like that is created is answered with status 200 and the
    inserted row in the body, and the row is the one appended to the
    relation; if the pair already has a row, the answer is 409 and
    nothing is inserted. *)
Theorem addLike_created_status clerkUserId c b post_id u p uuid now w :
  truthy clerkUserId = Some c →
  required_string (field b "post_id") = Some post_id →
  user_by_clerk_id c (db w) = QData u →
  post_by_id post_id (db w) = QData p →
  let out := run (POST_likes clerkUserId (Some b) uuid now) w in
  let like := Like.mk uuid post_id (User.id u) now in
  (likes_of post_id (User.id u) (likes (db w)) = [] →
     status out.1 = 200%Z ∧ body out.1 = BLike like ∧
     likes (db out.2) = (likes (db w) ++ [like])%list) ∧
  (likes_of post_id (User.id u) (likes (db w)) ≠ [] →
     status out.1 = 409%Z ∧ db out.2 = db w).
Proof.
  intros Hc Hb Hu Hp out like.
  pose proof (POST_likes_checked _ _ _ _ _ _ uuid now w Hc Hb Hu Hp) as H.
  cbv zeta in H. fold out like in H.
  destruct (existsb (same_post_user post_id (User.id u)) (likes (db w))) eqn:Hex.
  - destruct H as [-> Hdb]. split.
    + intros Hnil. apply existsb_likes_of in Hnil. congruence.
    + intros _. split; [reflexivity|exact Hdb].
  - destruct H as [-> ->]. split.
    + intros _. repeat split; reflexivity.
    + intros Hne. apply existsb_likes_of in Hex. contradiction.
Qed.

Lemma addLike_created_status_witness :
  let w := mkWorld twelve_posts [] in
  let b : gmap string JsValue := {[ "post_id" := JsString "p03" ]} in
  let out := run (POST_likes (Some "clerk_1") (Some b) "l1" 100) w in
  likes_of "p03" "u1" (likes (db w)) = [] ∧
  status out.1 = 200%Z ∧ body out.1 = BLike (Like.mk "l1" "p03" "u1" 100) ∧
  likes (db out.2) = [Like.mk "l1" "p03" "u1" 100].
Proof.
  intros w b out. split; [reflexivity|].
  apply (proj1 (addLike_created_status (Some "clerk_1") "clerk_1" b "p03" ann
                  (post_at ("p03", 3%Z)) "l1" 100 w
                  eq_refl eq_refl eq_refl eq_refl)).
  reflexivity.
Defined.

Lemma like_of_data postId userId d l :
  like_of postId userId d = QData l →
  In l (likes d) ∧ Like.post_id l = postId ∧ Like.user_id l = userId.
Proof.
  intros H. apply single_data in H.
  assert (Hin : In l (likes_of postId userId (likes d))) by (rewrite H; left; reflexivity).
  apply filter_In in Hin as [Hin Hsame]. split; [exact Hin|].
  apply andb_true_iff in Hsame as [H1 H2].
  apply bool_decide_eq_true in H1, H2. auto.
Qed.

(** The 403 branch is guarded by a comparison that the query has
    already decided: no request reaches it. *)
Lemma DELETE_likes_never_forbidden clerkUserId postId w :
  status (run (DELETE_likes clerkUserId postId) w).1 ≠ 403%Z.
Proof.
  unfold DELETE_likes, run, bind, select, delete_from, ret, respond.
  destruct (truthy clerkUserId) as [c|]; [|discriminate].
  destruct (bool_decide (postId = "")); [discriminate|]. cbn [db trace].
  destruct (user_by_clerk_id c (db w)) as [u|]; [|discriminate]. cbn [db trace].
  destruct (like_of postId (User.id u) (db w)) as [l|] eqn:Hl; [|discriminate].
  apply like_of_data in Hl as (_ & _ & Huser).
  rewrite bool_decide_eq_true_2 by exact Huser. discriminate.
Qed.

Lemma DELETE_likes_checked clerkUserId c postId u w :
  truthy clerkUserId = Some c →
  postId ≠ "" →
  user_by_clerk_id c (db w) = QData u →
  let out := run (DELETE_likes clerkUserId postId) w in
  match like_of postId (User.id u) (db w) with
  | QData l => status out.1 = 200%Z ∧ db out.2 = delete_like_by_id (Like.id l) (db w)
  | QError _ _ => status out.1 = 404%Z ∧ db out.2 = db w
  end.
Proof.
  intros Hc Hid Hu.
  unfold DELETE_likes, run, bind, select, delete_from, ret, respond.
  rewrite Hc, bool_decide_eq_false_2 by exact Hid. cbn [db trace].
  rewrite Hu. cbn [db trace].
  destruct (like_of postId (User.id u) (db w)) as [l|] eqn:Hl; [|split; reflexivity].
  apply like_of_data in Hl as (_ & _ & Huser).
  rewrite bool_decide_eq_true_2 by exact Huser. split; reflexivity.
Qed.

Lemma NoDup_map_inj {A B} (f : A → B) (l : list A) a b :
  NoDup (List.map f l) → In a l → In b l → f a = f b → a = b.
Proof.
  induction l as [|x l IH]; simpl; [tauto|].
  intros Hnd [->|Ha] [->|Hb] Hf; auto.
  - apply NoDup_cons in Hnd as [Hx _]. exfalso. apply Hx.
    rewrite Hf. apply list_elem_of_In, in_map, Hb.
  - apply NoDup_cons in Hnd as [Hx _]. exfalso. apply Hx.
    rewrite <- Hf. apply list_elem_of_In, in_map, Ha.
  - apply NoDup_cons in Hnd as [_ Hnd]. auto.
Qed.

(** C3, on the code: bob's like on p03 exists and ann, who has none,
    asks to remove the like of p03. The lookup is filtered by ann's id,
    finds nothing, and the route answers 404, not 403. *)
Lemma non_owner_gets_not_found :
  let out := run (DELETE_likes (Some "clerk_1") "p03") (mkWorld bob_likes_p03 []) in
  likes bob_likes_p03 = [Like.mk "l9" "p03" "u2" 50] ∧
  user_by_clerk_id "clerk_1" bob_likes_p03 = QData ann ∧
  status out.1 = 404%Z ∧
  status out.1 ≠ 403%Z ∧
  db out.2 = bob_likes_p03.
Proof. vm_compute. repeat split; discriminate. Qed.

(** C3 as the code has it: a signed-in caller with a user row asks to
    remove the like of a post. The answer is never 403. If the caller has
    no like on the post, whoever else has one, the answer is 404 and the
    relations are unchanged. In every case the likes of other users stay
    in the relation (like ids being unique, as the primary key makes
    them). *)
Theorem removeLike_spares_other_users clerkUserId c postId u w :
  truthy clerkUserId = Some c →
  postId ≠ "" →
  user_by_clerk_id c (db w) = QData u →
  NoDup (List.map Like.id (likes (db w))) →
  let out := run (DELETE_likes clerkUserId postId) w in
  status out.1 ≠ 403%Z ∧
  (likes_of postId (User.id u) (likes (db w)) = [] →
     status out.1 = 404%Z ∧ db out.2 = db w) ∧
  (∀ l, In l (likes (db w)) → Like.user_id l ≠ User.id u → In l (likes (db out.2))).
Proof.
  intros Hc Hid Hu Hpk out.
  split; [apply DELETE_likes_never_forbidden|].
  pose proof (DELETE_likes_checked _ _ _ _ w Hc Hid Hu) as H.
  cbv zeta in H. fold out in H.
  destruct (like_of postId (User.id u) (db w)) as [l0|] eqn:Hl.
  - destruct H as [_ Hdb]. split.
    + intros Hnil. unfold like_of in Hl. rewrite Hnil in Hl. discriminate.
    + intros l Hin Hother. rewrite Hdb. cbn [delete_like_by_id likes].
      apply filter_In. split; [exact Hin|].
      apply negb_true_iff, bool_decide_eq_false. intros Heq.
      apply like_of_data in Hl as (Hin0 & _ & Huser0).
      apply Hother. rewrite <- Huser0. f_equal.
      exact (NoDup_map_inj Like.id _ _ _ Hpk Hin Hin0 Heq).
  - destruct H as [H404 Hdb]. split; [auto|].
    intros l Hin _. rewrite Hdb. exact Hin.
Qed.

Lemma removeLike_spares_other_users_witness :
  let w := mkWorld bob_likes_p03 [] in
  let out := run (DELETE_likes (Some "clerk_1") "p03") w in
  likes_of "p03" "u1" (likes (db w)) = [] ∧
  status out.1 = 404%Z ∧ db out.2 = db w.
Proof.
  intros w out.
  assert (Hpk : NoDup (List.map Like.id (likes (db w)))).
  { apply (bool_decide_unpack _). vm_compute. exact I. }
  assert (Hid : "p03" ≠ "") by discriminate.
  split; [reflexivity|].
  apply (proj1 (proj2 (removeLike_spares_other_users (Some "clerk_1") "clerk_1" "p03"
                         ann w eq_refl Hid eq_refl Hpk))).
  reflexivity.
Defined.

End LikeFacts.

(** ** The anonymous viewer *)

(** C8: without a signed-in identity, every post of a page has
    [is_liked = false], and the like and comment POST routes answer 401
    with the relations and the storage trace exactly as they were: no
    query is issued before the rejection. *)
Theorem anonymous_viewer answered order_posts order_comments limit offset b uuid now w :
  (∀ ps total,
     body (run (GET_posts answered order_posts order_comments None limit offset) w).1
       = BPosts ps total →
     Forall (λ p, PostWithDetails.is_liked p = false) ps) ∧
  (status (run (POST_likes None b uuid now) w).1 = 401%Z ∧
   (run (POST_likes None b uuid now) w).2 = w) ∧
  (status (run (POST_comments None b uuid now) w).1 = 401%Z ∧
   (run (POST_comments None b uuid now) w).2 = w).
Proof.
  split; [|split; split; reflexivity].
  intros ps total Hbody.
  rewrite (proj1 (GET_posts_run _ _ _ _ _ _ _)) in Hbody.
  apply posts_response_rows in Hbody as (rows & ul & lc & cc & _ & _ & Hviews).
  eapply Forall2_Forall_r; [exact Hviews|].
  apply Forall_forall. intros pu _ p Hview.
  apply post_view_Some in Hview as (_ & Hliked & _). exact Hliked.
Qed.

(** The flag is not constantly false: bob, who liked p03, sees it set on
    p03 and only there, while the anonymous viewer of the same relations
    sees it nowhere. *)
Example viewer_has_liked_p03 :
  let liked clerkUserId :=
    List.map PostWithDetails.id
      (List.filter PostWithDetails.is_liked
         (getPage every_read (sort_desc Post.created_at) (sort_desc Comment.created_at)
                  clerkUserId 0 10 (mkWorld bob_likes_p03 []))) in
  liked (Some "clerk_2") = ["p03"] ∧ liked None = [].
Proof. vm_compute. split; reflexivity. Qed.

(** The page that holds p01 when the preview read of p01 is not
    answered: the post counts three comments and previews none. *)
Example unanswered_preview_is_empty :
  List.map (λ p, (PostWithDetails.id p,
                  List.map CommentWithUser.id (PostWithDetails.comments_preview p),
                  PostWithDetails.comments_count p))
    (getPage (every_read_but (CommentsPreview "p01")) (sort_desc Post.created_at)
             (sort_desc Comment.created_at) None 10 10 (mkWorld three_comments []))
  = [("p02", [], 0%Z); ("p01", [], 3%Z)].
Proof. vm_compute. reflexivity. Qed.

(** The page that holds p01 previews its two newest comments. *)
Example preview_of_three_comments :
  List.map (λ p, (PostWithDetails.id p,
                  List.map CommentWithUser.id (PostWithDetails.comments_preview p),
                  PostWithDetails.comments_count p))
    (getPage every_read (sort_desc Post.created_at) (sort_desc Comment.created_at)
             None 10 10 (mkWorld three_comments []))
  = [("p02", [], 0%Z); ("p01", ["c3"; "c2"], 3%Z)].
Proof. vm_compute. reflexivity. Qed.

(** ** Ordered queries and the comment preview *)

Section OrderFacts.

Context {A : Type} (key : A → Z).

Lemma sort_desc_order_by : order_by_desc key (sort_desc key).
Proof.
  intros rows. split.
  - apply merge_sort_Permutation.
  - apply Sorted_merge_sort, _.
Qed.

Lemma sort_desc_backwards_order_by : order_by_desc key (sort_desc_backwards key).
Proof.
  intros rows. unfold sort_desc_backwards. split.
  - rewrite merge_sort_Permutation. apply reverse_Permutation.
  - apply Sorted_merge_sort, _.
Qed.



Lemma Sorted_take n l : Sorted (desc key) l → Sorted (desc key) (take n l).
Proof.
  intros H%(Sorted_StronglySorted _). apply StronglySorted_Sorted.
  revert n. induction H as [|a l Hl IH Ha]; intros [|n]; simpl; try constructor.
  - apply IH.
  - apply Forall_take, Ha.
Qed.

Lemma Sorted_drop n l : Sorted (desc key) l → Sorted (desc key) (drop n l).
Proof.
  intros H%(Sorted_StronglySorted _). apply StronglySorted_Sorted.
  revert n. induction H as [|a l Hl IH Ha]; intros [|n]; simpl; try constructor; auto.
Qed.

End OrderFacts.





Section PreviewFacts.
Import Card.

Variable answered : Read → bool.
Variable order_posts : list Post.t → list Post.t.
Variable order_comments : list Comment.t → list Comment.t.


End PreviewFacts.

(** ** Pages of the feed *)

Lemma In_take_drop {A} (x : A) n m l : In x (take n (drop m l)) → In x l.
Proof.
  intros H. rewrite <- (take_drop m l). apply in_or_app. right.
  rewrite <- (take_drop n (drop m l)). apply in_or_app. left. exact H.
Qed.

(** With pairwise distinct keys there is one descending order. *)
Lemma order_by_desc_unique {A} (key : A → Z) o1 o2 rows :
  NoDup (List.map key rows) →
  order_by_desc key o1 → order_by_desc key o2 → o1 rows = o2 rows.
Proof.
  intros Hkeys H1 H2.
  destruct (H1 rows) as [Hp1 Hs1], (H2 rows) as [Hp2 Hs2].
  apply (Sorted_unique_strong (desc key)); [|exact Hs1|exact Hs2|by rewrite Hp1, Hp2].
  intros x1 x2 Hx1 Hx2 Hle Hge. unfold desc in *.
  rewrite Hp1 in Hx1. rewrite Hp2 in Hx2.
  apply (NoDup_map_inj key rows); [exact Hkeys| | |lia]; by apply list_elem_of_In.
Qed.

(** Consecutive slices of a list, put together. *)
Lemma concat_slices {A} (l : list A) (size : nat) n :
  concat (List.map (λ k, take size (drop (k * size) l)) (seq 0 n)) = take (n * size) l.
Proof.
  induction n as [|n IH]; [reflexivity|].
  rewrite seq_S, List.map_app, concat_app, IH. simpl. rewrite app_nil_r.
  rewrite take_take_drop. f_equal. lia.
Qed.

Section PageFacts.

Variable order_comments : list Comment.t → list Comment.t.
Hypothesis order_comments_ok : order_by_desc Comment.created_at order_comments.

Lemma comments_preview_joined postId d :
  references_hold d →
  is_Some (mapM comment_view (comments_preview_of order_comments postId d)).
Proof.
  intros [_ Hfk]. apply mapM_is_Some_2, Forall_forall.
  intros cu Hcu%list_elem_of_In. unfold comments_preview_of in Hcu.
  rewrite <- (drop_0 (List.map _ _)) in Hcu. apply In_take_drop in Hcu.
  apply in_map_iff in Hcu as (c & <- & Hc).
  destruct (order_comments_ok
              (List.filter (λ c, bool_decide (Comment.post_id c = postId)) (comments d)))
    as [Hperm _].
  apply list_elem_of_In in Hc. rewrite Hperm in Hc.
  apply list_elem_of_In, filter_In in Hc as [Hc _].
  rewrite Forall_forall in Hfk. specialize (Hfk c (proj2 (list_elem_of_In _ _) Hc)).
  unfold comment_view. cbn [compose fst snd].
  destruct Hfk as [u ->]. eauto.
Qed.

(** For a valid range on relations that satisfy their foreign keys the
    route answers with a page: the slice [offset, offset + limit) of the
    ordered posts. *)
Lemma posts_response_page answered order_posts clerkUserId limit offset d :
  order_by_desc Post.created_at order_posts →
  references_hold d →
  (0 ≤ offset)%Z → (0 < limit)%Z →
  ∃ ps,
    posts_response answered order_posts order_comments clerkUserId (Some limit) (Some offset) d
      = NextResponse_json (BPosts ps (Z.of_nat (length ps))) None ∧
    List.map post_of ps =
      take (Z.to_nat limit) (drop (Z.to_nat offset) (order_posts (posts d))).
Proof.
  intros Hord Hrefs Hoff Hlim. unfold posts_response, posts_page, range.
  change (default 10%Z (Some limit)) with limit.
  change (default 0%Z (Some offset)) with offset.
  replace ((offset <? 0)%Z || (offset + limit - 1 <? offset)%Z) with false
    by (symmetry; apply orb_false_iff; split; apply Z.ltb_ge; lia).
  replace (offset + limit - 1 - offset + 1)%Z with limit by lia.
  set (joined := List.map (λ p, (p, user_by_id (Post.user_id p) d))
                          (order_posts (posts d))).
  assert (Hfst : List.map fst (take (Z.to_nat limit) (drop (Z.to_nat offset) joined)) =
                 take (Z.to_nat limit) (drop (Z.to_nat offset) (order_posts (posts d)))).
  { unfold joined. rewrite <- firstn_map, <- skipn_map, List.map_map. cbn [fst].
    by rewrite List.map_id. }
  destruct (take (Z.to_nat limit) (drop (Z.to_nat offset) joined))
    as [|pu rows] eqn:Hrows.
  { exists []. split; [reflexivity|]. exact Hfst. }
  rewrite <- Hrows in *. clear pu rows Hrows.
  set (rows := take (Z.to_nat limit) (drop (Z.to_nat offset) joined)) in *.
  match goal with |- context [mapM ?f rows] =>
    assert (Hsome : is_Some (mapM f rows)) end.
  { apply mapM_is_Some_2, Forall_forall. intros pu Hpu. cbn [compose].
    assert (Hid : Post.id pu.1 ∈ List.map (λ pu, Post.id pu.1) rows)
      by (apply list_elem_of_In, (in_map (λ pu, Post.id pu.1)), list_elem_of_In, Hpu).
    apply list_elem_of_In, In_take_drop, in_map_iff in Hpu as (p & <- & Hp).
    apply list_elem_of_In in Hp. rewrite (proj1 (Hord _)) in Hp.
    pose proof Hrefs as [Hfk _]. rewrite Forall_forall in Hfk.
    destruct (Hfk p Hp) as [u Hu].
    unfold post_view. cbn [fst snd] in *. rewrite Hu.
    rewrite preview_map_lookup, decide_True by exact Hid.
    destruct (answered (CommentsPreview (Post.id p))).
    - cbn [default from_option id].
      destruct (comments_preview_joined (Post.id p) d) as [cs Hcs]; [exact Hrefs|].
      rewrite Hcs. eauto.
    - rewrite lookup_empty. cbn [default from_option]. eauto. }
  destruct Hsome as [ps Hps]. rewrite Hps. exists ps. split; [reflexivity|].
  rewrite <- Hfst. apply mapM_Some_1 in Hps.
  apply (Forall2_impl _ (λ pu p, post_of p = pu.1)) in Hps;
    [|intros pu p Hview; by apply post_view_Some in Hview as (? & _)].
  clearbody rows. clear -Hps.
  induction Hps as [|pu p l k Hview _ IH]; [reflexivity|].
  cbn [List.map]. by rewrite IH, Hview.
Qed.

End PageFacts.

Section FeedPages.

Variable answered : nat → Read → bool.
Variable executor : nat → list Post.t → list Post.t.
Variable order_comments : list Comment.t → list Comment.t.
Hypothesis executor_ok : ∀ k, order_by_desc Post.created_at (executor k).
Hypothesis order_comments_ok : order_by_desc Comment.created_at order_comments.

Lemma getPage_slice k clerkUserId offset limit w :
  references_hold (db w) →
  (0 ≤ offset)%Z → (0 < limit)%Z →
  List.map post_of (getPage (answered k) (executor k) order_comments clerkUserId
                            offset limit w) =
  take (Z.to_nat limit) (drop (Z.to_nat offset) (executor k (posts (db w)))).
Proof.
  intros Hrefs Hoff Hlim. unfold getPage.
  rewrite (proj1 (GET_posts_run _ _ _ _ _ _ _)).
  destruct (posts_response_page order_comments order_comments_ok (answered k) (executor k)
              clerkUserId limit offset (db w) (executor_ok k) Hrefs Hoff Hlim)
    as (ps & -> & Hps).
  exact Hps.
Qed.

(** C4 as the code has it: the route orders by [created_at] alone. For
    every valid range, on relations that satisfy their foreign keys, a
    page has at most [limit] posts in non-increasing [created_at] order.
    When the creation times of the stored posts are pairwise distinct,
    the pages at offsets 0, limit, 2 limit, ... of an unchanged posts
    relation, whichever executor serves each of them, concatenate to the
    posts in descending creation order: a rearrangement of the relation,
    nothing repeated and nothing left out. *)
Theorem pages_rebuild_feed clerkUserId limit w :
  references_hold (db w) →
  (0 < limit)%Z →
  (∀ k offset, (0 ≤ offset)%Z →
     let page := getPage (answered k) (executor k) order_comments clerkUserId
                         offset limit w in
     (Z.of_nat (length page) ≤ limit)%Z ∧
     Sorted (desc Post.created_at) (List.map post_of page)) ∧
  (NoDup (List.map Post.created_at (posts (db w))) →
   ∀ n, (Z.of_nat (length (posts (db w))) ≤ Z.of_nat n * limit)%Z →
     List.map post_of (pages answered executor order_comments clerkUserId limit w n)
       = sort_desc Post.created_at (posts (db w)) ∧
     List.map post_of (pages answered executor order_comments clerkUserId limit w n)
       ≡ₚ posts (db w)).
Proof.
  intros Hrefs Hlim. split.
  - intros k offset Hoff page.
    pose proof (getPage_slice k clerkUserId offset limit w Hrefs Hoff Hlim) as Hpage.
    fold page in Hpage. split.
    + rewrite <- (length_map post_of), Hpage, length_take. lia.
    + rewrite Hpage.
      apply (Sorted_take Post.created_at), (Sorted_drop Post.created_at).
      apply (proj2 (executor_ok k _)).
  - intros Hdistinct n Hn.
    assert (Hall : List.map post_of (pages answered executor order_comments clerkUserId limit w n)
                   = sort_desc Post.created_at (posts (db w))).
    { unfold pages. rewrite concat_map, List.map_map.
      rewrite (List.map_ext _
                 (λ k, take (Z.to_nat limit)
                         (drop (k * Z.to_nat limit)
                               (sort_desc Post.created_at (posts (db w)))))).
      - rewrite concat_slices. apply take_ge.
        rewrite (proj1 (sort_desc_order_by Post.created_at _)). nia.
      - intros k. rewrite getPage_slice by (auto; nia).
        rewrite Z2Nat.inj_mul, Nat2Z.id by lia.
        f_equal. f_equal.
        apply (order_by_desc_unique Post.created_at);
          [exact Hdistinct|apply executor_ok|apply sort_desc_order_by]. }
    split; [exact Hall|].
    rewrite Hall. apply sort_desc_order_by.
Qed.

End FeedPages.

(** C4, on the code: two posts share their creation time, and the page
    size is 1. The first request is served with the tied rows in one
    order, the second with the tied rows in the other order; both orders
    are descending in [created_at], the only key the route passes. The
    three pages together show post pa twice and post pb never. *)
Lemma tied_posts_repeat_and_skip :
  let executor (k : nat) :=
    match k with
    | O => sort_desc Post.created_at
    | S _ => sort_desc_backwards Post.created_at
    end in
  let shown := pages (λ _, every_read) executor (sort_desc Comment.created_at) None 1
                     (mkWorld tied_posts []) 3 in
  (∀ k, order_by_desc Post.created_at (executor k)) ∧
  List.map Post.id (posts tied_posts) = ["pa"; "pb"] ∧
  List.map PostWithDetails.id shown = ["pa"; "pa"] ∧
  ¬ NoDup (List.map PostWithDetails.id shown) ∧
  ¬ (List.map post_of shown ≡ₚ posts tied_posts).
Proof.
  intros executor shown. split; [|split; [reflexivity|]].
  { intros [|k]; [apply sort_desc_order_by|apply sort_desc_backwards_order_by]. }
  assert (Hshown : shown = [PostWithDetails.mk "pa" "u1" "https://img" None 5 5 ann 0 0 false [];
                            PostWithDetails.mk "pa" "u1" "https://img" None 5 5 ann 0 0 false []])
    by (vm_compute; reflexivity).
  rewrite Hshown. split; [reflexivity|]. split.
  - intros Hnd. apply NoDup_cons in Hnd as [Hnin _]. apply Hnin. by left.
  - intros Hperm.
    assert (Hpb : post_at ("pb", 5%Z) ∈ posts tied_posts) by (right; left).
    rewrite <- Hperm in Hpb. apply list_elem_of_In in Hpb.
    destruct Hpb as [H|[H|[]]]; discriminate H.
Qed.

Lemma pages_rebuild_feed_witness :
  let executor (k : nat) :=
    if Nat.even k then sort_desc Post.created_at
    else sort_desc_backwards Post.created_at in
  let w := mkWorld twelve_posts [] in
  List.map post_of (pages (λ _, every_read) executor (sort_desc Comment.created_at) None 5 w 3)
    = sort_desc Post.created_at (posts twelve_posts).
Proof.
  intros executor w.
  assert (Hexec : ∀ k, order_by_desc Post.created_at (executor k)).
  { intros k. unfold executor.
    destruct (Nat.even k); [apply sort_desc_order_by|apply sort_desc_backwards_order_by]. }
  assert (Hrefs : references_hold (db w)).
  { split; [|constructor]. apply (bool_decide_unpack _). vm_compute. exact I. }
  assert (Hdistinct : NoDup (List.map Post.created_at (posts (db w)))).
  { apply (bool_decide_unpack _). vm_compute. exact I. }
  apply (proj2 (pages_rebuild_feed (λ _, every_read) executor
                  (sort_desc Comment.created_at) Hexec
                  (sort_desc_order_by Comment.created_at) None 5 w Hrefs eq_refl)
               Hdistinct 3%nat).
  vm_compute. discriminate.
Defined.


(** Deleting the newest of three comments from a card that previews the
    two newest leaves the second newest alone in the preview: the
    callback filters, it does not fetch the third. *)
Example deleted_preview_is_filtered :
  let c (id_time : string * Z) :=
    CommentWithUser.mk id_time.1 "p01" "u2" "text" id_time.2 id_time.2 (Some bob) in
  let s := Card.mkState false false 0 false false false 0 3 [c ("c3", 30%Z); c ("c2", 20%Z)] in
  Card.commentsPreview (Card.handleCommentDeleted "c3" s) = [c ("c2", 20%Z)] ∧
  Card.commentsPreview (Card.handleCommentDeleted "c1" s) = Card.commentsPreview s ∧
  Card.commentsCount (Card.handleCommentDeleted "c3" s) = 2%Z.
Proof. vm_compute. repeat split; reflexivity. Qed.

(** * Further properties of the routes and components *)

(** ** POST /api/likes, any request *)

Lemma insert_like_cases uuid now post_id user_id d :
  let row := Like.mk uuid post_id user_id now in
  (∃ code message, insert_like uuid now post_id user_id d = (QError code message, d)) ∨
  (likes_of post_id user_id (likes d) = [] ∧
   insert_like uuid now post_id user_id d =
     (QData row, mkDb (users d) (posts d) (likes d ++ [row]) (comments d))).
Proof.
  intros row. unfold insert_like.
  destruct (negb (existsb _ (posts d))); [left; eauto|].
  destruct (negb (existsb _ (users d))); [left; eauto|].
  destruct (existsb (same_post_user post_id user_id) (likes d)) eqn:Hex; [left; eauto|].
  right. split; [by apply existsb_likes_of|reflexivity].
Qed.

(** Either the route answers something other than 200 and leaves the
    relations alone, or it answers 200 with the row it has appended. *)
Lemma POST_likes_outcome clerkUserId body uuid now w :
  let out := run (POST_likes clerkUserId body uuid now) w in
  (status out.1 ≠ 200%Z ∧ db out.2 = db w) ∨
  (∃ post_id user_id,
     let row := Like.mk uuid post_id user_id now in
     out.1 = NextResponse_json (BLike row) None ∧
     likes_of post_id user_id (likes (db w)) = [] ∧
     db out.2 = (insert_like uuid now post_id user_id (db w)).2 ∧
     db out.2 = mkDb (users (db w)) (posts (db w)) (likes (db w) ++ [row])
                     (comments (db w))).
Proof.
  unfold POST_likes, run, bind, request_json, select, insert, ret, respond.
  destruct (truthy clerkUserId) as [c|]; [|left; split; [discriminate|reflexivity]].
  destruct body as [b|]; [|left; split; [discriminate|reflexivity]].
  destruct (required_string (field b "post_id")) as [post_id|];
    [|left; split; [discriminate|reflexivity]].
  cbn [db trace].
  destruct (user_by_clerk_id c (db w)) as [u|]; [|left; split; [discriminate|reflexivity]].
  cbn [db trace].
  destruct (post_by_id post_id (db w)) as [p|]; [|left; split; [discriminate|reflexivity]].
  cbn [db trace].
  destruct (insert_like_cases uuid now post_id (User.id u) (db w))
    as [(code & message & ->)|[Hnone Hins]].
  - left. destruct (bool_decide (code = "23505")); split; (discriminate || reflexivity).
  - right. exists post_id, (User.id u). rewrite Hins. repeat split; assumption.
Qed.

(** X1: whatever the request, POST /api/likes never touches users,
    posts or comments; it leaves the likes alone unless it answers 200,
    and when it answers 200 it has appended exactly one row, the one in
    the body, carrying the generated id and time. *)
Theorem POST_likes_appends_one_row_or_nothing clerkUserId b uuid now w :
  let out := run (POST_likes clerkUserId b uuid now) w in
  users (db out.2) = users (db w) ∧
  posts (db out.2) = posts (db w) ∧
  comments (db out.2) = comments (db w) ∧
  (status out.1 ≠ 200%Z → likes (db out.2) = likes (db w)) ∧
  (status out.1 = 200%Z →
   ∃ like, body out.1 = BLike like ∧
           Like.id like = uuid ∧ Like.created_at like = now ∧
           likes (db out.2) = (likes (db w) ++ [like])%list).
Proof.
  intros out.
  destruct (POST_likes_outcome clerkUserId b uuid now w)
    as [[Hst Hdb]|(post_id & user_id & Hresp & _ & _ & Hdb)].
  - fold out in Hst, Hdb. rewrite Hdb. repeat split; try reflexivity.
    intros H; contradiction.
  - fold out in Hresp, Hdb. rewrite Hdb, Hresp. repeat split; try reflexivity.
    + intros H. exfalso. apply H. reflexivity.
    + intros _. eexists. repeat split; reflexivity.
Qed.

(** X2: POST /api/likes keeps the unique constraint of the likes
    relation, whatever the request. *)
Theorem POST_likes_keeps_unique clerkUserId b uuid now w :
  likes_unique_post_user (likes (db w)) →
  likes_unique_post_user (likes (db (run (POST_likes clerkUserId b uuid now) w).2)).
Proof.
  intros Huniq.
  destruct (POST_likes_outcome clerkUserId b uuid now w)
    as [[_ Hdb]|(post_id & user_id & _ & _ & Hdb & _)]; rewrite Hdb.
  - exact Huniq.
  - by apply insert_like_unique.
Qed.

Lemma POST_likes_keeps_unique_witness :
  let w := mkWorld bob_likes_p03 [] in
  let b : gmap string JsValue := {[ "post_id" := JsString "p03" ]} in
  likes_unique_post_user (likes (db w)) ∧
  List.map Like.user_id (likes (db (run (POST_likes (Some "clerk_1") (Some b) "l1" 60) w).2))
    = ["u2"; "u1"] ∧
  likes_unique_post_user
    (likes (db (run (POST_likes (Some "clerk_1") (Some b) "l1" 60) w).2)).
Proof.
  intros w b.
  assert (Huniq : likes_unique_post_user (likes (db w))).
  { intros p u. cbn. destruct (same_post_user p u _); simpl; lia. }
  split; [exact Huniq|]. split; [reflexivity|].
  exact (POST_likes_keeps_unique (Some "clerk_1") (Some b) "l1" 60 w Huniq).
Defined.

(** X3: a signed-in request whose body has no non-empty string under
    [post_id] (the key is missing, or holds null, a number, an object or
    the empty string) is answered 400 before any query is issued. *)
Theorem POST_likes_requires_post_id clerkUserId c b uuid now w :
  truthy clerkUserId = Some c →
  (∀ s, b !! "post_id" = Some (JsString s) → s = "") →
  let out := run (POST_likes clerkUserId (Some b) uuid now) w in
  status out.1 = 400%Z ∧ out.2 = w.
Proof.
  intros Hc Hb. unfold POST_likes, run, bind, request_json, ret, respond.
  rewrite Hc.
  assert (Hreq : required_string (field b "post_id") = None).
  { unfold field. destruct (b !! "post_id") as [[]|] eqn:Hl; try reflexivity.
    cbn. rewrite (Hb _ eq_refl). reflexivity. }
  rewrite Hreq. split; reflexivity.
Qed.

Lemma POST_likes_requires_post_id_witness :
  let w := mkWorld twelve_posts [] in
  let b : gmap string JsValue := {[ "postId" := JsString "p03"; "post_id" := JsNumber 3 ]} in
  status (run (POST_likes (Some "clerk_1") (Some b) "l1" 60) w).1 = 400%Z ∧
  (run (POST_likes (Some "clerk_1") (Some b) "l1" 60) w).2 = w.
Proof.
  intros w b.
  apply (POST_likes_requires_post_id (Some "clerk_1") "clerk_1" b "l1" 60 w eq_refl).
  intros s Hs. vm_compute in Hs. discriminate Hs.
Defined.

(** X4: a well-formed request of a known user for a post id that no
    post has is answered 404 after the two lookups; no insertion is
    attempted and the relations are unchanged. *)
Theorem POST_likes_unknown_post clerkUserId c b post_id u uuid now w :
  truthy clerkUserId = Some c →
  required_string (field b "post_id") = Some post_id →
  user_by_clerk_id c (db w) = QData u →
  Forall (λ p, Post.id p ≠ post_id) (posts (db w)) →
  let out := run (POST_likes clerkUserId (Some b) uuid now) w in
  status out.1 = 404%Z ∧
  db out.2 = db w ∧
  trace out.2 = (trace w ++ [OpSelect "users"; OpSelect "posts"])%list.
Proof.
  intros Hc Hb Hu Hnone.
  assert (Hp : List.filter (λ p, bool_decide (Post.id p = post_id)) (posts (db w)) = []).
  { induction Hnone as [|p ps Hp _ IH]; [reflexivity|]. simpl.
    rewrite bool_decide_eq_false_2 by exact Hp. exact IH. }
  unfold POST_likes, run, bind, request_json, select, ret, respond.
  rewrite Hc, Hb. cbn [db trace]. rewrite Hu. cbn [db trace].
  unfold post_by_id. rewrite Hp. cbn. rewrite <- app_assoc. repeat split; reflexivity.
Qed.

Lemma POST_likes_unknown_post_witness :
  let w := mkWorld twelve_posts [] in
  let b : gmap string JsValue := {[ "post_id" := JsString "p99" ]} in
  let out := run (POST_likes (Some "clerk_1") (Some b) "l1" 60) w in
  status out.1 = 404%Z ∧ db out.2 = db w ∧
  trace out.2 = [OpSelect "users"; OpSelect "posts"].
Proof.
  intros w b out.
  apply (POST_likes_unknown_post (Some "clerk_1") "clerk_1" b "p99" ann "l1" 60 w
           eq_refl eq_refl eq_refl).
  apply (bool_decide_unpack _). vm_compute. exact I.
Defined.

(** ** DELETE /api/likes/[postId], the caller's own like *)









(** ** The comment routes *)

(** *** Text: appending, reversing, trimming and counting *)

Lemma string_app_cons c (s t : string) : String c s +:+ t = String c (s +:+ t).
Proof. reflexivity. Qed.

Lemma string_app_nil_r (s : string) : s +:+ "" = s.
Proof.
  induction s as [|c s IH]; [reflexivity|]. by rewrite string_app_cons, IH.
Qed.

Lemma string_app_assoc (a b c : string) : (a +:+ b) +:+ c = a +:+ (b +:+ c).
Proof.
  induction a as [|x a IH]; [reflexivity|]. by rewrite !string_app_cons, IH.
Qed.

Lemma string_app_length (a b : string) :
  String.length (a +:+ b) = (String.length a + String.length b)%nat.
Proof. induction a as [|x a IH]; [reflexivity|]. rewrite string_app_cons. simpl. by rewrite IH. Qed.

Lemma rev_app_app a b : String.rev_app a b = String.rev_app a "" +:+ b.
Proof.
  revert b. induction a as [|x a IH]; intros b; simpl; [reflexivity|].
  rewrite IH, (IH (String x "")), string_app_assoc. reflexivity.
Qed.

Lemma rev_app_rev_app a b c :
  String.rev_app (String.rev_app a b) c = String.rev_app b (a +:+ c).
Proof.
  revert b c. induction a as [|x a IH]; intros b c; simpl; [reflexivity|].
  rewrite IH. reflexivity.
Qed.

Lemma string_rev_involutive s : String.rev (String.rev s) = s.
Proof.
  unfold String.rev. rewrite rev_app_rev_app. cbn [String.rev_app].
  apply string_app_nil_r.
Qed.

Lemma string_rev_app a b : String.rev (a +:+ b) = String.rev b +:+ String.rev a.
Proof.
  unfold String.rev.
  assert (H : ∀ a c, String.rev_app (a +:+ b) c = String.rev_app b (String.rev_app a c)).
  { clear a. induction a as [|x a IH]; intros c; [reflexivity|].
    rewrite string_app_cons. simpl. apply IH. }
  rewrite H, rev_app_app. reflexivity.
Qed.

Lemma string_rev_length s : String.length (String.rev s) = String.length s.
Proof.
  unfold String.rev.
  assert (H : ∀ a b, String.length (String.rev_app a b)
                     = (String.length a + String.length b)%nat).
  { induction a as [|x a IH]; intros b; simpl; [reflexivity|]. rewrite IH. simpl. lia. }
  rewrite H. simpl. lia.
Qed.

Lemma strip_prefix_Some p s r : strip_prefix p s = Some r ↔ s = p +:+ r.
Proof.
  revert s. induction p as [|a p IH]; intros s; simpl.
  - split; [by intros [= ->]|by intros ->].
  - destruct s as [|b s]; [split; discriminate|].
    rewrite string_app_cons. case_bool_decide as Hab.
    + subst b. rewrite IH. split; [by intros ->|by intros [= ->]].
    + split; [discriminate|]. intros [= ? _]. done.
Qed.

Lemma after_space_Some spaces s r :
  after_space spaces s = Some r → ∃ p, p ∈ spaces ∧ s = p +:+ r.
Proof.
  unfold after_space. induction spaces as [|p spaces IH]; simpl; [discriminate|].
  destruct (strip_prefix p s) as [r'|] eqn:Hp; simpl.
  - intros [= ->]. exists p. split; [by left|]. by apply strip_prefix_Some.
  - intros (p' & Hin & Hs)%IH. exists p'. split; [by right|done].
Qed.

Lemma after_space_None spaces s :
  after_space spaces s = None ↔ Forall (λ p, strip_prefix p s = None) spaces.
Proof.
  unfold after_space. induction spaces as [|p spaces IH]; simpl.
  - split; [constructor|done].
  - destruct (strip_prefix p s) as [r'|] eqn:Hp; simpl.
    + split; [discriminate|]. intros H. apply Forall_cons in H as [H _]. congruence.
    + rewrite IH. split; [by constructor|]. by intros [_ ?]%Forall_cons.
Qed.

(** What is clear of spaces at its start stays so when cut at its end. *)
Lemma after_space_prefix spaces t q :
  after_space spaces (t +:+ q) = None → after_space spaces t = None.
Proof.
  rewrite !after_space_None. intros H. eapply Forall_impl; [exact H|].
  intros p Hp. cbv beta in Hp.
  destruct (strip_prefix p t) as [r|] eqn:Ht; [|reflexivity].
  apply strip_prefix_Some in Ht. subst t.
  rewrite string_app_assoc in Hp.
  assert (strip_prefix p (p +:+ r +:+ q) = Some (r +:+ q)) by by apply strip_prefix_Some.
  congruence.
Qed.

Lemma skip_spaces_suffix spaces n s : ∃ p, s = p +:+ skip_spaces spaces n s.
Proof.
  revert s. induction n as [|n IH]; intros s; simpl; [by exists ""|].
  destruct (after_space spaces s) as [r|] eqn:Hr; [|by exists ""].
  apply after_space_Some in Hr as (p & _ & ->).
  destruct (IH r) as [p' Hp']. exists (p +:+ p').
  rewrite string_app_assoc. by rewrite <- Hp'.
Qed.

(** The fuel suffices: what [skip_spaces] returns starts with no space. *)
Lemma skip_spaces_clean spaces n s :
  Forall (λ p, p ≠ "") spaces →
  (String.length s ≤ n)%nat →
  after_space spaces (skip_spaces spaces n s) = None.
Proof.
  intros Hne. revert s. induction n as [|n IH]; intros s Hn; simpl.
  - destruct s; [|simpl in Hn; lia].
    apply after_space_None. eapply Forall_impl; [exact Hne|].
    intros [|a p] Hp; [done|reflexivity].
  - destruct (after_space spaces s) as [r|] eqn:Hr; [|exact Hr].
    apply IH. apply after_space_Some in Hr as (p & Hin & ->).
    rewrite Forall_forall in Hne. specialize (Hne p Hin).
    rewrite string_app_length in Hn. destruct p; [done|]. simpl in Hn. lia.
Qed.

Lemma skip_spaces_of_clean spaces n s :
  after_space spaces s = None → skip_spaces spaces n s = s.
Proof. destruct n; simpl; [done|]. by intros ->. Qed.

Lemma white_space_nonempty : Forall (λ p, p ≠ "") white_space.
Proof. apply (bool_decide_unpack _). vm_compute. exact I. Qed.

Lemma white_space_rev_nonempty : Forall (λ p, p ≠ "") (List.map String.rev white_space).
Proof. apply (bool_decide_unpack _). vm_compute. exact I. Qed.

Lemma trim_start_clean s : after_space white_space (trim_start s) = None.
Proof. apply skip_spaces_clean; [apply white_space_nonempty|done]. Qed.

Lemma trim_end_prefix s : ∃ q, s = trim_end s +:+ q.
Proof.
  unfold trim_end.
  destruct (skip_spaces_suffix (List.map String.rev white_space) (String.length s)
              (String.rev s)) as [p Hp].
  exists (String.rev p).
  rewrite <- string_rev_app, <- Hp. by rewrite string_rev_involutive.
Qed.

Lemma trim_start_suffix s : ∃ p, s = p +:+ trim_start s.
Proof. apply skip_spaces_suffix. Qed.

(** [s = p ++ trim s ++ q]: trimming cuts at both ends and nothing else. *)
Lemma trim_infix s : ∃ p q, s = p +:+ trim s +:+ q.
Proof.
  destruct (trim_start_suffix s) as [p Hp], (trim_end_prefix (trim_start s)) as [q Hq].
  exists p, q. unfold trim. by rewrite <- Hq.
Qed.

(** Trimming a trimmed text changes nothing. *)
Lemma trim_idempotent s : trim (trim s) = trim s.
Proof.
  unfold trim. set (a := trim_start s).
  assert (Hstart : trim_start (trim_end a) = trim_end a).
  { apply skip_spaces_of_clean.
    destruct (trim_end_prefix a) as [q Hq].
    apply (after_space_prefix _ _ q). rewrite <- Hq. apply trim_start_clean. }
  rewrite Hstart. unfold trim_end.
  set (b := skip_spaces (List.map String.rev white_space) (String.length a) (String.rev a)).
  rewrite string_rev_involutive, skip_spaces_of_clean; [reflexivity|].
  apply skip_spaces_clean; [apply white_space_rev_nonempty|].
  by rewrite string_rev_length.
Qed.

Lemma characters_prefix astral expected t q :
  (characters astral expected t ≤ characters astral expected (t +:+ q))%nat.
Proof.
  revert expected. induction t as [|c t IH]; intros expected; [simpl; lia|].
  rewrite string_app_cons. simpl.
  repeat case_match; try apply IH; try (apply le_n_S, IH).
  apply Nat.add_le_mono_l, IH.
Qed.

Lemma white_space_characters astral :
  Forall (λ p, ∀ r, characters astral 0 (p +:+ r) = S (characters astral 0 r)) white_space.
Proof. repeat (constructor; [intros r; reflexivity|]). constructor. Qed.

Lemma skip_spaces_characters astral n s :
  (characters astral 0 (skip_spaces white_space n s) ≤ characters astral 0 s)%nat.
Proof.
  revert s. induction n as [|n IH]; intros s; simpl; [lia|].
  destruct (after_space white_space s) as [r|] eqn:Hr; [|lia].
  apply after_space_Some in Hr as (p & Hin & ->).
  pose proof (white_space_characters astral) as H. rewrite Forall_forall in H.
  rewrite (H p Hin). specialize (IH r). lia.
Qed.

Lemma trim_characters astral s :
  (characters astral 0 (trim s) ≤ characters astral 0 s)%nat.
Proof.
  unfold trim. destruct (trim_end_prefix (trim_start s)) as [q Hq].
  transitivity (characters astral 0 (trim_start s)); [|apply skip_spaces_characters].
  pose proof (characters_prefix astral 0 (trim_end (trim_start s)) q) as H.
  by rewrite <- Hq in H.
Qed.

Lemma js_length_trim s : (js_length (trim s) ≤ js_length s)%nat.
Proof. apply trim_characters. Qed.

Lemma characters_astral expected s :
  (characters 1 expected s ≤ characters 2 expected s)%nat.
Proof.
  revert expected. induction s as [|c s IH]; intros expected; simpl; [lia|].
  repeat case_match; try apply IH; try (apply le_n_S, IH).
  specialize (IH 3%nat). lia.
Qed.

Lemma LENGTH_le_js_length s : (LENGTH s ≤ js_length s)%nat.
Proof. apply characters_astral. Qed.

Lemma js_length_0 s : js_length s = 0%nat ↔ s = "".
Proof.
  split; [|by intros ->]. destruct s as [|c s]; [done|].
  unfold js_length. simpl. rewrite andb_false_r.
  repeat case_match; lia.
Qed.

Lemma has_NUL_app a b : has_NUL (a +:+ b) = has_NUL a || has_NUL b.
Proof.
  induction a as [|c a IH]; [reflexivity|]. rewrite string_app_cons. simpl.
  by rewrite IH, orb_assoc.
Qed.

Lemma has_NUL_trim s : has_NUL s = false → has_NUL (trim s) = false.
Proof.
  destruct (trim_infix s) as (p & q & Hs). intros H. rewrite Hs in H.
  rewrite !has_NUL_app in H. apply orb_false_iff in H as [_ H].
  by apply orb_false_iff in H as [H _].
Qed.

Lemma user_by_id_exists id d :
  existsb (λ u, bool_decide (User.id u = id)) (users d) = true →
  is_Some (user_by_id id d).
Proof.
  unfold user_by_id. induction (users d) as [|u us IH]; simpl; [discriminate|].
  destruct (bool_decide (User.id u = id)); simpl; eauto.
Qed.

(** What the route does with a request that passes its checks. *)
Lemma POST_comments_checked clerkUserId c b post_id content u p uuid now w :
  truthy clerkUserId = Some c →
  required_string (field b "post_id") = Some post_id →
  required_string (field b "content") = Some content →
  trim content ≠ "" →
  (js_length content ≤ 1000)%nat →
  has_NUL content = false →
  user_by_clerk_id c (db w) = QData u →
  post_by_id post_id (db w) = QData p →
  let out := run (POST_comments clerkUserId (Some b) uuid now) w in
  let row := Comment.mk uuid post_id (User.id u) (trim content) now now in
  status out.1 = 201%Z ∧
  (∃ cu, body out.1 = BComment cu ∧ comment_of cu = row) ∧
  db out.2 = mkDb (users (db w)) (posts (db w)) (likes (db w)) (comments (db w) ++ [row]).
Proof.
  intros Hc Hp_id Hcontent Htrim Hlen Hnul Hu Hp out row. subst out.
  unfold POST_comments, run, bind, request_json, select, insert, ret, respond.
  rewrite Hc, Hp_id, Hcontent.
  rewrite bool_decide_eq_false_2 by (by rewrite js_length_0).
  replace (1000 <? js_length content)%nat with false
    by (symmetry; apply Nat.ltb_ge; exact Hlen).
  cbn [db trace]. rewrite Hu. cbn [db trace]. rewrite Hp. cbn [db trace].
  unfold insert_comment.
  rewrite (post_by_id_exists _ _ _ Hp), (user_by_clerk_id_exists _ _ _ Hu). cbn [negb].
  rewrite (has_NUL_trim _ Hnul).
  replace (1000 <? LENGTH (trim content))%nat with false
    by (symmetry; apply Nat.ltb_ge;
        pose proof (js_length_trim content); pose proof (LENGTH_le_js_length (trim content));
        lia).
  cbn [db trace Comment.id]. fold row.
  set (d' := mkDb (users (db w)) (posts (db w)) (likes (db w)) (comments (db w) ++ [row])).
  destruct (comment_with_user_by_id uuid d') as [[c' [u'|]]|code message] eqn:Hjoin;
    cbn [fst snd status body].
  - split; [reflexivity|]. split; [|reflexivity].
    eexists. split; [reflexivity|].
    apply single_data in Hjoin.
    assert (Hin : In (row, user_by_id (User.id u) d')
                     (List.map (λ c0, (c0, user_by_id (Comment.user_id c0) d'))
                        (List.filter (λ c0, bool_decide (Comment.id c0 = uuid))
                           (comments d')))).
    { apply (in_map (λ c0, (c0, user_by_id (Comment.user_id c0) d')) _ row).
      apply filter_In. split; [apply in_or_app; right; left; reflexivity|].
      by apply bool_decide_eq_true. }
    rewrite Hjoin in Hin. destruct Hin as [[= <- _]|[]]. by destruct c'.
  - exfalso. apply single_data in Hjoin.
    assert (Hin : In (row, user_by_id (User.id u) d')
                     (List.map (λ c0, (c0, user_by_id (Comment.user_id c0) d'))
                        (List.filter (λ c0, bool_decide (Comment.id c0 = uuid))
                           (comments d')))).
    { apply (in_map (λ c0, (c0, user_by_id (Comment.user_id c0) d')) _ row).
      apply filter_In. split; [apply in_or_app; right; left; reflexivity|].
      by apply bool_decide_eq_true. }
    rewrite Hjoin in Hin. destruct Hin as [[= _ Hnone]|[]].
    destruct (user_by_id_exists (User.id u) d' (user_by_clerk_id_exists _ _ _ Hu))
      as [u' Hu']. congruence.
  - split; [reflexivity|]. split; [|reflexivity].
    eexists. split; [reflexivity|]. reflexivity.
Qed.

(** X8: a comment request that passes the route's checks is answered
    201 with the stored comment; the comments relation grows by exactly
    that row, whose content is the text trimmed of the white space of
    Unicode at both ends. The checks count UTF-16 code units: the text
    is not blank, has at most 1000 code units, and holds no NUL
    character, which the column would refuse. The stored content has
    between 1 and 1000 code units, and so at most 1000 characters. *)
Theorem POST_comments_stores_trimmed clerkUserId c b post_id content u p uuid now w :
  truthy clerkUserId = Some c →
  required_string (field b "post_id") = Some post_id →
  required_string (field b "content") = Some content →
  trim content ≠ "" →
  (js_length content ≤ 1000)%nat →
  has_NUL content = false →
  user_by_clerk_id c (db w) = QData u →
  post_by_id post_id (db w) = QData p →
  let out := run (POST_comments clerkUserId (Some b) uuid now) w in
  ∃ cu row,
    status out.1 = 201%Z ∧ body out.1 = BComment cu ∧ comment_of cu = row ∧
    comments (db out.2) = (comments (db w) ++ [row])%list ∧
    Comment.content row = trim content ∧
    trim (Comment.content row) = Comment.content row ∧
    (0 < js_length (Comment.content row) ≤ 1000)%nat ∧
    (LENGTH (Comment.content row) ≤ 1000)%nat ∧
    Comment.post_id row = post_id ∧ Comment.user_id row = User.id u.
Proof.
  intros Hc Hp_id Hcontent Htrim Hlen Hnul Hu Hp out.
  destruct (POST_comments_checked _ _ _ _ _ _ _ uuid now w Hc Hp_id Hcontent Htrim Hlen Hnul
              Hu Hp) as (Hst & (cu & Hbody & Hrow) & Hdb).
  fold out in Hst, Hbody, Hdb.
  exists cu, (Comment.mk uuid post_id (User.id u) (trim content) now now).
  pose proof (js_length_trim content) as Hle.
  pose proof (LENGTH_le_js_length (trim content)) as Hchars.
  assert (Hpos : js_length (trim content) ≠ 0%nat) by (by rewrite js_length_0).
  rewrite Hdb. cbn [Comment.content Comment.post_id Comment.user_id comments].
  repeat split; try assumption; try lia. apply trim_idempotent.
Qed.

Lemma POST_comments_stores_trimmed_witness :
  let w := mkWorld twelve_posts [] in
  let content := utf8 0x3000 +:+ " 안녕, hello " +:+ utf8 0xA0 +:+ utf8 0xFEFF in
  let b : gmap string JsValue :=
    {[ "post_id" := JsString "p03"; "content" := JsString content ]} in
  let out := run (POST_comments (Some "clerk_2") (Some b) "c1" 60) w in
  trim content = "안녕, hello" ∧
  ∃ cu row,
    status out.1 = 201%Z ∧ body out.1 = BComment cu ∧ comment_of cu = row ∧
    comments (db out.2) = (comments (db w) ++ [row])%list ∧
    Comment.content row = trim content ∧
    trim (Comment.content row) = Comment.content row ∧
    (0 < js_length (Comment.content row) ≤ 1000)%nat ∧
    (LENGTH (Comment.content row) ≤ 1000)%nat ∧
    Comment.post_id row = "p03" ∧ Comment.user_id row = "u2".
Proof.
  intros w content b out.
  assert (Hvalue : trim content = "안녕, hello") by (vm_compute; reflexivity).
  split; [exact Hvalue|].
  assert (Htrim : trim content ≠ "") by (rewrite Hvalue; discriminate).
  assert (Hlen : (js_length content ≤ 1000)%nat) by (vm_compute; lia).
  exact (POST_comments_stores_trimmed (Some "clerk_2") "clerk_2" b "p03" content bob
           (post_at ("p03", 3%Z)) "c1" 60 w eq_refl eq_refl eq_refl Htrim Hlen eq_refl
           eq_refl eq_refl).
Defined.

(** The length the route checks is the number of UTF-16 code units, not
    of bytes and not of characters: 1000 Hangul syllables, 3000 bytes,
    are stored; 1001 letters are refused; 501 emoji, 1002 code units in
    501 characters, are refused although the column would take them. *)
Example POST_comments_counts_code_units :
  let post content :=
    let b : gmap string JsValue :=
      {[ "post_id" := JsString "p03"; "content" := JsString content ]} in
    status (run (POST_comments (Some "clerk_2") (Some b) "c1" 60)
                (mkWorld twelve_posts [])).1 in
  String.length (repeat_string 1000 "가") = 3000%nat ∧
  post (repeat_string 1000 "가") = 201%Z ∧
  post (repeat_string 1001 "a") = 400%Z ∧
  LENGTH (repeat_string 501 "😀") = 501%nat ∧
  post (repeat_string 501 "😀") = 400%Z.
Proof. vm_compute. repeat split; reflexivity. Qed.

(** X9: a signed-in comment request whose content is blank once the
    white space of Unicode is trimmed, or has more than 1000 UTF-16
    code units, is answered 400 before any query is issued. *)
Theorem POST_comments_rejects_blank_or_long clerkUserId c b post_id content uuid now w :
  truthy clerkUserId = Some c →
  required_string (field b "post_id") = Some post_id →
  field b "content" = JsString content →
  trim content = "" ∨ (1000 < js_length content)%nat →
  let out := run (POST_comments clerkUserId (Some b) uuid now) w in
  status out.1 = 400%Z ∧ out.2 = w.
Proof.
  intros Hc Hp_id Hfield Hbad.
  unfold POST_comments, run, bind, request_json, ret, respond.
  rewrite Hc, Hp_id, Hfield. unfold required_string.
  destruct (bool_decide (content = "")); [split; reflexivity|].
  destruct Hbad as [Hblank|Hlong].
  - rewrite Hblank. split; reflexivity.
  - destruct (bool_decide (js_length (trim content) = 0%nat)); [split; reflexivity|].
    replace (1000 <? js_length content)%nat with true
      by (symmetry; apply Nat.ltb_lt; exact Hlong).
    split; reflexivity.
Qed.

Lemma POST_comments_rejects_blank_or_long_witness :
  let w := mkWorld twelve_posts [] in
  let blank := utf8 0xA0 +:+ " " +:+ utf8 0x3000 in
  let b : gmap string JsValue :=
    {[ "post_id" := JsString "p03"; "content" := JsString blank ]} in
  let out := run (POST_comments (Some "clerk_2") (Some b) "c1" 60) w in
  status out.1 = 400%Z ∧ out.2 = w.
Proof.
  intros w blank b out.
  apply (POST_comments_rejects_blank_or_long (Some "clerk_2") "clerk_2" b "p03" blank
           "c1" 60 w eq_refl eq_refl eq_refl).
  left. vm_compute. reflexivity.
Defined.

Lemma comment_by_id_data commentId d cm :
  comment_by_id commentId d = QData cm →
  In cm (comments d) ∧ Comment.id cm = commentId.
Proof.
  intros H%single_data.
  assert (Hin : In cm [cm]) by (left; reflexivity).
  rewrite <- H in Hin. apply filter_In in Hin as [Hin Hid].
  apply bool_decide_eq_true in Hid. auto.
Qed.

(** The outcomes of the route for a signed-in caller with a user row. *)
Lemma DELETE_comments_checked clerkUserId c commentId u w :
  truthy clerkUserId = Some c →
  commentId ≠ "" →
  user_by_clerk_id c (db w) = QData u →
  let out := run (DELETE_comments clerkUserId commentId) w in
  match comment_by_id commentId (db w) with
  | QData cm =>
    if bool_decide (Comment.user_id cm = User.id u) then
      status out.1 = 200%Z ∧ db out.2 = delete_comment_by_id commentId (db w)
    else status out.1 = 403%Z ∧ db out.2 = db w
  | QError _ _ => status out.1 = 404%Z ∧ db out.2 = db w
  end.
Proof.
  intros Hc Hid Hu.
  unfold DELETE_comments, run, bind, select, delete_from, ret, respond.
  rewrite Hc, bool_decide_eq_false_2 by exact Hid. cbn [db trace].
  rewrite Hu. cbn [db trace].
  destruct (comment_by_id commentId (db w)) as [cm|]; [|split; reflexivity].
  destruct (bool_decide (Comment.user_id cm = User.id u)); split; reflexivity.
Qed.

(** X10: only the author deletes a comment. When the comment with the
    given id was written by someone else the answer is 403, when no
    comment has the id it is 404, and in both cases the relations are
    unchanged. *)
Theorem DELETE_comments_only_author clerkUserId c commentId u w :
  truthy clerkUserId = Some c →
  commentId ≠ "" →
  user_by_clerk_id c (db w) = QData u →
  let out := run (DELETE_comments clerkUserId commentId) w in
  (∀ cm, comment_by_id commentId (db w) = QData cm →
         Comment.user_id cm ≠ User.id u →
         status out.1 = 403%Z ∧ db out.2 = db w) ∧
  (Forall (λ cm, Comment.id cm ≠ commentId) (comments (db w)) →
   status out.1 = 404%Z ∧ db out.2 = db w).
Proof.
  intros Hc Hid Hu out.
  pose proof (DELETE_comments_checked _ _ _ _ w Hc Hid Hu) as H.
  cbv zeta in H. fold out in H. split.
  - intros cm Hcm Hother. rewrite Hcm in H.
    rewrite bool_decide_eq_false_2 in H by exact Hother. exact H.
  - intros Hnone.
    assert (Hf : List.filter (λ c0, bool_decide (Comment.id c0 = commentId))
                             (comments (db w)) = []).
    { induction Hnone as [|cm cms Hcm _ IH]; [reflexivity|]. simpl.
      rewrite bool_decide_eq_false_2 by exact Hcm. exact IH. }
    unfold comment_by_id in H. rewrite Hf in H. exact H.
Qed.

Lemma DELETE_comments_only_author_witness :
  let w := mkWorld three_comments [] in
  let out := run (DELETE_comments (Some "clerk_1") "c2") w in
  comment_by_id "c2" (db w) = QData (Comment.mk "c2" "p01" "u2" "second" 20 20) ∧
  status out.1 = 403%Z ∧ db out.2 = db w.
Proof.
  intros w out. split; [reflexivity|].
  assert (Hid : "c2" ≠ "") by discriminate.
  apply (proj1 (DELETE_comments_only_author (Some "clerk_1") "clerk_1" "c2" ann w
                  eq_refl Hid eq_refl)
               (Comment.mk "c2" "p01" "u2" "second" 20 20) eq_refl).
  discriminate.
Defined.





(** A comment of nothing but a no-break space is no comment: the POST is
    answered 400 and stores nothing, and a DELETE of the id it would
    have got finds no comment. *)
Example blank_comment_then_delete :
  let w := mkWorld three_comments [] in
  let b : gmap string JsValue :=
    {[ "post_id" := JsString "p03"; "content" := JsString (utf8 0xA0) ]} in
  let posted := run (POST_comments (Some "clerk_1") (Some b) "c4" 60) w in
  let deleted := run (DELETE_comments (Some "clerk_1") "c4") posted.2 in
  status posted.1 = 400%Z ∧ status deleted.1 = 404%Z ∧ db deleted.2 = db w.
Proof. vm_compute. repeat split; reflexivity. Qed.

(** X13: the two DELETE routes answer 401, before any query, to a
    caller without an identity, [null] or the empty string. *)
Theorem deletes_need_identity clerkUserId id w :
  truthy clerkUserId = None →
  (status (run (DELETE_likes clerkUserId id) w).1 = 401%Z ∧
   (run (DELETE_likes clerkUserId id) w).2 = w) ∧
  (status (run (DELETE_comments clerkUserId id) w).1 = 401%Z ∧
   (run (DELETE_comments clerkUserId id) w).2 = w).
Proof.
  intros H. unfold DELETE_likes, DELETE_comments, run, respond. rewrite H.
  repeat split; reflexivity.
Qed.

Lemma deletes_need_identity_witness :
  let w := mkWorld three_comments [] in
  (status (run (DELETE_likes (Some "") "p01") w).1 = 401%Z ∧
   (run (DELETE_likes (Some "") "p01") w).2 = w) ∧
  (status (run (DELETE_comments (Some "") "c1") w).1 = 401%Z ∧
   (run (DELETE_comments (Some "") "c1") w).2 = w).
Proof.
  intros w.
  split; [exact (proj1 (deletes_need_identity (Some "") "p01" w eq_refl))
         |exact (proj2 (deletes_need_identity (Some "") "c1" w eq_refl))].
Defined.

(** ** GET /api/posts: the derived fields *)

(** [count_by] counts occurrences. *)
Lemma count_by_lookup post_ids post_id :
  default 0%Z (count_by post_ids !! post_id) =
  Z.of_nat (length (List.filter (λ x, bool_decide (x = post_id)) post_ids)).
Proof.
  unfold count_by.
  assert (Hgen : ∀ (m : gmap string Z),
             default 0%Z (foldl (λ m x, <[x := (default 0 (m !! x) + 1)%Z]> m) m post_ids
                          !! post_id) =
             (default 0 (m !! post_id) +
              Z.of_nat (length (List.filter (λ x, bool_decide (x = post_id)) post_ids)))%Z).
  { induction post_ids as [|x xs IH]; intros m; simpl; [lia|].
    rewrite IH. destruct (bool_decide_reflect (x = post_id)) as [->|Hne].
    - rewrite lookup_insert_eq. simpl. lia.
    - rewrite lookup_insert_ne by exact Hne. lia. }
  rewrite Hgen, lookup_empty. simpl. lia.
Qed.

Lemma count_in_selection {A} (f : A → string) (g : A → bool) id l :
  (∀ a, f a = id → g a = true) →
  length (List.filter (λ x, bool_decide (x = id)) (List.map f (List.filter g l))) =
  length (List.filter (λ a, bool_decide (f a = id)) l).
Proof.
  intros Hg. induction l as [|a l IH]; simpl; [reflexivity|].
  destruct (bool_decide_reflect (f a = id)) as [Heq|Hne].
  - rewrite (Hg a Heq). simpl. rewrite bool_decide_eq_true_2 by exact Heq.
    simpl. by rewrite IH.
  - destruct (g a); simpl; [rewrite bool_decide_eq_false_2 by exact Hne|]; exact IH.
Qed.

Lemma Forall2_with_elem {A B} (P : A → B → Prop) l k :
  Forall2 P l k → Forall2 (λ x y, x ∈ l ∧ P x y) l k.
Proof.
  induction 1 as [|x y l k Hxy _ IH]; constructor.
  - split; [by left|exact Hxy].
  - eapply Forall2_impl; [exact IH|]. intros a b [Ha Hab]. split; [by right|exact Hab].
Qed.

Section GetCounts.

Variable answered : Read → bool.
Variable order_posts : list Post.t → list Post.t.
Variable order_comments : list Comment.t → list Comment.t.

(** The arguments of each view of a page. *)
Lemma posts_response_views clerkUserId limit offset d ps total :
  body (posts_response answered order_posts order_comments clerkUserId limit offset d)
    = BPosts ps total →
  ∃ rows,
    let postIds := List.map (λ pu : Post.t * option User.t, Post.id pu.1) rows in
    let currentUserId := current_user_id answered clerkUserId d in
    let userLikes :=
      match truthy currentUserId with
      | Some currentUserId =>
        default [] (data_of answered UserLikesData (user_likes_in currentUserId postIds d))
      | None => []
      end in
    Forall2 (λ pu p,
               pu ∈ rows ∧
               post_view currentUserId userLikes
                 (count_rows (data_of answered LikesData (likes_in postIds d)))
                 (count_rows (data_of answered CommentsData (comments_in postIds d)))
                 (preview_map answered order_comments d ∅ postIds) pu = Some p) rows ps.
Proof.
  unfold posts_response.
  destruct (posts_page _ _ _ d) as [[|pu rows]|code msg]; [| |discriminate].
  - intros [= <- <-]. exists []. constructor.
  - match goal with |- context [mapM ?f ?l] => destruct (mapM f l) eqn:Hm end;
      [|discriminate].
    intros [= <- <-]. exists (pu :: rows). cbv zeta.
    apply Forall2_with_elem, mapM_Some_1, Hm.
Qed.

Lemma post_view_fields currentUserId userLikes likesCountMap commentsCountMap
    commentsPreviewMap pu p :
  post_view currentUserId userLikes likesCountMap commentsCountMap commentsPreviewMap pu
    = Some p →
  PostWithDetails.id p = Post.id pu.1 ∧
  PostWithDetails.likes_count p = default 0%Z (likesCountMap !! Post.id pu.1) ∧
  PostWithDetails.comments_count p = default 0%Z (commentsCountMap !! Post.id pu.1) ∧
  PostWithDetails.is_liked p =
    match truthy currentUserId with
    | Some _ => bool_decide (Post.id pu.1 ∈ userLikes)
    | None => false
    end.
Proof.
  unfold post_view. destruct pu as [post [u|]]; cbn [fst snd]; [|discriminate].
  destruct (mapM comment_view _) as [preview|]; [|discriminate].
  intros [= <-]. repeat split; reflexivity.
Qed.

Lemma user_likes_in_elem currentUserId postIds d post_id :
  post_id ∈ postIds →
  bool_decide (post_id ∈ user_likes_in currentUserId postIds d) =
  existsb (same_post_user post_id currentUserId) (likes d).
Proof.
  intros Hid. unfold user_likes_in.
  destruct (existsb (same_post_user post_id currentUserId) (likes d)) eqn:Hex.
  - apply bool_decide_eq_true. apply existsb_exists in Hex as (l & Hl & Hsame).
    apply andb_true_iff in Hsame as [Hp Hu]. apply bool_decide_eq_true in Hp, Hu.
    apply list_elem_of_In, in_map_iff. exists l. split; [exact Hp|].
    apply filter_In. split; [exact Hl|].
    apply andb_true_iff. split; apply bool_decide_eq_true; [exact Hu|by rewrite Hp].
  - apply bool_decide_eq_false. intros Hin%list_elem_of_In%in_map_iff.
    destruct Hin as (l & Hp & Hl%filter_In). destruct Hl as [Hl Hsel].
    apply andb_true_iff in Hsel as [Hu _]. apply bool_decide_eq_true in Hu.
    assert (Htrue : existsb (same_post_user post_id currentUserId) (likes d) = true).
    { apply existsb_exists. exists l. split; [exact Hl|].
      apply andb_true_iff. split; by apply bool_decide_eq_true. }
    congruence.
Qed.

(** The derived fields of every post of a page, in terms of the rows and
    of the reads that were answered. *)
Lemma posts_response_fields clerkUserId limit offset d ps total :
  body (posts_response answered order_posts order_comments clerkUserId limit offset d)
    = BPosts ps total →
  Forall (λ p,
            PostWithDetails.likes_count p =
              (if answered LikesData then
                 Z.of_nat (length (List.filter
                                     (λ l, bool_decide (Like.post_id l = PostWithDetails.id p))
                                     (likes d)))
               else 0%Z) ∧
            PostWithDetails.comments_count p =
              (if answered CommentsData then
                 Z.of_nat (length (List.filter
                                     (λ c, bool_decide (Comment.post_id c = PostWithDetails.id p))
                                     (comments d)))
               else 0%Z) ∧
            PostWithDetails.is_liked p =
              match truthy (current_user_id answered clerkUserId d) with
              | Some currentUserId =>
                answered UserLikesData &&
                existsb (same_post_user (PostWithDetails.id p) currentUserId) (likes d)
              | None => false
              end) ps.
Proof.
  intros (rows & Hviews)%posts_response_views. cbv zeta in Hviews.
  eapply Forall2_Forall_r; [exact Hviews|].
  apply Forall_forall. intros pu _ p [Hpu Hview].
  apply post_view_fields in Hview as (Hid & Hlikes & Hcomments & Hliked).
  assert (Hin : Post.id pu.1 ∈ List.map (λ pu : Post.t * option User.t, Post.id pu.1) rows)
    by (apply list_elem_of_In, (in_map (λ pu : Post.t * option User.t, Post.id pu.1)),
          list_elem_of_In, Hpu).
  rewrite Hid. unfold data_of in *. split; [|split].
  - rewrite Hlikes. destruct (answered LikesData); cbn [count_rows]; [|by rewrite lookup_empty]. rewrite count_by_lookup. f_equal. unfold likes_in.
    apply count_in_selection. intros l Heq. apply bool_decide_eq_true.
    by rewrite Heq.
  - rewrite Hcomments. destruct (answered CommentsData); cbn [count_rows]; [|by rewrite lookup_empty]. rewrite count_by_lookup. f_equal. unfold comments_in.
    apply count_in_selection. intros c Heq. apply bool_decide_eq_true.
    by rewrite Heq.
  - rewrite Hliked. destruct (truthy (current_user_id answered clerkUserId d)); [|reflexivity].
    destruct (answered UserLikesData); cbn [default from_option andb].
    + by apply user_likes_in_elem.
    + apply bool_decide_eq_false. apply not_elem_of_nil.
Qed.

(** X14: in every page the route serves, [likes_count] of a post is the
    number of like rows that reference it, as stored at the time of the
    request, when the read of the likes was answered, and 0 when it was
    not: the route logs the error and serves the page. The same holds of
    [comments_count] and the read of the comments. *)
Theorem page_counts_are_row_counts clerkUserId limit offset w ps total :
  body (run (GET_posts answered order_posts order_comments clerkUserId limit offset) w).1
    = BPosts ps total →
  Forall (λ p,
            PostWithDetails.likes_count p =
              (if answered LikesData then
                 Z.of_nat (length (List.filter
                                     (λ l, bool_decide (Like.post_id l = PostWithDetails.id p))
                                     (likes (db w))))
               else 0%Z) ∧
            PostWithDetails.comments_count p =
              (if answered CommentsData then
                 Z.of_nat (length (List.filter
                                     (λ c, bool_decide (Comment.post_id c = PostWithDetails.id p))
                                     (comments (db w))))
               else 0%Z)) ps.
Proof.
  rewrite (proj1 (GET_posts_run _ _ _ _ _ _ _)).
  intros H%posts_response_fields. eapply Forall_impl; [exact H|].
  intros p (Hl & Hc & _). auto.
Qed.

(** X15: for a signed-in viewer with a user row, [is_liked] of a post
    of a page is true exactly when the read of the viewer's user row
    and the read of the viewer's likes were both answered and the likes
    relation holds a row of that viewer for that post. When one of the
    two reads is not answered, no post of the page is shown as liked,
    whatever the relation holds. *)
Theorem is_liked_iff_viewer_row clerkUserId c u limit offset w ps total :
  truthy clerkUserId = Some c →
  user_by_clerk_id c (db w) = QData u →
  User.id u ≠ "" →
  body (run (GET_posts answered order_posts order_comments clerkUserId limit offset) w).1
    = BPosts ps total →
  Forall (λ p, PostWithDetails.is_liked p = true ↔
               answered UserData = true ∧ answered UserLikesData = true ∧
               likes_of (PostWithDetails.id p) (User.id u) (likes (db w)) ≠ []) ps.
Proof.
  intros Hc Hu Hid. rewrite (proj1 (GET_posts_run _ _ _ _ _ _ _)).
  intros H%posts_response_fields. eapply Forall_impl; [exact H|].
  intros p (_ & _ & Hliked). rewrite Hliked.
  unfold current_user_id, data_of. rewrite Hc, Hu.
  destruct (answered UserData); cbn [truthy];
    [|split; [discriminate|intros [? _]; discriminate]].
  rewrite bool_decide_eq_false_2 by exact Hid.
  rewrite <- existsb_likes_of.
  destruct (answered UserLikesData), (existsb _ _); cbn [andb]; split;
    try congruence; try (intros (? & ? & ?); congruence); auto.
Qed.

(** X16: when the read of the likes is answered, or the read of the
    viewer's likes is not, every post of the page opens a card whose
    like state agrees with itself: [likes_count] is not negative and is
    at least 1 when [is_liked] is set. *)
Theorem served_posts_open_consistent_cards clerkUserId limit offset w ps total :
  (answered UserLikesData = true → answered LikesData = true) →
  body (run (GET_posts answered order_posts order_comments clerkUserId limit offset) w).1
    = BPosts ps total →
  Forall (λ p, card_consistent (Card.open p)) ps.
Proof.
  intros Hreads. rewrite (proj1 (GET_posts_run _ _ _ _ _ _ _)).
  intros H%posts_response_fields. eapply Forall_impl; [exact H|].
  intros p (Hl & _ & Hliked). split; [|reflexivity].
  unfold likes_consistent. cbn [Card.open Card.state Card.initial Card.isLiked Card.likesCount].
  destruct (PostWithDetails.is_liked p);
    [|destruct (answered LikesData); lia].
  destruct (truthy (current_user_id answered clerkUserId (db w))) as [cu|]; [|discriminate].
  symmetry in Hliked. apply andb_true_iff in Hliked as [Hviewer Hliked].
  rewrite (Hreads Hviewer) in Hl.
  apply existsb_exists in Hliked as (l & Hin & Hsame).
  apply andb_true_iff in Hsame as [Hp _].
  rewrite Hl.
  assert (Hmem : In l (List.filter
                         (λ l, bool_decide (Like.post_id l = PostWithDetails.id p))
                         (likes (db w)))) by (apply filter_In; auto).
  destruct (List.filter _ (likes (db w))); [destruct Hmem|simpl; lia].
Qed.

End GetCounts.

Lemma page_counts_are_row_counts_witness :
  let w := mkWorld three_comments [] in
  let answered := every_read_but CommentsData in
  let ps := getPage answered (sort_desc Post.created_at) (sort_desc Comment.created_at)
                    (Some "clerk_2") 11 1 w in
  List.map PostWithDetails.id ps = ["p01"] ∧
  List.map PostWithDetails.comments_count ps = [0%Z] ∧
  List.map (λ p, length (PostWithDetails.comments_preview p)) ps = [2%nat] ∧
  Forall (λ p,
            PostWithDetails.likes_count p =
              (if answered LikesData then
                 Z.of_nat (length (List.filter
                                     (λ l, bool_decide (Like.post_id l = PostWithDetails.id p))
                                     (likes (db w))))
               else 0%Z) ∧
            PostWithDetails.comments_count p =
              (if answered CommentsData then
                 Z.of_nat (length (List.filter
                                     (λ c, bool_decide (Comment.post_id c = PostWithDetails.id p))
                                     (comments (db w))))
               else 0%Z)) ps.
Proof.
  intros w answered ps.
  split; [vm_compute; reflexivity|]. split; [vm_compute; reflexivity|].
  split; [vm_compute; reflexivity|].
  assert (Hbody : body (run (GET_posts answered (sort_desc Post.created_at)
                               (sort_desc Comment.created_at)
                               (Some "clerk_2") (Some 1%Z) (Some 11%Z)) w).1
                  = BPosts ps 1)
    by (vm_compute; reflexivity).
  exact (page_counts_are_row_counts answered (sort_desc Post.created_at)
           (sort_desc Comment.created_at) (Some "clerk_2") (Some 1%Z) (Some 11%Z) w _ _ Hbody).
Defined.

Lemma is_liked_iff_viewer_row_witness :
  let w := mkWorld bob_likes_p03 [] in
  body (run (GET_posts every_read (sort_desc Post.created_at) (sort_desc Comment.created_at)
               (Some "clerk_2") (Some 2%Z) (Some 8%Z)) w).1
    = BPosts [PostWithDetails.mk "p04" "u1" "https://img" None 4 4 ann 0 0 false [];
              PostWithDetails.mk "p03" "u1" "https://img" None 3 3 ann 1 0 true []] 2 ∧
  Forall (λ p, PostWithDetails.is_liked p = true ↔
               every_read UserData = true ∧ every_read UserLikesData = true ∧
               likes_of (PostWithDetails.id p) "u2" (likes (db w)) ≠ [])
    [PostWithDetails.mk "p04" "u1" "https://img" None 4 4 ann 0 0 false [];
     PostWithDetails.mk "p03" "u1" "https://img" None 3 3 ann 1 0 true []].
Proof.
  intros w.
  assert (Hbody : body (run (GET_posts every_read (sort_desc Post.created_at)
                               (sort_desc Comment.created_at)
                               (Some "clerk_2") (Some 2%Z) (Some 8%Z)) w).1
                  = BPosts [PostWithDetails.mk "p04" "u1" "https://img" None 4 4 ann 0 0 false [];
                            PostWithDetails.mk "p03" "u1" "https://img" None 3 3 ann 1 0 true []] 2)
    by (vm_compute; reflexivity).
  split; [exact Hbody|].
  assert (Hid : User.id bob ≠ "") by discriminate.
  exact (is_liked_iff_viewer_row every_read (sort_desc Post.created_at)
           (sort_desc Comment.created_at)
           (Some "clerk_2") "clerk_2" bob (Some 2%Z) (Some 8%Z) w _ _
           eq_refl eq_refl Hid Hbody).
Defined.

(** The same page when the read of bob's likes is not answered: p03,
    which bob has liked and which counts one like, is shown as not
    liked. *)
Example unanswered_viewer_likes_hide_like :
  let ps := getPage (every_read_but UserLikesData) (sort_desc Post.created_at)
                    (sort_desc Comment.created_at) (Some "clerk_2") 8 2
                    (mkWorld bob_likes_p03 []) in
  List.map (λ p, (PostWithDetails.id p, PostWithDetails.likes_count p,
                  PostWithDetails.is_liked p)) ps
  = [("p04", 0%Z, false); ("p03", 1%Z, false)].
Proof. vm_compute. reflexivity. Qed.

Lemma served_posts_open_consistent_cards_witness :
  let w := mkWorld bob_likes_p03 [] in
  let answered := every_read_but UserLikesData in
  let ps := getPage answered (sort_desc Post.created_at) (sort_desc Comment.created_at)
                    (Some "clerk_2") 8 2 w in
  List.map PostWithDetails.id ps = ["p04"; "p03"] ∧
  Forall (λ p, card_consistent (Card.open p)) ps.
Proof.
  intros w answered ps. split; [vm_compute; reflexivity|].
  assert (Hreads : answered UserLikesData = true → answered LikesData = true)
    by (intros _; reflexivity).
  assert (Hbody : body (run (GET_posts answered (sort_desc Post.created_at)
                               (sort_desc Comment.created_at)
                               (Some "clerk_2") (Some 2%Z) (Some 8%Z)) w).1
                  = BPosts ps 2)
    by (vm_compute; reflexivity).
  exact (served_posts_open_consistent_cards answered (sort_desc Post.created_at)
           (sort_desc Comment.created_at) (Some "clerk_2") (Some 2%Z) (Some 8%Z) w _ _
           Hreads Hbody).
Defined.

(** Without the condition of X16 the card can disagree with itself: the
    read of the likes is not answered, the read of bob's likes is, and
    p03 is served as liked by bob with no like at all. *)
Example unanswered_count_opens_inconsistent_card :
  let ps := getPage (every_read_but LikesData) (sort_desc Post.created_at)
                    (sort_desc Comment.created_at) (Some "clerk_2") 8 2
                    (mkWorld bob_likes_p03 []) in
  List.map (λ p, (PostWithDetails.id p, PostWithDetails.likes_count p,
                  PostWithDetails.is_liked p)) ps
  = [("p04", 0%Z, false); ("p03", 0%Z, true)] ∧
  ¬ Forall (λ p, card_consistent (Card.open p)) ps.
Proof.
  intros ps.
  assert (Hps : ps = [PostWithDetails.mk "p04" "u1" "https://img" None 4 4 ann 0 0 false [];
                      PostWithDetails.mk "p03" "u1" "https://img" None 3 3 ann 0 0 true []])
    by (vm_compute; reflexivity).
  rewrite Hps. split; [reflexivity|].
  intros H. apply Forall_cons in H as [_ H]. apply Forall_cons in H as [[H _] _].
  unfold likes_consistent in H. simpl in H. lia.
Qed.

(** ** GET /api/posts: what it asks of the storage *)

Section GetTrace.

Variable answered : Read → bool.
Variable order_posts : list Post.t → list Post.t.
Variable order_comments : list Comment.t → list Comment.t.

(** The queries of one request, in order. *)
Lemma GET_posts_trace clerkUserId limit offset w :
  trace (run (GET_posts answered order_posts order_comments clerkUserId limit offset) w).2 =
  (trace w
   ++ match truthy clerkUserId with Some _ => [OpSelect "users"] | None => [] end
   ++ [OpSelect "posts"]
   ++ match posts_page order_posts (default 10%Z limit) (default 0%Z offset) (db w) with
      | QData ((_ :: _) as rows) =>
        [OpSelect "likes"; OpSelect "comments"]
        ++ match truthy (current_user_id answered clerkUserId (db w)) with
           | Some _ => [OpSelect "likes"]
           | None => []
           end
        ++ List.map (λ _, OpSelect "comments") rows
      | _ => []
      end)%list.
Proof.
  unfold GET_posts, current_user_id, run, bind, ret, respond.
  destruct (truthy clerkUserId) as [c|]; rewrite ?read_run; unfold select; cbn [db trace];
    destruct (posts_page _ _ _ (db w)) as [[|pu ps]|code msg];
    try (cbn [trace]; rewrite <- ?app_assoc; reflexivity).
  - set (posts := pu :: ps).
    destruct (truthy (match data_of answered UserData (user_by_clerk_id c (db w)) with
                      | Some (QData u) => Some (User.id u) | _ => None end));
      rewrite ?read_run; cbn [db trace]; rewrite preview_loop_run; cbn [db trace];
      match goal with |- context [mapM ?f ?l] => destruct (mapM f l) end;
      cbn [snd trace]; rewrite List.map_map, <- ?app_assoc; reflexivity.
  - set (posts := pu :: ps). cbn [db trace truthy].
    rewrite ?read_run; cbn [db trace]. rewrite preview_loop_run; cbn [db trace].
    match goal with |- context [mapM ?f ?l] => destruct (mapM f l) end;
      cbn [snd trace]; rewrite List.map_map, <- ?app_assoc; reflexivity.
Qed.

(** X17: GET /api/posts only reads. The relations are unchanged, every
    storage operation of the request is a select, and the answer is 200
    or 500. *)
Theorem GET_posts_only_reads clerkUserId limit offset w :
  let out := run (GET_posts answered order_posts order_comments clerkUserId limit offset) w in
  db out.2 = db w ∧
  (∃ ops, trace out.2 = (trace w ++ ops)%list ∧ Forall (λ o, ∃ t, o = OpSelect t) ops) ∧
  (status out.1 = 200%Z ∨ status out.1 = 500%Z).
Proof.
  intros out. split; [apply GET_posts_run|]. split.
  - eexists. split; [apply GET_posts_trace|].
    repeat (apply Forall_app; split).
    + destruct (truthy clerkUserId); repeat constructor; eauto.
    + repeat constructor; eauto.
    + destruct (posts_page _ _ _ (db w)) as [[|pu ps]|]; [constructor| |constructor].
      repeat (apply Forall_app; split).
      * repeat constructor; eauto.
      * destruct (truthy _); repeat constructor; eauto.
      * apply Forall_forall. intros o Ho%list_elem_of_In%in_map_iff.
        destruct Ho as (? & <- & _). eauto.
  - subst out. rewrite (proj1 (GET_posts_run _ _ _ _ _ _ _)). unfold posts_response.
    destruct (posts_page _ _ _ (db w)) as [[|pu ps]|]; [left; reflexivity| |right; reflexivity].
    match goal with |- context [mapM ?f ?l] => destruct (mapM f l) end;
      [left|right]; reflexivity.
Qed.

(** X18: one preview query per post. A request that is answered with a
    page of n > 0 posts has issued n + 3 queries, plus one if the caller
    is signed in and one more if the caller has a user row and the read
    of it was answered: the count grows with the page. A query counts
    whether or not it is answered. *)
Theorem GET_posts_query_count clerkUserId limit offset w ps total :
  let out := run (GET_posts answered order_posts order_comments clerkUserId limit offset) w in
  body out.1 = BPosts ps total →
  ps ≠ [] →
  length (trace out.2) =
    (length (trace w) + length ps + 3
     + match truthy clerkUserId with Some _ => 1 | None => 0 end
     + match truthy (current_user_id answered clerkUserId (db w)) with Some _ => 1 | None => 0 end)%nat.
Proof.
  intros out Hbody Hne. subst out. rewrite GET_posts_trace.
  rewrite (proj1 (GET_posts_run _ _ _ _ _ _ _)) in Hbody.
  apply posts_response_rows in Hbody as (rows & ? & ? & ? & Hpage & _ & Hviews).
  rewrite Hpage. apply Forall2_length in Hviews.
  destruct rows as [|pu rows]; [destruct ps; [contradiction|discriminate]|].
  rewrite !length_app, length_map, Hviews.
  destruct (truthy clerkUserId), (truthy (current_user_id answered clerkUserId (db w)));
    simpl; lia.
Qed.

End GetTrace.

Lemma GET_posts_query_count_witness :
  let w := mkWorld bob_likes_p03 [] in
  let out := run (GET_posts every_read (sort_desc Post.created_at) (sort_desc Comment.created_at)
                    (Some "clerk_2") (Some 10%Z) (Some 0%Z)) w in
  length (Feed.data_posts (body out.1)) = 10%nat ∧
  length (trace out.2) = 15%nat.
Proof.
  intros w out. split; [vm_compute; reflexivity|].
  assert (Hbody : body out.1 = BPosts (Feed.data_posts (body out.1)) 10)
    by (vm_compute; reflexivity).
  assert (Hne : Feed.data_posts (body out.1) ≠ []) by (vm_compute; discriminate).
  etransitivity;
    [exact (GET_posts_query_count every_read (sort_desc Post.created_at)
              (sort_desc Comment.created_at)
              (Some "clerk_2") (Some 10%Z) (Some 0%Z) w _ _ Hbody Hne)|].
  vm_compute. reflexivity.
Defined.

(** X19: a valid range that starts at or after the end of the posts is
    not an error: the answer is 200 with no posts and [total] 0. The
    feed without any post is the case of offset 0. *)
Theorem GET_posts_past_the_end answered order_posts order_comments clerkUserId limit offset w :
  order_by_desc Post.created_at order_posts →
  (0 < limit)%Z →
  (Z.of_nat (length (posts (db w))) ≤ offset)%Z →
  (run (GET_posts answered order_posts order_comments clerkUserId (Some limit) (Some offset)) w).1
    = NextResponse_json (BPosts [] 0) None.
Proof.
  intros Hord Hlim Hoff. rewrite (proj1 (GET_posts_run _ _ _ _ _ _ _)).
  unfold posts_response, posts_page, range.
  change (default 10%Z (Some limit)) with limit.
  change (default 0%Z (Some offset)) with offset.
  replace ((offset <? 0)%Z || (offset + limit - 1 <? offset)%Z) with false
    by (symmetry; apply orb_false_iff; split; apply Z.ltb_ge; lia).
  rewrite drop_ge; [by rewrite take_nil|].
  rewrite length_map, (proj1 (Hord _)). lia.
Qed.

Lemma GET_posts_past_the_end_witness :
  (run (GET_posts every_read (sort_desc Post.created_at) (sort_desc Comment.created_at)
          None (Some 10%Z) (Some 12%Z)) (mkWorld twelve_posts [])).1
    = NextResponse_json (BPosts [] 0) None.
Proof.
  apply GET_posts_past_the_end; [apply sort_desc_order_by|lia|vm_compute; discriminate].
Defined.

(** ** The post card in use *)

Section CardSessions.
Import Card.

Lemma settle_button_cases snapshot f s :
  handleLikeClick_settle snapshot f s = setIsLoading false s ∨
  handleLikeClick_settle snapshot f s = setIsLoading false (rollback snapshot s).
Proof.
  unfold handleLikeClick_settle. destruct f as [|st js]; [right; reflexivity|].
  destruct (ok st); [left; reflexivity|]. destruct js; [|right; reflexivity].
  destruct (negb (previousIsLiked snapshot) && (st =? 409)%Z); [left|right]; reflexivity.
Qed.

Lemma settle_double_tap_cases snapshot f s :
  handleImageClick_settle snapshot f s = setIsLoading false s ∨
  handleImageClick_settle snapshot f s = setIsLoading false (rollback snapshot s).
Proof.
  unfold handleImageClick_settle. destruct f as [|st js]; [right; reflexivity|].
  destruct (ok st); [left; reflexivity|]. destruct js; [|right; reflexivity].
  destruct (st =? 409)%Z; [left|right]; reflexivity.
Qed.

(** Every event keeps a consistent session consistent. *)
Lemma step_consistent post_id x e : card_consistent x → card_consistent (step post_id x e).
Proof.
  destruct x as [s p snt]. unfold card_consistent, likes_consistent.
  cbn [state pending]. intros [Hlikes Hpending].
  destruct e as [|t|f| | |cm|id]; cbn [step state pending sent].
  - unfold handleLikeClick_start. destruct (isLoading s) eqn:Hload;
      cbn [started state pending].
    + rewrite Hload. auto.
    + cbn. destruct (isLiked s); simpl in *; repeat split; lia.
  - unfold handleImageClick. destruct (isLiked s) eqn:Hliked; cbn [orb].
    + cbn [started state pending]. rewrite Hliked. auto.
    + destruct (isLoading s) eqn:Hload.
      * cbn [started state pending]. rewrite Hliked, Hload. auto.
      * destruct ((t - lastTapTime s <? 300)%Z && (0 <? t - lastTapTime s)%Z);
          cbn [started state pending]; cbn; rewrite ?Hliked.
        -- repeat split; lia.
        -- split; [lia|]. destruct p as [[o sn]|]; [|exact Hload].
           destruct Hpending as [Hsn Hp]. split; [exact Hsn|congruence].
  - destruct p as [[[] snapshot]|]; cbn [state pending]; [| |auto].
    + destruct Hpending as [Hsnap _].
      destruct (settle_button_cases snapshot f s) as [-> | ->]; cbn; auto.
    + destruct Hpending as [Hsnap _].
      destruct (settle_double_tap_cases snapshot f s) as [-> | ->]; cbn; auto.
  - cbn. auto.
  - cbn. auto.
  - cbn. auto.
  - cbn. auto.
Qed.

Lemma run_events_consistent post_id es : ∀ x,
  card_consistent x → card_consistent (run_events post_id x es).
Proof.
  induction es as [|e es IH]; intros x Hx; [exact Hx|].
  apply (IH (step post_id x e)), step_consistent, Hx.
Qed.

(** X20: the like count of a card never becomes negative. From a
    session whose like state agrees with itself (a liked post counts at
    least one like), every sequence of clicks, taps, responses, timers
    and comment callbacks leads to a session that is again consistent:
    [likesCount] is at least 0, and at least 1 while [isLiked] is set. *)
Theorem likesCount_never_negative post_id x es :
  card_consistent x →
  let x' := run_events post_id x es in
  card_consistent x' ∧
  (0 ≤ likesCount (state x'))%Z ∧
  (isLiked (state x') = true → 1 ≤ likesCount (state x'))%Z.
Proof.
  intros Hx x'. pose proof (run_events_consistent post_id es x Hx) as H.
  fold x' in H. split; [exact H|]. destruct H as [H _]. unfold likes_consistent in H.
  destruct (isLiked (state x')); split; try lia; intros; (lia || discriminate).
Qed.

Lemma likesCount_never_negative_witness :
  let x := open (PostWithDetails.mk "p1" "u1" "img" None 5 5 ann 0 0 false []) in
  let x' := run_events "p1" x
              [LikeClick; Settled (Resolved 200 None); LikeClick; Settled Rejected;
               LikeClick; Settled (Resolved 200 None); LikeClick] in
  card_consistent x ∧ likesCount (state x') = 1%Z ∧ (0 ≤ likesCount (state x'))%Z.
Proof.
  intros x x'.
  assert (Hx : card_consistent x) by (split; [unfold likes_consistent; simpl; lia|reflexivity]).
  split; [exact Hx|]. split; [reflexivity|].
  exact (proj1 (proj2 (likesCount_never_negative "p1" x _ Hx))).
Defined.

Lemma step_budget post_id x e :
  card_consistent x →
  (length (sent (step post_id x e)) + match pending (step post_id x e) with
                                       | None => 1 | Some _ => 0 end
   ≤ length (sent x) + match pending x with None => 1 | Some _ => 0 end
     + settlements [e])%nat.
Proof.
  destruct x as [s p snt]. unfold card_consistent. cbn [state pending sent].
  intros [_ Hpending].
  destruct e as [|t|f| | |cm|id]; cbn [step state pending sent settlements List.filter length];
    try lia.
  - unfold handleLikeClick_start. destruct (isLoading s) eqn:Hload; cbn [started pending sent].
    + lia.
    + destruct p as [[o sn]|]; [destruct Hpending; congruence|].
      rewrite length_app. simpl. lia.
  - unfold handleImageClick. destruct (isLiked s || isLoading s) eqn:Hbusy;
      cbn [started pending sent]; [lia|].
    apply orb_false_iff in Hbusy as [_ Hload].
    destruct ((t - lastTapTime s <? 300)%Z && (0 <? t - lastTapTime s)%Z);
      cbn [started pending sent]; [|lia].
    destruct p as [[o sn]|]; [destruct Hpending; congruence|].
    rewrite length_app. simpl. lia.
  - destruct p as [[[] snapshot]|]; cbn [pending sent]; lia.
Qed.

Lemma settlements_cons e es :
  settlements (e :: es) = (settlements [e] + settlements es)%nat.
Proof. unfold settlements. simpl. destruct e; simpl; lia. Qed.

(** X21: a card has at most one like request in flight. From a
    consistent session, the number of requests sent along any sequence
    of events is at most the number of responses that arrived, plus one
    if no request was in flight at the start. *)
Theorem one_request_at_a_time post_id x es :
  card_consistent x →
  (length (sent (run_events post_id x es))
   ≤ length (sent x) + settlements es
     + match pending x with None => 1 | Some _ => 0 end)%nat.
Proof.
  revert x. 
  assert (H : ∀ es x, card_consistent x →
            (length (sent (run_events post_id x es))
             + match pending (run_events post_id x es) with None => 1 | Some _ => 0 end
             ≤ length (sent x) + match pending x with None => 1 | Some _ => 0 end
               + settlements es)%nat).
  { clear es. induction es as [|e es IH]; intros x Hx; [simpl; lia|].
    specialize (IH (step post_id x e) (step_consistent post_id x e Hx)).
    pose proof (step_budget post_id x e Hx). rewrite settlements_cons.
    change (run_events post_id x (e :: es))
      with (run_events post_id (step post_id x e) es). lia. }
  intros x Hx. specialize (H es x Hx). lia.
Qed.

Lemma one_request_at_a_time_witness :
  let x := open (PostWithDetails.mk "p1" "u1" "img" None 5 5 ann 0 0 false []) in
  let es := [LikeClick; LikeClick; Tap 1700000000000; Tap 1700000000100; LikeClick;
             Settled (Resolved 200 None); LikeClick; LikeClick] in
  card_consistent x ∧
  sent (run_events "p1" x es) = [PostLike "p1"; DeleteLike "p1"] ∧
  (length (sent (run_events "p1" x es)) ≤ 0 + 1 + 1)%nat.
Proof.
  intros x es.
  assert (Hx : card_consistent x) by (split; [unfold likes_consistent; simpl; lia|reflexivity]).
  split; [exact Hx|]. split; [reflexivity|].
  exact (one_request_at_a_time "p1" x es Hx).
Defined.

(** A click on the like button of a card that is not loading. *)
Lemma click_when_idle post_id x :
  isLoading (state x) = false →
  step post_id x LikeClick =
  mkSession
    (setIsLoading true
       (setIsAnimating true
          (setLikesCount (λ prev, if isLiked (state x) then prev - 1 else prev + 1)%Z
             (setIsLiked (negb (isLiked (state x))) (state x)))))
    (Some (FromButton, mkSnapshot (isLiked (state x)) (likesCount (state x))))
    (sent x ++ [if isLiked (state x) then DeleteLike post_id else PostLike post_id]).
Proof.
  intros Hload. destruct x as [s p snt]. cbn [state sent] in *.
  cbn [step state]. unfold handleLikeClick_start. rewrite Hload. reflexivity.
Qed.

(** A success response to the request of the button. *)
Lemma settle_success post_id x snapshot st js :
  pending x = Some (FromButton, snapshot) →
  ok st = true →
  step post_id x (Settled (Resolved st js)) =
  mkSession (setIsLoading false (state x)) None (sent x).
Proof.
  intros Hp Hok. destruct x as [s p snt]. cbn [pending state sent] in *. subst p.
  cbn [step pending state sent]. unfold handleLikeClick_settle. rewrite Hok. reflexivity.
Qed.

(** X22: like, then unlike, on the card. From a card without a request
    in flight, two clicks on the like button, each answered with
    success, send the add and the remove (or the remove and the add) and
    leave [isLiked] and [likesCount] as they were. *)
Theorem toggle_twice_restores post_id x st1 js1 st2 js2 :
  isLoading (state x) = false →
  ok st1 = true → ok st2 = true →
  let x' := run_events post_id x
              [LikeClick; Settled (Resolved st1 js1);
               LikeClick; Settled (Resolved st2 js2)] in
  isLiked (state x') = isLiked (state x) ∧
  likesCount (state x') = likesCount (state x) ∧
  isLoading (state x') = false ∧
  sent x' = (sent x ++ if isLiked (state x)
                       then [DeleteLike post_id; PostLike post_id]
                       else [PostLike post_id; DeleteLike post_id])%list.
Proof.
  intros Hload Hok1 Hok2. cbn [run_events foldl].
  pose proof (click_when_idle post_id x Hload) as E1.
  set (x1 := step post_id x LikeClick) in *.
  assert (E2 : step post_id x1 (Settled (Resolved st1 js1))
               = mkSession (setIsLoading false (state x1)) None (sent x1))
    by (eapply settle_success; [rewrite E1; reflexivity|exact Hok1]).
  rewrite E2. set (x2 := mkSession (setIsLoading false (state x1)) None (sent x1)).
  rewrite (click_when_idle post_id x2 eq_refl).
  erewrite settle_success; [|reflexivity|exact Hok2].
  subst x2. rewrite E1. cbn.
  rewrite <- app_assoc. destruct (isLiked (state x)); cbn; repeat split; try reflexivity; lia.
Qed.

Lemma toggle_twice_restores_witness :
  let x := open (PostWithDetails.mk "p1" "u1" "img" None 5 5 ann 7 0 true []) in
  let x' := run_events "p1" x
              [LikeClick; Settled (Resolved 200 None);
               LikeClick; Settled (Resolved 200 None)] in
  isLiked (state x') = true ∧ likesCount (state x') = 7%Z ∧
  isLoading (state x') = false ∧
  sent x' = [DeleteLike "p1"; PostLike "p1"].
Proof.
  intros x x'.
  exact (toggle_twice_restores "p1" x 200 None 200 None eq_refl eq_refl eq_refl).
Defined.

(** X23: the 409 of a like that already exists keeps the optimistic
    state only when the body of the response parses. From a card that is
    not liked and not loading, a like answered 409 with a readable body
    ends liked with the count raised by one; answered 409 with a body
    that does not parse it is rolled back like any other failure. In
    both cases the card stops loading. *)
Theorem conflict_keeps_like_if_body_parses post_id s b :
  isLiked s = false → isLoading s = false →
  ∃ s1 snapshot,
    handleLikeClick_start post_id s = (s1, Some (PostLike post_id, snapshot)) ∧
    (let kept := handleLikeClick_settle snapshot (Resolved 409 (Some b)) s1 in
     isLiked kept = true ∧ likesCount kept = (likesCount s + 1)%Z ∧
     isLoading kept = false) ∧
    (let undone := handleLikeClick_settle snapshot (Resolved 409 None) s1 in
     isLiked undone = false ∧ likesCount undone = likesCount s ∧
     isLoading undone = false).
Proof.
  intros Hliked Hload. unfold handleLikeClick_start. rewrite Hload, Hliked.
  do 2 eexists. split; [reflexivity|]. split; cbn; repeat split; reflexivity.
Qed.

Lemma conflict_keeps_like_if_body_parses_witness :
  let s := mkState false false 3 false false false 0 0 [] in
  ∃ s1 snapshot,
    handleLikeClick_start "p1" s = (s1, Some (PostLike "p1", snapshot)) ∧
    (let kept := handleLikeClick_settle snapshot
                   (Resolved 409 (Some (BAlreadyLiked "Already liked" ""))) s1 in
     isLiked kept = true ∧ likesCount kept = (likesCount s + 1)%Z ∧
     isLoading kept = false) ∧
    (let undone := handleLikeClick_settle snapshot (Resolved 409 None) s1 in
     isLiked undone = false ∧ likesCount undone = likesCount s ∧
     isLoading undone = false).
Proof.
  intros s.
  exact (conflict_keeps_like_if_body_parses "p1" s (BAlreadyLiked "Already liked" "")
           eq_refl eq_refl).
Defined.

End CardSessions.

(** ** The pager in use *)

Section PagerSessions.
Import Pager.

Lemma on_intersect_Some isIntersecting s offset :
  Feed.on_intersect isIntersecting s = Some offset →
  offset = Feed.offset s ∧ Feed.hasMore s = true ∧
  Feed.loading s = false ∧ Feed.isLoadingMore s = false ∧ Feed.hasLoaded s = true.
Proof.
  unfold Feed.on_intersect.
  destruct isIntersecting, (Feed.hasMore s), (Feed.isLoadingMore s), (Feed.loading s),
    (Feed.hasLoaded s); simpl; intros [= <-]; auto.
Qed.

Lemma pager_step_consistent x e : consistent x → consistent (step x e).
Proof.
  destruct x as [s fl req]. unfold consistent. cbn [state inflight].
  intros [Hcursor Hflight]. destruct e as [b|f]; cbn [step state inflight].
  - destruct (Feed.on_intersect b s) as [offset|] eqn:Hobs; cbn [state inflight]; [|auto].
    apply on_intersect_Some in Hobs as (-> & _).
    cbn. rewrite orb_true_r. auto.
  - destruct fl as [[currentOffset append]|]; cbn [state inflight]; [|auto].
    destruct Hflight as [Hoff _]. unfold Feed.fetchPosts_settle.
    destruct f as [message|r]; [cbn; auto|].
    destruct (ok (status r)); [|cbn; auto].
    cbn. split; [|reflexivity].
    destruct append; subst currentOffset; rewrite ?length_app; lia.
Qed.

(** X24: the cursor of the pager counts the posts it holds. In every
    session that starts with the first load, whatever the responses and
    however the observer fires, [offset] equals the number of posts in
    the state, and a fetch is in flight exactly while [loading] or
    [isLoadingMore] is set. *)
Theorem pager_cursor_counts_posts es :
  let x := run_events mounted es in
  Feed.offset (state x) = Z.of_nat (length (Feed.posts (state x))) ∧
  (is_Some (inflight x) ↔ Feed.loading (state x) || Feed.isLoadingMore (state x) = true).
Proof.
  assert (H : ∀ es x, consistent x → consistent (run_events x es)).
  { clear es. induction es as [|e es IH]; intros x Hx; [exact Hx|].
    apply (IH (step x e)), pager_step_consistent, Hx. }
  intros x. specialize (H es mounted). fold x in H.
  destruct H as [Hcursor Hflight]; [split; [reflexivity|split; reflexivity]|].
  split; [exact Hcursor|].
  destruct (inflight x) as [[co ap]|].
  - destruct Hflight as [_ ->]. split; eauto.
  - rewrite Hflight. split; [intros [? [=]]|discriminate].
Qed.

Lemma pager_step_budget x e :
  consistent x →
  (length (requested (step x e)) + match inflight (step x e) with None => 1 | Some _ => 0 end
   ≤ length (requested x) + match inflight x with None => 1 | Some _ => 0 end
     + match e with Settled _ => 1 | Intersect _ => 0 end)%nat.
Proof.
  destruct x as [s fl req]. unfold consistent. cbn [state inflight requested].
  intros [_ Hflight]. destruct e as [b|f]; cbn [step state inflight requested].
  - destruct (Feed.on_intersect b s) as [offset|] eqn:Hobs;
      cbn [inflight requested]; [|lia].
    apply on_intersect_Some in Hobs as (_ & _ & Hl & Hm & _).
    destruct fl as [[co ap]|].
    + destruct Hflight as [_ Hbusy]. rewrite Hl, Hm in Hbusy. discriminate.
    + rewrite length_app. simpl. lia.
  - destruct fl as [[co ap]|]; cbn [inflight requested]; lia.
Qed.

(** X25: the pager never has two fetches in flight. In every session
    that starts with the first load, the number of pages requested is at
    most one more than the number of responses that arrived; an
    intersection signalled while a fetch is pending requests nothing. *)
Theorem pager_one_fetch_at_a_time es :
  (length (requested (run_events mounted es))
   ≤ 1 + length (List.filter (λ e, match e with Settled _ => true | _ => false end) es))%nat.
Proof.
  assert (H : ∀ es x, consistent x →
            consistent (run_events x es) ∧
            (length (requested (run_events x es))
             + match inflight (run_events x es) with None => 1 | Some _ => 0 end
             ≤ length (requested x) + match inflight x with None => 1 | Some _ => 0 end
               + length (List.filter (λ e, match e with Settled _ => true | _ => false end)
                                     es))%nat).
  { clear es. induction es as [|e es IH]; intros x Hx; [split; [exact Hx|simpl; lia]|].
    destruct (IH (step x e) (pager_step_consistent x e Hx)) as [Hc Hb].
    pose proof (pager_step_budget x e Hx) as Hs.
    change (run_events x (e :: es)) with (run_events (step x e) es).
    split; [exact Hc|]. destruct e; simpl in *; lia. }
  destruct (H es mounted) as [_ Hb]; [split; [reflexivity|split; reflexivity]|].
  simpl in Hb. lia.
Qed.

End PagerSessions.

(** ** formatRelativeTime *)

(** X26: a time less than a minute before [now], and any time after
    [now], is shown as "방금 전" (just now). *)
Theorem formatRelativeTime_just_now now targetDate :
  (now - targetDate < 60000)%Z →
  formatRelativeTime now targetDate = "방금 전".
Proof.
  intros H. unfold formatRelativeTime. cbv zeta.
  destruct (Z.ltb_spec ((now - targetDate) `div` 1000) 60) as [_|Hge]; [reflexivity|].
  exfalso. Z.div_mod_to_equations. lia.
Qed.

Lemma formatRelativeTime_just_now_witness :
  formatRelativeTime 1700000000000 1700000059999 = "방금 전" ∧
  formatRelativeTime 1700000059999 1700000000000 = "방금 전".
Proof.
  split; apply formatRelativeTime_just_now; lia.
Defined.

(** X27: the month and year thresholds leave two gaps in which the
    count shown is zero. A time 28 or 29 whole days before [now] is no
    longer counted in weeks (4 weeks have passed) and is shown as
    "0개월 전" (0 months ago), since months are days divided by 30; a
    time 360 to 364 whole days before [now] is shown as "0년 전"
    (0 years ago), since 12 months of 30 days have passed and years are
    days divided by 365. *)
Theorem formatRelativeTime_zero_counts now targetDate :
  ((28 * 86400000 ≤ now - targetDate < 30 * 86400000)%Z →
   formatRelativeTime now targetDate = "0개월 전") ∧
  ((360 * 86400000 ≤ now - targetDate < 365 * 86400000)%Z →
   formatRelativeTime now targetDate = "0년 전").
Proof.
  unfold formatRelativeTime. cbv zeta.
  set (seconds := ((now - targetDate) `div` 1000)%Z).
  set (minutes := (seconds `div` 60)%Z).
  set (hours := (minutes `div` 60)%Z).
  set (days := (hours `div` 24)%Z).
  split; intros H.
  - assert (Hdays : (28 ≤ days < 30)%Z)
      by (subst days hours minutes seconds; Z.div_mod_to_equations; lia).
    assert (Hmonths : (days `div` 30 = 0)%Z) by (apply Z.div_small; lia).
    rewrite Hmonths.
    repeat match goal with
           | |- context [(?a <? ?b)%Z] =>
             destruct (Z.ltb_spec a b);
               [try (exfalso; subst days hours minutes seconds;
                     Z.div_mod_to_equations; lia)
               |try (exfalso; subst days hours minutes seconds;
                     Z.div_mod_to_equations; lia)]
           end.
    reflexivity.
  - assert (Hdays : (360 ≤ days < 365)%Z)
      by (subst days hours minutes seconds; Z.div_mod_to_equations; lia).
    assert (Hyears : (days `div` 365 = 0)%Z) by (apply Z.div_small; lia).
    rewrite Hyears.
    repeat match goal with
           | |- context [(?a <? ?b)%Z] =>
             destruct (Z.ltb_spec a b);
               [try (exfalso; subst days hours minutes seconds;
                     Z.div_mod_to_equations; lia)
               |try (exfalso; subst days hours minutes seconds;
                     Z.div_mod_to_equations; lia)]
           end.
    reflexivity.
Qed.

Lemma formatRelativeTime_zero_counts_witness :
  formatRelativeTime (29 * 86400000) 0 = "0개월 전" ∧
  formatRelativeTime (364 * 86400000 + 1700000000000) 1700000000000 = "0년 전".
Proof.
  split.
  - apply (proj1 (formatRelativeTime_zero_counts (29 * 86400000) 0)). lia.
  - apply (proj2 (formatRelativeTime_zero_counts (364 * 86400000 + 1700000000000)
                    1700000000000)). lia.
Defined.

(** ** The comment form against the comments route *)

Lemma filter_fresh_id uuid (cs : list Comment.t) :
  Forall (λ c0, Comment.id c0 ≠ uuid) cs →
  List.filter (λ c0, bool_decide (Comment.id c0 = uuid)) cs = [].
Proof.
  induction 1 as [|c0 cs Hne _ IH]; [reflexivity|].
  cbn [List.filter]. by rewrite bool_decide_eq_false_2.
Qed.

(** With an id no stored comment has, the inserted comment is read back
    joined with its author. *)
Lemma POST_comments_joined clerkUserId c b post_id content u p uuid now w :
  truthy clerkUserId = Some c →
  required_string (field b "post_id") = Some post_id →
  required_string (field b "content") = Some content →
  trim content ≠ "" →
  (js_length content ≤ 1000)%nat →
  has_NUL content = false →
  user_by_clerk_id c (db w) = QData u →
  post_by_id post_id (db w) = QData p →
  Forall (λ c0, Comment.id c0 ≠ uuid) (comments (db w)) →
  let out := run (POST_comments clerkUserId (Some b) uuid now) w in
  let row := Comment.mk uuid post_id (User.id u) (trim content) now now in
  ∃ author,
    out.1 = NextResponse_json (BComment (with_user row (Some author))) (Some 201%Z) ∧
    db out.2 = mkDb (users (db w)) (posts (db w)) (likes (db w)) (comments (db w) ++ [row]).
Proof.
  intros Hc Hp_id Hcontent Htrim Hlen Hnul Hu Hp Hfresh out row. subst out.
  unfold POST_comments, run, bind, request_json, select, insert, ret, respond.
  rewrite Hc, Hp_id, Hcontent.
  rewrite bool_decide_eq_false_2 by (by rewrite js_length_0).
  replace (1000 <? js_length content)%nat with false
    by (symmetry; apply Nat.ltb_ge; exact Hlen).
  cbn [db trace]. rewrite Hu. cbn [db trace]. rewrite Hp. cbn [db trace].
  unfold insert_comment.
  rewrite (post_by_id_exists _ _ _ Hp), (user_by_clerk_id_exists _ _ _ Hu). cbn [negb].
  rewrite (has_NUL_trim _ Hnul).
  replace (1000 <? LENGTH (trim content))%nat with false
    by (symmetry; apply Nat.ltb_ge;
        pose proof (js_length_trim content); pose proof (LENGTH_le_js_length (trim content));
        lia).
  cbn [db trace Comment.id]. subst row.
  set (row := Comment.mk uuid post_id (User.id u) (trim content) now now).
  set (d' := mkDb (users (db w)) (posts (db w)) (likes (db w)) (comments (db w) ++ [row])).
  destruct (user_by_id_exists (User.id u) d' (user_by_clerk_id_exists _ _ _ Hu))
    as [author Hauthor].
  assert (Hjoin : comment_with_user_by_id uuid d' = QData (row, Some author)).
  { unfold comment_with_user_by_id, d'. cbn [comments].
    rewrite List.filter_app.
    rewrite (filter_fresh_id _ _ Hfresh).
    cbn [List.filter app]. rewrite bool_decide_eq_true_2 by reflexivity.
    cbn [List.map single]. change (Comment.user_id row) with (User.id u).
    fold d'. by rewrite Hauthor. }
  rewrite Hjoin. cbn [fst snd db]. exists author. split; reflexivity.
Qed.

(** X28: what the comment form sends, the route accepts. When
    [handleSubmit] sends a request for an existing post on behalf of a
    signed-in, synced user, and the text typed holds no NUL character,
    the route answers 201, stores exactly the input trimmed of the white
    space of Unicode as one new comment, and the form, on that response,
    clears its input, stops loading and hands the new comment to
    [onCommentAdded]. Form and route trim alike and count UTF-16 code
    units alike. *)
Theorem form_submission_round_trip s s1 e trimmedContent clerkUserId c postId u p uuid now w :
  Form.handleSubmit_start s = (s1, e, Some trimmedContent) →
  has_NUL (Form.content s) = false →
  truthy clerkUserId = Some c →
  postId ≠ "" →
  user_by_clerk_id c (db w) = QData u →
  post_by_id postId (db w) = QData p →
  Forall (λ c0, Comment.id c0 ≠ uuid) (comments (db w)) →
  let b : gmap string JsValue :=
    {[ "post_id" := JsString postId; "content" := JsString trimmedContent ]} in
  let out := run (POST_comments clerkUserId (Some b) uuid now) w in
  ∃ newComment,
    status out.1 = 201%Z ∧
    comments (db out.2) = (comments (db w) ++ [comment_of newComment])%list ∧
    CommentWithUser.content newComment = trim (Form.content s) ∧
    Form.handleSubmit_settle (Form.Resolved out.1) s1
    = (Form.mkState "" false None, Some newComment, None).
Proof.
  intros Hstart Hnul Hc Hid Hu Hp Hfresh b out.
  unfold Form.handleSubmit_start in Hstart.
  destruct (bool_decide (trim (Form.content s) = "")) eqn:Hempty; [discriminate|].
  apply bool_decide_eq_false in Hempty.
  destruct (bool_decide (Form.MAX_COMMENT_LENGTH < js_length (trim (Form.content s)))%nat)
    eqn:Hlong; [discriminate|].
  apply bool_decide_eq_false in Hlong. unfold Form.MAX_COMMENT_LENGTH in Hlong.
  destruct (Form.isLoading s); [discriminate|].
  injection Hstart as <- _ <-.
  assert (Hb1 : required_string (field b "post_id") = Some postId).
  { unfold field, b. simplify_map_eq. unfold required_string.
    by rewrite bool_decide_eq_false_2. }
  assert (Hb2 : required_string (field b "content") = Some (trim (Form.content s))).
  { unfold field, b. simplify_map_eq. unfold required_string.
    by rewrite bool_decide_eq_false_2. }
  destruct (POST_comments_joined clerkUserId c b postId (trim (Form.content s)) u p uuid now w
              Hc Hb1 Hb2) as (author & Hout & Hdb); try assumption.
  { by rewrite trim_idempotent. }
  { lia. }
  { by apply has_NUL_trim. }
  fold out in Hout, Hdb. rewrite trim_idempotent in Hout, Hdb.
  exists (with_user (Comment.mk uuid postId (User.id u) (trim (Form.content s)) now now)
            (Some author)).
  rewrite Hout, Hdb. cbn [status NextResponse_json comments].
  split; [reflexivity|]. split; [reflexivity|]. split; [reflexivity|].
  reflexivity.
Qed.

Lemma form_submission_round_trip_witness :
  let typed := utf8 0x3000 +:+ "안녕 " +:+ utf8 0xA0 in
  let s := Form.mkState typed false None in
  let w := mkWorld twelve_posts [] in
  let b : gmap string JsValue :=
    {[ "post_id" := JsString "p03"; "content" := JsString "안녕" ]} in
  let out := run (POST_comments (Some "clerk_2") (Some b) "c1" 60) w in
  Form.handleSubmit_start s = (Form.mkState typed true None, None, Some "안녕") ∧
  ∃ newComment,
    status out.1 = 201%Z ∧
    comments (db out.2) = (comments (db w) ++ [comment_of newComment])%list ∧
    CommentWithUser.content newComment = trim (Form.content s) ∧
    Form.handleSubmit_settle (Form.Resolved out.1) (Form.mkState typed true None)
    = (Form.mkState "" false None, Some newComment, None).
Proof.
  intros typed s w b out.
  assert (Hstart : Form.handleSubmit_start s
                   = (Form.mkState typed true None, None, Some "안녕"))
    by (vm_compute; reflexivity).
  split; [exact Hstart|].
  assert (Hid : "p03" ≠ "") by discriminate.
  exact (form_submission_round_trip s (Form.mkState typed true None) None "안녕"
           (Some "clerk_2") "clerk_2" "p03" bob (post_at ("p03", 3%Z)) "c1" 60 w
           Hstart eq_refl eq_refl Hid eq_refl eq_refl (List.Forall_nil _)).
Defined.

(** The form and a text of nothing but white space of Unicode, and the
    form and 400 Hangul syllables: the first is not sent, the second is
    held and sent as it is. *)
Example form_trims_and_counts_as_the_route :
  let blank := Form.mkState (utf8 0xA0 +:+ utf8 0x2003 +:+ utf8 0xFEFF) false None in
  let hangul := repeat_string 400 "가" in
  Form.handleSubmit_start blank = (blank, None, None) ∧
  Form.canSubmit blank = false ∧
  String.length hangul = 1200%nat ∧
  Form.content (Form.handleInputChange hangul Form.initial) = hangul ∧
  Form.handleSubmit_start (Form.handleInputChange hangul Form.initial)
  = (Form.mkState hangul true None, None, Some hangul).
Proof. vm_compute. repeat split; reflexivity. Qed.

Lemma form_step_consistent x e :
  FormSession.consistent x → FormSession.consistent (FormSession.step x e).
Proof.
  destruct x as [[content isLoading error] pending sent added].
  unfold FormSession.consistent. cbn [FormSession.state FormSession.pending
    FormSession.sent FormSession.added Form.content Form.isLoading].
  intros (Hlen & Hsent & Hpending & Hadded). subst pending.
  destruct e as [value| |f]; cbn [FormSession.step FormSession.state FormSession.pending
    FormSession.sent FormSession.added].
  - unfold Form.handleInputChange. cbn [Form.content Form.isLoading].
    destruct (bool_decide (js_length value ≤ Form.MAX_COMMENT_LENGTH)%nat) eqn:Hv;
      cbn [Form.content Form.isLoading]; [|done].
    apply bool_decide_eq_true in Hv. done.
  - unfold Form.handleSubmit_start. cbn [Form.content Form.isLoading].
    destruct (bool_decide (trim content = "")) eqn:Hempty;
      cbn [FormSession.state FormSession.pending FormSession.sent FormSession.added
           Form.content Form.isLoading]; [done|].
    destruct (bool_decide (Form.MAX_COMMENT_LENGTH < js_length (trim content))%nat)
      eqn:Hlong;
      cbn [FormSession.state FormSession.pending FormSession.sent FormSession.added
           Form.content Form.isLoading]; [done|].
    destruct isLoading;
      cbn [FormSession.state FormSession.pending FormSession.sent FormSession.added
           Form.content Form.isLoading]; [done|].
    apply bool_decide_eq_false in Hempty. apply bool_decide_eq_false in Hlong.
    repeat split; [done| |rewrite length_app; simpl; lia].
    apply Forall_app. split; [done|]. apply Forall_singleton.
    repeat split; [done|apply trim_idempotent|lia].
  - destruct isLoading; [|done].
    unfold Form.handleSubmit_settle. cbn [Form.content Form.isLoading Form.error].
    destruct f as [message|r].
    + cbn [FormSession.state FormSession.pending FormSession.sent FormSession.added
           Form.content Form.isLoading]. repeat split; [done..|lia].
    + destruct (ok (status r)); [destruct (body r) as [| | | |newComment|];
        [| | | |destruct (CommentWithUser.user newComment)|]|];
        cbn [FormSession.state FormSession.pending FormSession.sent FormSession.added
             Form.content Form.isLoading];
        repeat split; try done; try (simpl; lia); try (vm_compute; lia).
      rewrite length_app. simpl. lia.
Qed.

(** X29: whatever is typed, submitted and answered, the comment form
    never holds more than 1000 UTF-16 code units, every content it
    sends is non-empty, already trimmed of the white space of Unicode
    and at most 1000 code units long, a request is in flight exactly
    while [isLoading] is set, and [onCommentAdded] is called at most
    once per settled request. *)
Theorem form_sends_only_valid_comments es :
  FormSession.consistent (FormSession.run_events FormSession.opened es).
Proof.
  unfold FormSession.run_events.
  assert (H0 : FormSession.consistent FormSession.opened).
  { unfold FormSession.consistent. simpl. repeat split; [vm_compute; lia|constructor|lia]. }
  revert H0. generalize FormSession.opened.
  induction es as [|e es IH]; intros x Hx; [exact Hx|].
  simpl. apply IH. by apply form_step_consistent.
Qed.
